(** * A shallow embedding of the course generator of visionflow

    The embedded code is [src/api/generator.py] ([clean_json_string],
    [generate_syllabus], [search_youtube_video], [generate_course]) and
    the POST endpoint [generate_course_api] of [src/api/index.py].

    Python strings are sequences of Unicode code points; they are
    modelled as [list N].  The external services (the Gemini client, the
    YouTube search, [json.loads], [str.lower], [random.randint]) are not
    code of this repository: they enter as parameters or as the outcome
    they produced for the call at hand. *)

From Stdlib Require Import List String Ascii NArith ZArith Bool Lia.
Import ListNotations.
Open Scope N_scope.
Open Scope list_scope.

(** ** Python strings *)

Definition str := list N.

(** A string literal written in ASCII. *)
Definition lit (x : string) : str :=
  map (fun a => N.of_nat (nat_of_ascii a)) (list_ascii_of_string x).

Definition str_eqb (a b : str) : bool := if list_eq_dec N.eq_dec a b then true else false.

Fixpoint starts_with (p s : str) : bool :=
  match p, s with
  | [], _ => true
  | c :: p', d :: s' => N.eqb c d && starts_with p' s'
  | _ :: _, [] => false
  end.

Definition ends_with (p s : str) : bool := starts_with (rev p) (rev s).

(** [sub in s] for two strings: substring test. *)
Fixpoint str_contains (sub s : str) : bool :=
  starts_with sub s ||
  match s with
  | [] => false
  | _ :: s' => str_contains sub s'
  end.

(** [Py_UNICODE_ISSPACE]: the characters [str.isspace], [str.strip] and
    the regular-expression class [\s] treat as whitespace. *)
Definition py_isspace (c : N) : bool :=
  ((9 <=? c) && (c <=? 13)) || ((28 <=? c) && (c <=? 32))
  || (c =? 133) || (c =? 160) || (c =? 5760)
  || ((8192 <=? c) && (c <=? 8202))
  || (c =? 8232) || (c =? 8233) || (c =? 8239) || (c =? 8287) || (c =? 12288).

Fixpoint drop_space (s : str) : str :=
  match s with
  | c :: s' => if py_isspace c then drop_space s' else s
  | [] => []
  end.

(** [str.strip()] *)
Definition py_strip (s : str) : str := rev (drop_space (rev (drop_space s))).

Definition backtick : N := 96.
Definition fence : str := [backtick; backtick; backtick].

(** ** [clean_json_string] *)

(** [re.sub(r'^```json\s*', '', text, flags=re.IGNORECASE)].  The match is
    anchored at the start, so there is at most one; under IGNORECASE the
    letters of [json] match either case, and [s] also matches the long s
    (U+017F). *)
Definition ci_j (c : N) : bool := (c =? 106) || (c =? 74).
Definition ci_s (c : N) : bool := (c =? 115) || (c =? 83) || (c =? 383).
Definition ci_o (c : N) : bool := (c =? 111) || (c =? 79).
Definition ci_n (c : N) : bool := (c =? 110) || (c =? 78).

Definition sub_open_json_fence (text : str) : str :=
  match text with
  | a :: b :: c :: j :: s :: o :: n :: rest =>
      if (a =? backtick) && (b =? backtick) && (c =? backtick)
         && ci_j j && ci_s s && ci_o o && ci_n n
      then drop_space rest else text
  | _ => text
  end.

(** [re.sub(r'^```\s*', '', text)] *)
Definition sub_open_fence (text : str) : str :=
  match text with
  | a :: b :: c :: rest =>
      if (a =? backtick) && (b =? backtick) && (c =? backtick)
      then drop_space rest else text
  | _ => text
  end.

(** One attempt of [\s*```$] at the current position: the greedy [\s*]
    takes the whole run of whitespace (a shorter run would leave a
    whitespace character where the first backtick must be), then three
    backticks, then [$], which holds at the end of the string or just
    before a newline that ends it.  On success the text after the match
    is returned. *)
Definition match_close_fence (s : str) : option str :=
  match drop_space s with
  | a :: b :: c :: rest =>
      if (a =? backtick) && (b =? backtick) && (c =? backtick) then
        match rest with
        | [] => Some []
        | [10%N] => Some [10%N]
        | _ => None
        end
      else None
  | _ => None
  end.

(** [re.sub(r'\s*```$', '', text)]: the leftmost match is removed; the
    search resumes after it, where only [""] or ["\n"] is left, in which
    the pattern cannot match again. *)
Fixpoint sub_close_fence (text : str) : str :=
  match match_close_fence text with
  | Some rest => rest
  | None =>
      match text with
      | [] => []
      | c :: text' => c :: sub_close_fence text'
      end
  end.

Definition clean_json_string (text : str) : str :=
  let text := sub_open_json_fence text in
  let text := sub_open_fence text in
  let text := sub_close_fence text in
  py_strip text.


(** ** Decimal rendering of integers ([str(n)]) *)

Fixpoint n_digits (fuel : nat) (n : N) (acc : str) : str :=
  match fuel with
  | O => acc
  | S f =>
      let acc' := (48 + n mod 10) :: acc in
      if n / 10 =? 0 then acc' else n_digits f (n / 10) acc'
  end.

Definition n_dec (n : N) : str := n_digits (S (N.size_nat n)) n [].

Definition z_dec (z : Z) : str :=
  match z with
  | Z0 => lit "0"
  | Zpos p => n_dec (Npos p)
  | Zneg p => lit "-" ++ n_dec (Npos p)
  end.

Fixpoint join (sep : str) (xs : list str) : str :=
  match xs with
  | [] => []
  | [x] => x
  | x :: xs' => x ++ sep ++ join sep xs'
  end.

(** ** Python values produced by [json.loads] *)

(** A JSON number is an integer here; beyond its type and its truth
    value, the embedded code only depends on whether it fits the 64 bits
    in which sqlite3 binds an integer. *)
#[warnings="-register-all"]
Inductive json : Type :=
| JNull
| JBool (b : bool)
| JNum (z : Z)
| JStr (s : str)
| JArr (xs : list json)
| JObj (fields : list (str * json)).

Definition quote : N := 39.

(** [repr] of a value, used by [str()] of a non-string.  Quotes inside
    strings are not escaped; no claim depends on how a container prints. *)
Fixpoint py_repr (v : json) : str :=
  match v with
  | JNull => lit "None"
  | JBool true => lit "True"
  | JBool false => lit "False"
  | JNum z => z_dec z
  | JStr s => [quote] ++ s ++ [quote]
  | JArr xs => lit "[" ++ join (lit ", ") (map py_repr xs) ++ lit "]"
  | JObj fs =>
      lit "{" ++ join (lit ", ")
        (map (fun kv => [quote] ++ fst kv ++ [quote] ++ lit ": " ++ py_repr (snd kv)) fs)
      ++ lit "}"
  end.

(** [str(v)], as an f-string renders it. *)
Definition py_str (v : json) : str :=
  match v with
  | JStr s => s
  | _ => py_repr v
  end.

Definition py_type_name (v : json) : str :=
  match v with
  | JNull => lit "NoneType"
  | JBool _ => lit "bool"
  | JNum _ => lit "int"
  | JStr _ => lit "str"
  | JArr _ => lit "list"
  | JObj _ => lit "dict"
  end.

Definition py_truthy (v : json) : bool :=
  match v with
  | JNull => false
  | JBool b => b
  | JNum z => negb (Z.eqb z 0)
  | JStr s => match s with [] => false | _ => true end
  | JArr xs => match xs with [] => false | _ => true end
  | JObj fs => match fs with [] => false | _ => true end
  end.

(** A JSON object with a repeated key becomes a dict whose key keeps its
    first position and its last value. *)
Definition dict_lookup (k : str) (fs : list (str * json)) : option json :=
  fold_left (fun acc kv => if str_eqb k (fst kv) then Some (snd kv) else acc) fs None.

Fixpoint dict_keys_from (seen : list str) (fs : list (str * json)) : list str :=
  match fs with
  | [] => []
  | (k, _) :: fs' =>
      if existsb (str_eqb k) seen then dict_keys_from seen fs'
      else k :: dict_keys_from (k :: seen) fs'
  end.

Definition dict_keys (fs : list (str * json)) : list str := dict_keys_from [] fs.

(** ** Python exceptions and fallible computations *)

Inductive exn : Type :=
| ValueError (msg : str)
| TypeError (msg : str)
| KeyError (key : str)
| AttributeError (msg : str)
| IntegrityError (msg : str)
(** an exception of an external client library, with its message *)
| ServiceError (msg : str).

(** [str(e)] *)
Definition exn_str (e : exn) : str :=
  match e with
  | ValueError m | TypeError m | AttributeError m | IntegrityError m | ServiceError m => m
  | KeyError k => [quote] ++ k ++ [quote]
  end.

Inductive result (A : Type) : Type :=
| Ok (a : A)
| Err (e : exn).
Arguments Ok {A} a.
Arguments Err {A} e.

Definition rbind {A B} (m : result A) (f : A -> result B) : result B :=
  match m with
  | Ok a => f a
  | Err e => Err e
  end.

Notation "'let?' x ':=' m 'in' k" := (rbind m (fun x => k))
  (at level 200, x name, m at level 100, k at level 200).

(** [key in v] for a string key. *)
Definition py_in (k : str) (v : json) : result bool :=
  match v with
  | JObj fs => Ok (existsb (fun kv => str_eqb k (fst kv)) fs)
  | JArr xs => Ok (existsb (fun x => match x with JStr s => str_eqb k s | _ => false end) xs)
  | JStr s => Ok (str_contains k s)
  | _ => Err (TypeError (lit "argument of type " ++ [quote] ++ py_type_name v ++ [quote]
                         ++ lit " is not iterable"))
  end.

(** [v[k]] for a string key. *)
Definition py_getitem (v : json) (k : str) : result json :=
  match v with
  | JObj fs =>
      match dict_lookup k fs with
      | Some x => Ok x
      | None => Err (KeyError k)
      end
  | JArr _ => Err (TypeError (lit "list indices must be integers or slices, not str"))
  | JStr _ => Err (TypeError (lit "string indices must be integers, not " ++ [quote]
                              ++ lit "str" ++ [quote]))
  | _ => Err (TypeError ([quote] ++ py_type_name v ++ [quote] ++ lit " object is not subscriptable"))
  end.

Definition no_attribute (v : json) (name : string) : exn :=
  AttributeError ([quote] ++ py_type_name v ++ [quote] ++ lit " object has no attribute "
                  ++ [quote] ++ lit name ++ [quote]).

(** [v.get(k, default)] *)
Definition py_get (v : json) (k : str) (default : json) : result json :=
  match v with
  | JObj fs =>
      match dict_lookup k fs with
      | Some x => Ok x
      | None => Ok default
      end
  | _ => Err (no_attribute v "get")
  end.

(** [len(v)] *)
Definition py_len (v : json) : result nat :=
  match v with
  | JArr xs => Ok (List.length xs)
  | JObj fs => Ok (List.length (dict_keys fs))
  | JStr s => Ok (List.length s)
  | _ => Err (TypeError (lit "object of type " ++ [quote] ++ py_type_name v ++ [quote]
                         ++ lit " has no len()"))
  end.

(** The items [for x in v] visits. *)
Definition py_iter (v : json) : result (list json) :=
  match v with
  | JArr xs => Ok xs
  | JObj fs => Ok (map JStr (dict_keys fs))
  | JStr s => Ok (map (fun c => JStr [c]) s)
  | _ => Err (TypeError ([quote] ++ py_type_name v ++ [quote] ++ lit " object is not iterable"))
  end.

(** ** The store and the SQLAlchemy session *)

Record course_obj : Type := {
  course_id : str;
  course_title : json;
  course_description : json;
  course_thumbnail_url : str;
  course_level : json;
  course_is_generated : bool }.

Record module_obj : Type := {
  module_id : option N;            (* primary key, assigned by a flush *)
  module_course_id : str;
  module_title : json;
  module_order_index : nat }.

Record lesson_obj : Type := {
  lesson_module_id : option N;
  lesson_title : json;
  lesson_video_url : json;
  lesson_duration : json;
  lesson_order_index : nat }.

Inductive obj : Type :=
| OCourse (c : course_obj)
| OModule (m : module_obj)
| OLesson (l : lesson_obj).

(** [store]: the committed rows; [heap]: the ORM instances created by the
    request, addressed by their index; [staged]: the instances added to
    [db.session] and not yet committed; [next_id]: the next value of the
    autoincrement key of [Module]. *)
Record db : Type := {
  store : list obj;
  heap : list obj;
  staged : list nat;
  next_id : N }.

Definition M (A : Type) : Type := db -> result A * db.

Definition mret {A} (a : A) : M A := fun s => (Ok a, s).

Definition mbind {A B} (m : M A) (f : A -> M B) : M B :=
  fun s => match m s with
           | (Ok a, s') => f a s'
           | (Err e, s') => (Err e, s')
           end.

Notation "x <- m ;; k" := (mbind m (fun x => k))
  (at level 61, m at next level, right associativity).
Notation "m ;;; k" := (mbind m (fun _ => k))
  (at level 61, right associativity).

(** A computation that does not touch the session. *)
Definition lift {A} (r : result A) : M A := fun s => (r, s).

Definition course_ids (os : list obj) : list str :=
  flat_map (fun o => match o with OCourse c => [course_id c] | _ => [] end) os.

(** Creating an ORM instance: a new object, outside the session. *)
Definition new_obj (o : obj) : M nat :=
  fun s => (Ok (List.length (heap s)),
            {| store := store s; heap := heap s ++ [o]; staged := staged s; next_id := next_id s |}).

Definition deref (s : db) (r : nat) : option obj := nth_error (heap s) r.

Fixpoint set_nth {A} (n : nat) (x : A) (l : list A) : list A :=
  match n, l with
  | O, _ :: l' => x :: l'
  | S n', y :: l' => y :: set_nth n' x l'
  | _, [] => []
  end.

(** [db.session.add(o)] *)
Definition session_add (r : nat) : M unit :=
  fun s => (Ok tt,
            {| store := store s; heap := heap s;
               staged := if existsb (Nat.eqb r) (staged s) then staged s else staged s ++ [r];
               next_id := next_id s |}).

Definition staged_objs (s : db) : list obj :=
  flat_map (fun r => match deref s r with Some o => [o] | None => [] end) (staged s).

(** The key assignment of a flush: every staged [Module] without a key
    receives the next autoincrement value. *)
Fixpoint assign_ids (rs : list nat) (hp : list obj) (nid : N) : list obj * N :=
  match rs with
  | [] => (hp, nid)
  | r :: rs' =>
      match nth_error hp r with
      | Some (OModule m) =>
          match module_id m with
          | None =>
              assign_ids rs'
                (set_nth r (OModule {| module_id := Some nid; module_course_id := module_course_id m;
                                       module_title := module_title m;
                                       module_order_index := module_order_index m |}) hp)
                (nid + 1)
          | Some _ => assign_ids rs' hp nid
          end
      | _ => assign_ids rs' hp nid
      end
  end.

(** ** Statements sent to SQLite *)

(** A parameter of a statement: a value that came with the request, the
    model's answer or the search, bound as Python has it, or an integer
    the code computes (an [order_index]) or the database assigned (a
    key), far below the 64-bit limit. *)
Inductive sql_param : Type :=
| PValue (v : json)
| PInt (n : N).

(** A bound parameter with its column and whether the column is
    [nullable=False]. *)
Record sql_arg : Type := {
  arg_column : string;
  arg_not_null : bool;
  arg_value : sql_param }.

(** A statement of the ORM: an INSERT (the [created_at] value, a
    [datetime] that always binds, is not listed) or a SELECT by columns. *)
Record statement : Type := {
  st_insert : bool;
  st_table : string;
  st_args : list sql_arg }.

(** How SQLAlchemy reports a failing statement.  [str(e)] of the
    [IntegrityError] it raises is ["(sqlite3.IntegrityError) "] followed
    by SQLite's message and by [sa_detail st]: the [[SQL: ...]] line, the
    [[parameters: ...]] line (the [repr] of the values, with the
    [created_at] timestamp) and the link to the error's background,
    which depend on the SQLAlchemy and Python versions and on the clock.
    [sa_bind_error st i] is the exception raised when sqlite3 cannot bind
    parameter [i] (from 1) of [st]: for a list or a dict an
    [InterfaceError] or a [ProgrammingError] that SQLAlchemy wraps, for an
    integer beyond 64 bits an [OverflowError], for a string with a lone
    surrogate a [UnicodeEncodeError] (a [ValueError]), with the class and
    the text of the Python version at hand. *)
Record sa_render : Type := {
  sa_detail : statement -> str;
  sa_bind_error : statement -> nat -> exn }.

Definition is_surrogate (c : N) : bool := (55296 <=? c) && (c <=? 57343).

(** The values sqlite3 binds: [None], a [bool], an [int] of 64 bits and
    a [str] that UTF-8 can encode. *)
Definition bindable (v : json) : bool :=
  match v with
  | JNull | JBool _ => true
  | JNum z => (- 2 ^ 63 <=? z)%Z && (z <? 2 ^ 63)%Z
  | JStr s => negb (existsb is_surrogate s)
  | JArr _ | JObj _ => false
  end.

Definition bindable_param (p : sql_param) : bool :=
  match p with
  | PValue v => bindable v
  | PInt _ => true
  end.

(** The position (from [i]) of the first parameter that does not bind;
    sqlite3 binds the parameters in order and stops at the first failure. *)
Fixpoint first_unbindable (i : nat) (args : list sql_arg) : option nat :=
  match args with
  | [] => None
  | a :: args' => if bindable_param (arg_value a) then first_unbindable (S i) args' else Some i
  end.

(** Binding the parameters of [st]. *)
Definition bind_check (sa : sa_render) (st : statement) : result unit :=
  match first_unbindable 1 (st_args st) with
  | Some i => Err (sa_bind_error sa st i)
  | None => Ok tt
  end.

Definition is_null (p : sql_param) : bool :=
  match p with
  | PValue JNull => true
  | _ => false
  end.

(** The first NOT NULL column, in table order, that receives NULL. *)
Definition null_column (st : statement) : option string :=
  option_map arg_column (find (fun a => arg_not_null a && is_null (arg_value a)) (st_args st)).

(** The [IntegrityError] of a failed constraint of [st]. *)
Definition constraint_error (sa : sa_render) (st : statement) (kind column : string) : exn :=
  IntegrityError (lit "(sqlite3.IntegrityError) " ++ lit kind ++ lit " constraint failed: "
                  ++ lit (st_table st) ++ lit "." ++ lit column ++ sa_detail sa st).

(** Executing an INSERT: the parameters are bound, then SQLite checks the
    NOT NULL columns in table order, then the UNIQUE ones; [dup] is the
    first UNIQUE column whose value the table already holds. *)
Definition insert_check (sa : sa_render) (st : statement) (dup : option string) : result unit :=
  let? _ := bind_check sa st in
  match null_column st with
  | Some column => Err (constraint_error sa st "NOT NULL" column)
  | None =>
      match dup with
      | Some column => Err (constraint_error sa st "UNIQUE" column)
      | None => Ok tt
      end
  end.

Definition key_param (k : option N) : sql_param :=
  match k with
  | Some i => PInt i
  | None => PValue JNull
  end.

(** The INSERT of an object, with the columns of its model in order. *)
Definition insert_stmt (o : obj) : statement :=
  match o with
  | OCourse c =>
      {| st_insert := true; st_table := "course";
         st_args := [{| arg_column := "id"; arg_not_null := true; arg_value := PValue (JStr (course_id c)) |};
                     {| arg_column := "title"; arg_not_null := true; arg_value := PValue (course_title c) |};
                     {| arg_column := "description"; arg_not_null := false;
                        arg_value := PValue (course_description c) |};
                     {| arg_column := "thumbnail_url"; arg_not_null := false;
                        arg_value := PValue (JStr (course_thumbnail_url c)) |};
                     {| arg_column := "level"; arg_not_null := false; arg_value := PValue (course_level c) |};
                     {| arg_column := "is_generated"; arg_not_null := false;
                        arg_value := PValue (JBool (course_is_generated c)) |}] |}
  | OModule m =>
      {| st_insert := true; st_table := "module";
         st_args := [{| arg_column := "course_id"; arg_not_null := true;
                        arg_value := PValue (JStr (module_course_id m)) |};
                     {| arg_column := "title"; arg_not_null := true; arg_value := PValue (module_title m) |};
                     {| arg_column := "order_index"; arg_not_null := true;
                        arg_value := PInt (N.of_nat (module_order_index m)) |}] |}
  | OLesson l =>
      {| st_insert := true; st_table := "lesson";
         st_args := [{| arg_column := "module_id"; arg_not_null := true;
                        arg_value := key_param (lesson_module_id l) |};
                     {| arg_column := "title"; arg_not_null := true; arg_value := PValue (lesson_title l) |};
                     {| arg_column := "video_url"; arg_not_null := true;
                        arg_value := PValue (lesson_video_url l) |};
                     {| arg_column := "duration"; arg_not_null := false;
                        arg_value := PValue (lesson_duration l) |};
                     {| arg_column := "order_index"; arg_not_null := true;
                        arg_value := PInt (N.of_nat (lesson_order_index l)) |}] |}
  end.

(** The primary key of [course] is its only UNIQUE column. *)
Definition course_dup (taken : list str) (o : obj) : option string :=
  match o with
  | OCourse c => if existsb (str_eqb (course_id c)) taken then Some "id"%string else None
  | _ => None
  end.

(** The statements of a flush, one per row in order; [taken] holds the
    course ids already in the table. *)
Fixpoint check_rows (sa : sa_render) (taken : list str) (rows : list obj) : result unit :=
  match rows with
  | [] => Ok tt
  | o :: rows' =>
      let? _ := insert_check sa (insert_stmt o) (course_dup taken o) in
      check_rows sa (taken ++ course_ids [o]) rows'
  end.

Definition is_course (o : obj) : bool := match o with OCourse _ => true | _ => false end.
Definition is_module (o : obj) : bool := match o with OModule _ => true | _ => false end.
Definition is_lesson (o : obj) : bool := match o with OLesson _ => true | _ => false end.

(** The unit of work writes the rows mapper by mapper, in the order of
    the foreign keys ([Course], [Module], [Lesson]), and the rows of one
    mapper in the order they were added. *)
Definition flush_order (os : list obj) : list obj :=
  filter is_course os ++ filter is_module os ++ filter is_lesson os.

(** [db.session.flush()]: the staged rows are written, and a staged
    [Module] receives the next autoincrement key.  A row an earlier flush
    of the transaction wrote passes its checks again unless it changed
    since (the course's thumbnail, then UPDATEd), so checking every staged
    row is what the flush does.  The first failure raises and the flush
    writes nothing. *)
Definition session_flush (sa : sa_render) : M unit :=
  fun s =>
    match check_rows sa (course_ids (store s)) (flush_order (staged_objs s)) with
    | Err e => (Err e, s)
    | Ok _ =>
        let (hp, nid) := assign_ids (staged s) (heap s) (next_id s) in
        (Ok tt, {| store := store s; heap := hp; staged := staged s; next_id := nid |})
    end.

(** [db.session.commit()]: flush, then the staged rows join the store. *)
Definition session_commit (sa : sa_render) : M unit :=
  session_flush sa ;;;
  (fun s => (Ok tt, {| store := store s ++ staged_objs s; heap := heap s; staged := [];
                      next_id := next_id s |})).

(** [db.session.rollback()] *)
Definition session_rollback (s : db) : db :=
  {| store := store s; heap := heap s; staged := []; next_id := next_id s |}.

(** [Course.query.filter_by(id=cid).first()] is not None: a read of the
    store and of the session's pending rows. *)
Definition course_exists (cid : str) : M bool :=
  fun s => (Ok (existsb (str_eqb cid) (course_ids (store s) ++ course_ids (staged_objs s))), s).

(** [module.id] of the instance at [r]. *)
Definition read_module_id (r : nat) : M (option N) :=
  fun s => (Ok (match deref s r with Some (OModule m) => module_id m | _ => None end), s).

Definition with_thumbnail (c : course_obj) (url : str) : course_obj :=
  {| course_id := course_id c; course_title := course_title c;
     course_description := course_description c; course_thumbnail_url := url;
     course_level := course_level c; course_is_generated := course_is_generated c |}.

(** [course.thumbnail_url = url] on the instance at [r], which the session
    holds by reference. *)
Definition set_thumbnail (r : nat) (url : str) : M unit :=
  fun s =>
    match deref s r with
    | Some (OCourse c) =>
        (Ok tt, {| store := store s; heap := set_nth r (OCourse (with_thumbnail c url)) (heap s);
                   staged := staged s; next_id := next_id s |})
    | _ => (Ok tt, s)
    end.

(** ** The generator ([src/api/generator.py]) *)

(** What [client.models.generate_content(...)] did for the prompt built
    from the topic: raise, or answer with a text. *)
Inductive gen_outcome : Type :=
| GenRaises (e : exn)
| GenText (text : str).

(** What [VideosSearch(q, limit=1).result()] did: raise, or return the
    list under ['result'] (a falsy [results] or ['result'] is the empty
    list).  A video is the dict the library returns. *)
Inductive search_outcome : Type :=
| SearchRaises (e : exn)
| SearchReturns (videos : list (list (str * json))).

Record video_info : Type := {
  vi_id : json;
  vi_title : json;
  vi_duration : json }.

Definition fallback_video_id : str := lit "dQw4w9WgXcQ".
Definition default_duration : str := lit "10:00".

Definition fallback_video (query : json) : video_info :=
  {| vi_id := JStr fallback_video_id; vi_title := query; vi_duration := JStr default_duration |}.

Definition dict_get (fs : list (str * json)) (k : str) (default : json) : json :=
  match dict_lookup k fs with
  | Some x => x
  | None => default
  end.

(** [search_youtube_video(query)]: every exception of the [try] block,
    including the [TypeError] of [query + " tutorial"] for a non-string
    query, lands in the fallback. *)
Definition search_youtube_video (yt : str -> search_outcome) (query : json) : video_info :=
  match query with
  | JStr q =>
      match yt (q ++ lit " tutorial") with
      | SearchRaises _ => fallback_video query
      | SearchReturns [] => fallback_video query
      | SearchReturns (video :: _) =>
          {| vi_id := dict_get video (lit "id") (JStr []);
             vi_title := dict_get video (lit "title") query;
             vi_duration := dict_get video (lit "duration") (JStr default_duration) |}
      end
  | _ => fallback_video query
  end.

Definition thumbnail_for (video_id : json) : str :=
  lit "https://img.youtube.com/vi/" ++ py_str video_id ++ lit "/mqdefault.jpg".

Definition placeholder_thumbnail : str := lit "https://img.youtube.com/vi/placeholder/mqdefault.jpg".

(** [re.sub(r'[^a-z0-9_]', '', ...)] keeps these characters. *)
Definition slug_char (c : N) : bool :=
  ((97 <=? c) && (c <=? 122)) || ((48 <=? c) && (c <=? 57)) || (c =? 95).

(** [s.replace(a, b)] for one-character [a] and [b]. *)
Definition replace_char (a b : N) (s : str) : str := map (fun c => if c =? a then b else c) s.

(** Line 183 after [.lower()], and line 184. *)
Definition course_slug (lowered : str) : str :=
  firstn 50 (filter slug_char (replace_char 45 95 (replace_char 32 95 lowered))).

(** Lines 187-191, given the value [random.randint(100, 999)] draws. *)
Definition unique_course_id (existing : bool) (cid : str) (rand : N) : str :=
  if existing then cid ++ lit "_" ++ n_dec rand else cid.

Definition api_key_set (api_key : option str) : bool :=
  match api_key with
  | Some (_ :: _) => true
  | _ => false
  end.

Section Generator.

(** [str.lower] and [json.loads] (returning [None] on a
    [JSONDecodeError]) of the Python runtime. *)
Variable str_lower : str -> str.
Variable json_loads : str -> option json.

(** [v.lower()] *)
Definition py_lower (v : json) : result str :=
  match v with
  | JStr s => Ok (str_lower s)
  | _ => Err (no_attribute v "lower")
  end.

(** [v.strip()] *)
Definition py_strip_method (v : json) : result str :=
  match v with
  | JStr s => Ok (py_strip s)
  | _ => Err (no_attribute v "strip")
  end.

(** The [try] block of [generate_syllabus], from the Gemini call on. *)
Definition syllabus_try (gen : gen_outcome) : result json :=
  match gen with
  | GenRaises e => Err e
  | GenText raw_text =>
      let cleaned_text := clean_json_string raw_text in
      match json_loads cleaned_text with
      | None => Err (ValueError (lit "AI returned invalid JSON structure"))
      | Some syllabus =>
          (* all(key in syllabus for key in ['title', 'modules']) *)
          let? has_title := py_in (lit "title") syllabus in
          let? has_all := (if has_title then py_in (lit "modules") syllabus else Ok false) in
          if negb has_all then Err (ValueError (lit "Missing required fields in syllabus")) else
          let? modules := py_getitem syllabus (lit "modules") in
          let? count := py_len modules in
          (* a count other than 4 is only logged *)
          Ok syllabus
      end
  end.

(** [generate_syllabus(topic_name)]; [topic_name] only enters the prompt,
    whose answer is [gen]. *)
Definition generate_syllabus (api_key : option str) (gen : gen_outcome) (topic_name : str)
  : result json :=
  if negb (api_key_set api_key)
  then Err (ValueError (lit "GEMINI_API_KEY environment variable not set"))
  else match syllabus_try gen with
       | Ok syllabus => Ok syllabus
       | Err (ValueError m) => Err (ValueError m)
       | Err e => Err (ValueError (lit "AI service error: " ++ exn_str e))
       end.

Variable yt : str -> search_outcome.
Variable sa : sa_render.

(** The inner loop of [generate_course]: one [Lesson] per lesson title of
    the module at [module_idx], held at [module_ref]. *)
Fixpoint create_lessons (course_ref : nat) (module_idx : nat) (module_ref : nat)
    (lesson_idx : nat) (lessons : list json) : M unit :=
  match lessons with
  | [] => mret tt
  | lesson_title :: rest =>
      let info := search_youtube_video yt lesson_title in
      mid <- read_module_id module_ref ;;
      lesson <- new_obj (OLesson {| lesson_module_id := mid; lesson_title := lesson_title;
                                    lesson_video_url := vi_id info;
                                    lesson_duration := vi_duration info;
                                    lesson_order_index := S lesson_idx |}) ;;
      session_add lesson ;;;
      (if Nat.eqb module_idx 0 && Nat.eqb lesson_idx 0
       then set_thumbnail course_ref (thumbnail_for (vi_id info))
       else mret tt) ;;;
      create_lessons course_ref module_idx module_ref (S lesson_idx) rest
  end.

(** The outer loop of [generate_course]. *)
Fixpoint create_modules (course_ref : nat) (cid : str) (module_idx : nat) (modules : list json)
  : M unit :=
  match modules with
  | [] => mret tt
  | module_data :: rest =>
      mtitle <- lift (py_getitem module_data (lit "title")) ;;
      module <- new_obj (OModule {| module_id := None; module_course_id := cid;
                                    module_title := mtitle;
                                    module_order_index := S module_idx |}) ;;
      session_add module ;;;
      session_flush sa ;;;
      lessons <- lift (py_get module_data (lit "lessons") (JArr [])) ;;
      items <- lift (py_iter lessons) ;;
      create_lessons course_ref module_idx module 0 items ;;;
      create_modules course_ref cid (S module_idx) rest
  end.

(** Lines 182-191: the slug of the title, suffixed once if a course
    with that id exists; [rand] is the value [random.randint(100, 999)]
    returns if it is called. *)
Definition derive_course_id (syllabus : json) (rand : N) : M str :=
  title <- lift (py_getitem syllabus (lit "title")) ;;
  lowered <- lift (py_lower title) ;;
  let cid := course_slug lowered in
  existing <- course_exists cid ;;
  mret (unique_course_id existing cid rand).

(** Lines 194-203: the [Course] row, added and flushed. *)
Definition create_course (syllabus : json) (topic_name cid : str) : M nat :=
  title <- lift (py_getitem syllabus (lit "title")) ;;
  description <- lift (py_get syllabus (lit "description")
                         (JStr (lit "Master " ++ topic_name ++ lit " from scratch"))) ;;
  level <- lift (py_get syllabus (lit "level") (JStr (lit "Beginner"))) ;;
  course <- new_obj (OCourse {| course_id := cid; course_title := title;
                                course_description := description;
                                course_thumbnail_url := placeholder_thumbnail;
                                course_level := level; course_is_generated := true |}) ;;
  session_add course ;;;
  session_flush sa ;;;
  mret course.

(** [generate_course(topic_name, db, Course, Module, Lesson)] *)
Definition generate_course (api_key : option str) (gen : gen_outcome) (rand : N)
    (topic_name : str) : M str :=
  (* Step 1 *)
  syllabus <- lift (generate_syllabus api_key gen topic_name) ;;
  logged_title <- lift (py_getitem syllabus (lit "title")) ;;
  cid <- derive_course_id syllabus rand ;;
  (* Step 2 *)
  course <- create_course syllabus topic_name cid ;;
  (* Step 3 *)
  modules <- lift (py_getitem syllabus (lit "modules")) ;;
  items <- lift (py_iter modules) ;;
  create_modules course cid 0 items ;;;
  session_commit sa ;;;
  mret cid.

End Generator.

(** ** The endpoint [POST /api/generate] ([src/api/index.py]) *)

(** [request.json]: a body that fails to parse raises. *)
Inductive request_body : Type :=
| BadJsonBody
| JsonBody (data : json).

Record response : Type := {
  status : N;
  body : list (str * json) }.

Definition error_response (code : N) (msg : str) : response :=
  {| status := code; body := [(lit "error", JStr msg)] |}.

Definition busy_message : str :=
  lit "AI is busy or cooling down. Please wait 30 seconds and try again.".

Section Endpoint.

Variable str_lower : str -> str.
Variable json_loads : str -> option json.
Variable yt : str -> search_outcome.
Variable sa : sa_render.
(** [traceback.format_exc()] at the handler *)
Variable trace : str.

(** The [try] block of [generate_course_api]. *)
Definition api_try (api_key : option str) (gen : gen_outcome) (rand : N)
    (req : request_body) : M response :=
  match req with
  | BadJsonBody => mret (error_response 400 (lit "Invalid JSON in request body"))
  | JsonBody data =>
      has_topic <- lift (if py_truthy data then py_in (lit "topic") data else Ok false) ;;
      if negb has_topic then mret (error_response 400 (lit "Missing 'topic' in request body")) else
      raw <- lift (py_getitem data (lit "topic")) ;;
      topic <- lift (py_strip_method raw) ;;
      match topic with
      | [] => mret (error_response 400 (lit "Topic cannot be empty"))
      | _ =>
          if Nat.ltb 100 (List.length topic)
          then mret (error_response 400 (lit "Topic too long (max 100 characters)"))
          else course_id <- generate_course str_lower json_loads yt sa api_key gen rand topic ;;
               mret {| status := 200;
                       body := [(lit "course_id", JStr course_id);
                                (lit "message", JStr (lit "Course generated successfully!"))] |}
      end
  end.

Definition busy_pattern (error_str : str) : bool :=
  str_contains (lit "429") error_str
  || str_contains (lit "rate") (str_lower error_str)
  || str_contains (lit "quota") (str_lower error_str).

Definition not_found_pattern (error_str : str) : bool :=
  str_contains (lit "404") error_str || str_contains (lit "not found") (str_lower error_str).

(** [generate_course_api()]: a [ValueError] answers 400; any other
    exception rolls the session back and answers 503 or 500. *)
Definition generate_course_api (api_key : option str) (gen : gen_outcome) (rand : N)
    (req : request_body) (s : db) : response * db :=
  match api_try api_key gen rand req s with
  | (Ok resp, s') => (resp, s')
  | (Err (ValueError m), s') => (error_response 400 m, s')
  | (Err e, s') =>
      let error_str := exn_str e in
      let s'' := session_rollback s' in
      if busy_pattern error_str || not_found_pattern error_str
      then ({| status := 503; body := [(lit "error", JStr busy_message); (lit "trace", JStr trace)] |}, s'')
      else ({| status := 500; body := [(lit "error", JStr error_str); (lit "trace", JStr trace)] |}, s'')
  end.

End Endpoint.

(** ** Concrete instances used by the examples *)

(** [str.lower] on ASCII letters; other characters are left alone (this
    coincides with Python's [str.lower] on ASCII text). *)
Definition ascii_lower (s : str) : str :=
  map (fun c => if (65 <=? c) && (c <=? 90) then c + 32 else c) s.

(** A search service that finds one video whose id is the query. *)
Definition echo_search (q : str) : search_outcome := SearchReturns [[(lit "id", JStr q)]].

Definition sample_module (n : string) : json :=
  JObj [(lit "title", JStr (lit n));
        (lit "lessons", JArr [JStr (lit (n ++ " a")); JStr (lit (n ++ " b")); JStr (lit (n ++ " c"))])].

Definition rust_syllabus : json :=
  JObj [(lit "title", JStr (lit "Rust Programming: Systems"));
        (lit "description", JStr (lit "Build fast tools."));
        (lit "level", JStr (lit "Intermediate"));
        (lit "modules", JArr [sample_module "m1"; sample_module "m2";
                              sample_module "m3"; sample_module "m4"])].

(** A parser that reads any text as the given value. *)
Definition loads_as (v : json) (_ : str) : option json := Some v.

(** A renderer in the manner of SQLAlchemy 2.0 over the sqlite3 of
    Python 3.11, reduced to the statement line. *)
Definition sample_detail (st : statement) : str :=
  [10] ++ lit "[SQL: " ++
  (if st_insert st
   then lit "INSERT INTO " ++ lit (st_table st) ++ lit " ("
        ++ join (lit ", ") (map (fun a => lit (arg_column a)) (st_args st)) ++ lit ", ...)"
   else lit "SELECT ... FROM " ++ lit (st_table st)) ++ lit "]".

Definition sample_sa : sa_render :=
  {| sa_detail := sample_detail;
     sa_bind_error := fun st i =>
       ServiceError (lit "(sqlite3.InterfaceError) Error binding parameter " ++ n_dec (N.of_nat i - 1)
                     ++ lit " - probably unsupported type." ++ sample_detail st) |}.

Definition empty_db : db := {| store := []; heap := []; staged := []; next_id := 1 |}.

(** ** Counting the rows of a run *)



(** ** The rows the loops of [generate_course] stage *)






(** The course after the lessons from [lesson_idx] on of module
    [module_idx]: the first lesson of the first module sets the
    thumbnail. *)
Definition thumb_after (yt : str -> search_outcome) (module_idx lesson_idx : nat) (ls : list json)
    (c : course_obj) : course_obj :=
  if Nat.eqb module_idx 0 && Nat.eqb lesson_idx 0 then
    match ls with
    | lt :: _ => with_thumbnail c (thumbnail_for (vi_id (search_youtube_video yt lt)))
    | [] => c
    end
  else c.



(** Every [Module] among [os] has its key. *)
Definition keyed (os : list obj) : Prop :=
  Forall (fun o => match o with OModule m => module_id m <> None | _ => True end) os.

(** The row of [o] binds and fills its NOT NULL columns. *)
Definition row_ok (o : obj) : bool :=
  match first_unbindable 1 (st_args (insert_stmt o)), null_column (insert_stmt o) with
  | None, None => true
  | _, _ => false
  end.

(** A value a NOT NULL column accepts: it binds and is not [None]. *)
Definition present (v : json) : bool := bindable v && negb (is_null (PValue v)).



(** ** The other routes of [src/api/index.py] *)

From Stdlib Require Import Permutation Sorted.

(** A Flask reply: a JSON body with its status, a redirect, or the
    framework's own error page (an exception no handler catches gives
    500; [login_required] without a user gives 401). *)
Inductive reply : Type :=
| JsonReply (code : N) (payload : json)
| Redirect (location : str)
| ErrorPage (code : N).

Definition message_reply (code : N) (key msg : string) : reply :=
  JsonReply code (JObj [(lit key, JStr (lit msg))]).

(** *** [get_syllabus] *)

(** One pass of [s.replace(old, new)] for a non-empty [old]: occurrences
    are replaced from left to right without overlap; [fuel] bounds the
    characters left, each step consumes at least one. *)
Fixpoint replace_fuel (fuel : nat) (old new : str) (s : str) : str :=
  match fuel with
  | O => s
  | S f =>
      match s with
      | [] => []
      | c :: s' =>
          if starts_with old s then new ++ replace_fuel f old new (skipn (List.length old) s)
          else c :: replace_fuel f old new s'
      end
  end.

(** [s.replace(old, new)], [old] non-empty. *)
Definition py_replace (old new s : str) : str := replace_fuel (S (List.length s)) old new s.

Definition fence_json : str := fence ++ lit "json".

(** Line 270: [response.text.replace('```json', '').replace('```', '').strip()] *)
Definition syllabus_clean_text (text : str) : str :=
  py_strip (py_replace fence [] (py_replace fence_json [] text)).

Definition mock_topic (name description : string) : json :=
  JObj [(lit "name", JStr (lit name)); (lit "description", JStr (lit description))].

Definition MOCK_SYLLABUS : json :=
  JObj [(lit "title", JStr (lit "Python Mastery (Mock)"));
        (lit "modules", JArr [
          JObj [(lit "title", JStr (lit "Basics"));
                (lit "topics", JArr [
                   mock_topic "Variables & Data Types" "Understanding numbers, strings, and booleans.";
                   mock_topic "Control Flow" "If statements, loops, and logic.";
                   mock_topic "Functions" "Defining and calling reusable code blocks."])];
          JObj [(lit "title", JStr (lit "Intermediate"));
                (lit "topics", JArr [
                   mock_topic "Object-Oriented Programming" "Classes, objects, and inheritance.";
                   mock_topic "File Handling" "Reading and writing files.";
                   mock_topic "Error Handling" "Try/Except blocks and exceptions."])];
          JObj [(lit "title", JStr (lit "Real-world Libraries"));
                (lit "topics", JArr [
                   mock_topic "Pandas" "Data manipulation and analysis.";
                   mock_topic "Flask" "Building web applications.";
                   mock_topic "Requests" "Making HTTP requests."])]])].

(** [get_syllabus()]: [client_ready] tells whether the module-level Gemini
    client was created, [gen] what its call did for the prompt built from
    the [language] argument; every exception of the [try] block serves the
    mock. *)
Definition get_syllabus (json_loads : str -> option json) (client_ready : bool) (gen : gen_outcome)
  : reply :=
  if negb client_ready then JsonReply 200 MOCK_SYLLABUS else
  match gen with
  | GenRaises _ => JsonReply 200 MOCK_SYLLABUS
  | GenText text =>
      match json_loads (syllabus_clean_text text) with
      | Some syllabus_data => JsonReply 200 syllabus_data
      | None => JsonReply 200 MOCK_SYLLABUS
      end
  end.

(** *** Database values *)

Definition bool_text (b : bool) : str := if b then lit "1" else lit "0".

(** The value a text column receives for a Python value that binds:
    SQLite gives a bound integer the column's TEXT affinity, so it is
    stored and compared as its decimal text ([True] and [False] are the
    integers 1 and 0); [None] is NULL. *)
Definition text_of (v : json) : option str :=
  match v with
  | JNull => None
  | JBool b => Some (bool_text b)
  | JNum z => Some (z_dec z)
  | JStr s => Some s
  | JArr _ | JObj _ => None
  end.

(** Binding a value to a text column: a value sqlite3 cannot bind raises
    (the callers only look at whether it did: [update_progress] answers
    500 for any exception, [authorize_user] binds through [bind_check]). *)
Definition sql_text_value (v : json) : result (option str) :=
  if bindable v then Ok (text_of v)
  else Err (ServiceError (lit "Error binding parameter")).

(** SQLAlchemy's [Boolean] bind processing: [None], [True], [False] and
    the integers equal to them pass; another integer raises [ValueError],
    any other value [TypeError]. *)
Definition sql_bool (v : json) : result (option bool) :=
  match v with
  | JNull => Ok None
  | JBool b => Ok (Some b)
  | JNum z =>
      if Z.eqb z 1 then Ok (Some true) else if Z.eqb z 0 then Ok (Some false)
      else Err (ValueError (lit "Value " ++ z_dec z ++ lit " is not None, True, or False"))
  | _ => Err (TypeError (lit "Not a boolean value: " ++ py_repr v))
  end.

Definition opt_json (v : option str) : json :=
  match v with
  | Some s => JStr s
  | None => JNull
  end.

Definition opt_N_eqb (a b : option N) : bool :=
  match a, b with
  | Some x, Some y => N.eqb x y
  | None, None => true
  | _, _ => false
  end.

Fixpoint find_index {A} (p : A -> bool) (xs : list A) : option nat :=
  match xs with
  | [] => None
  | x :: xs' => if p x then Some O else option_map S (find_index p xs')
  end.

(** *** Users, progress and the login session *)

(** A [User] row ([created_at] is read by no route). *)
Record user_row : Type := {
  u_id : N;
  u_google_id : str;
  u_email : str;
  u_name : option str;
  u_avatar : option str }.

(** A [UserProgress] row ([id] is read by no route). *)
Record progress_row : Type := {
  pr_user_id : N;
  pr_topic_id : str;
  pr_is_completed : option bool;
  pr_timestamp : option str;
  pr_last_watched : N }.

(** The application's data: the course tables with the session, the
    [User] and [UserProgress] tables, and the user id the session cookie
    holds. *)
Record app_state : Type := {
  app_db : db;
  app_users : list user_row;
  app_progress : list progress_row;
  app_login : option N }.

Definition with_progress (a : app_state) (rows : list progress_row) : app_state :=
  {| app_db := app_db a; app_users := app_users a; app_progress := rows; app_login := app_login a |}.

(** [User.query.get(id)] *)
Definition find_user (users : list user_row) (i : N) : option user_row :=
  find (fun u => N.eqb (u_id u) i) users.

(** [current_user]: [load_user] on the id of the session cookie; [None] is
    the anonymous user. *)
Definition current_user (a : app_state) : option user_row :=
  match app_login a with
  | Some i => find_user (app_users a) i
  | None => None
  end.

(** [current_user_info()] *)
Definition current_user_info (a : app_state) : reply :=
  match current_user a with
  | Some u =>
      JsonReply 200 (JObj [(lit "id", JNum (Z.of_N (u_id u))); (lit "name", opt_json (u_name u));
                           (lit "email", JStr (u_email u)); (lit "avatar", opt_json (u_avatar u))])
  | None => JsonReply 401 JNull
  end.

Definition progress_key (uid : N) (topic : str) (r : progress_row) : bool :=
  N.eqb (pr_user_id r) uid && str_eqb (pr_topic_id r) topic.

(** Lines 211-222: the row of [(user_id, topic_id)] is updated when the
    query finds one (the first, in table order), otherwise a new row is
    added. *)
Definition upsert_progress (now uid : N) (topic : str) (done : option bool) (ts : option str)
    (rows : list progress_row) : list progress_row :=
  match find_index (progress_key uid topic) rows with
  | Some i =>
      match nth_error rows i with
      | Some progress =>
          set_nth i {| pr_user_id := pr_user_id progress; pr_topic_id := pr_topic_id progress;
                       pr_is_completed := done; pr_timestamp := ts; pr_last_watched := now |} rows
      | None => rows
      end
  | None =>
      rows ++ [{| pr_user_id := uid; pr_topic_id := topic; pr_is_completed := done;
                  pr_timestamp := ts; pr_last_watched := now |}]
  end.

(** [update_progress()], with [data = request.json] and [now] the value of
    [datetime.utcnow()].  The values are bound when the commit flushes. *)
Definition update_progress (now : N) (data : json) (a : app_state) : reply * app_state :=
  match current_user a with
  | None => (ErrorPage 401, a)
  | Some user =>
      let uid := u_id user in
      match py_get data (lit "topic_id") JNull, py_get data (lit "is_completed") (JBool false),
            py_get data (lit "timestamp") JNull with
      | Ok topic_id, Ok is_completed, Ok timestamp =>
          if negb (py_truthy topic_id) then (message_reply 400 "error" "Topic ID required", a) else
          match sql_text_value topic_id with
          | Ok (Some topic) =>
              match sql_bool is_completed, sql_text_value timestamp with
              | Ok done, Ok ts =>
                  (message_reply 200 "message" "Progress updated",
                   with_progress a (upsert_progress now uid topic done ts (app_progress a)))
              | _, _ => (ErrorPage 500, a)
              end
          | _ => (ErrorPage 500, a)
          end
      | _, _, _ => (ErrorPage 500, a)
      end
  end.

Definition progress_pair (r : progress_row) : N * str := (pr_user_id r, pr_topic_id r).

Definition completed_topics (uid : N) (rows : list progress_row) : list str :=
  map pr_topic_id
    (filter (fun r => N.eqb (pr_user_id r) uid
                      && match pr_is_completed r with Some true => true | _ => false end) rows).

(** [get_progress()] *)
Definition get_progress (a : app_state) : reply :=
  match current_user a with
  | None => ErrorPage 401
  | Some user => JsonReply 200 (JArr (map JStr (completed_topics (u_id user) (app_progress a))))
  end.

(** [logout()]: [@login_required] answers 401 to an anonymous request;
    [logout_user()] removes the user id from the session. *)
Definition logout (a : app_state) : reply * app_state :=
  match current_user a with
  | None => (ErrorPage 401, a)
  | Some _ =>
      (message_reply 200 "message" "Logged out successfully",
       {| app_db := app_db a; app_users := app_users a; app_progress := app_progress a;
          app_login := None |})
  end.

(** What [google.authorize_access_token()], [google.get('userinfo')] and
    [resp.json()] did: raise, or give the user info. *)
Inductive oauth_outcome : Type :=
| OAuthRaises (e : exn)
| OAuthUserInfo (user_info : json).

(** The key SQLite gives a new row of [user]: one more than the largest. *)
Definition next_user_id (users : list user_row) : N :=
  1 + fold_right (fun u m => N.max (u_id u) m) 0 users.

(** [User.query.filter_by(google_id=gid).first()]; a [None] becomes
    [IS NULL], which no row of the NOT NULL column satisfies. *)
Definition find_by_google_id (gid : option str) (users : list user_row) : option user_row :=
  match gid with
  | Some g => find (fun u => str_eqb (u_google_id u) g) users
  | None => None
  end.

(** [User.query.filter_by(google_id=gid)]: the SELECT binds the id. *)
Definition user_select (gid_v : json) : statement :=
  {| st_insert := false; st_table := "user";
     st_args := [{| arg_column := "google_id"; arg_not_null := true; arg_value := PValue gid_v |}] |}.

(** The INSERT of a new [User]. *)
Definition user_insert (gid_v email_v name_v avatar_v : json) : statement :=
  {| st_insert := true; st_table := "user";
     st_args := [{| arg_column := "google_id"; arg_not_null := true; arg_value := PValue gid_v |};
                 {| arg_column := "email"; arg_not_null := true; arg_value := PValue email_v |};
                 {| arg_column := "name"; arg_not_null := false; arg_value := PValue name_v |};
                 {| arg_column := "avatar"; arg_not_null := false; arg_value := PValue avatar_v |}] |}.

(** The user the [try] block of [authorize] logs in, with the users table
    after it.  The SELECT binds the Google id; the INSERT of the commit
    binds its values, then checks NOT NULL ([google_id], [email]), then
    UNIQUE ([google_id], [email]). *)
Definition authorize_user (sa : sa_render) (user_info : json) (users : list user_row)
  : result (user_row * list user_row) :=
  let? gid_v := py_getitem user_info (lit "id") in
  let? _ := bind_check sa (user_select gid_v) in
  match find_by_google_id (text_of gid_v) users with
  | Some user => Ok (user, users)
  | None =>
      let? email_v := py_getitem user_info (lit "email") in
      let? name_v := py_get user_info (lit "name") JNull in
      let? avatar_v := py_get user_info (lit "picture") JNull in
      let ins := user_insert gid_v email_v name_v avatar_v in
      let? _ := bind_check sa ins in
      match text_of gid_v, text_of email_v with
      | None, _ => Err (constraint_error sa ins "NOT NULL" "google_id")
      | _, None => Err (constraint_error sa ins "NOT NULL" "email")
      | Some g, Some e =>
          if existsb (fun u => str_eqb (u_google_id u) g) users
          then Err (constraint_error sa ins "UNIQUE" "google_id")
          else if existsb (fun u => str_eqb (u_email u) e) users
          then Err (constraint_error sa ins "UNIQUE" "email")
          else let user := {| u_id := next_user_id users; u_google_id := g; u_email := e;
                              u_name := text_of name_v; u_avatar := text_of avatar_v |} in
               Ok (user, users ++ [user])
      end
  end.

(** [os.getenv("FRONTEND_URL", "/dashboard")] *)
Definition default_redirect (frontend_url : option str) : str :=
  match frontend_url with Some u => u | None => lit "/dashboard" end.

(** [authorize()]: [frontend_url] is [os.getenv("FRONTEND_URL")]. *)
Definition authorize (sa : sa_render) (frontend_url : option str) (oauth : oauth_outcome) (a : app_state)
  : reply * app_state :=
  let fail e := (JsonReply 400 (JObj [(lit "error", JStr (exn_str e))]), a) in
  match oauth with
  | OAuthRaises e => fail e
  | OAuthUserInfo user_info =>
      match authorize_user sa user_info (app_users a) with
      | Err e => fail e
      | Ok (user, users') =>
          (Redirect (default_redirect frontend_url),
           {| app_db := app_db a; app_users := users'; app_progress := app_progress a;
              app_login := Some (u_id user) |})
      end
  end.

(** *** Seeding *)

Definition python_id : str := lit "python".

(** The three lessons loops of [_seed_python_course]: [module.id] is read
    for every lesson. *)
Fixpoint seed_lessons (module_ref : nat) (i : nat) (lessons : list (string * string * string))
  : M unit :=
  match lessons with
  | [] => mret tt
  | (title, video_id, duration) :: rest =>
      mid <- read_module_id module_ref ;;
      lesson <- new_obj (OLesson {| lesson_module_id := mid; lesson_title := JStr (lit title);
                                    lesson_video_url := JStr (lit video_id);
                                    lesson_duration := JStr (lit duration);
                                    lesson_order_index := S i |}) ;;
      session_add lesson ;;;
      seed_lessons module_ref (S i) rest
  end.

(** A [Module] of the Python course, added and flushed. *)
Definition seed_module (sa : sa_render) (title : string) (order_index : nat) : M nat :=
  module <- new_obj (OModule {| module_id := None; module_course_id := python_id;
                                module_title := JStr (lit title); module_order_index := order_index |}) ;;
  session_add module ;;;
  session_flush sa ;;;
  mret module.

Definition basics_lessons : list (string * string * string) :=
  [("Variables & Data Types", "_uQrJ0TkZlc", "10:00");
   ("Control Flow (If/Else)", "Zp5MuPOtsSY", "12:30");
   ("Loops (For/While)", "6iF8Xb7Z3wQ", "15:00")]%string.

Definition ds_lessons : list (string * string * string) :=
  [("Lists & Tuples", "ohCDkTuyIPg", "14:20");
   ("Dictionaries & Sets", "daefaLgNkw0", "11:45")]%string.

Definition oop_lessons : list (string * string * string) :=
  [("Classes & Objects", "ZDa-Z5JzLYM", "18:00");
   ("Inheritance & Polymorphism", "JeznW_7DlB0", "16:10")]%string.

Definition python_course : course_obj :=
  {| course_id := python_id; course_title := JStr (lit "Python Mastery");
     course_description := JStr (lit "Master Python from scratch to advanced concepts.");
     course_thumbnail_url := lit "https://upload.wikimedia.org/wikipedia/commons/c/c3/Python-logo-notext.svg";
     course_level := JStr (lit "Beginner"); course_is_generated := false |}.

(** [_seed_python_course()] *)
Definition _seed_python_course (sa : sa_render) : M unit :=
  course <- new_obj (OCourse python_course) ;;
  session_add course ;;;
  session_flush sa ;;;
  module_basics <- seed_module sa "Basics" 1 ;;
  seed_lessons module_basics 0 basics_lessons ;;;
  module_ds <- seed_module sa "Data Structures" 2 ;;
  seed_lessons module_ds 0 ds_lessons ;;;
  module_oop <- seed_module sa "OOP" 3 ;;
  seed_lessons module_oop 0 oop_lessons ;;;
  session_commit sa.

(** [Course.query.filter_by(title="Python Mastery").first()] is not None. *)
Definition python_mastery_exists (s : db) : bool :=
  existsb (fun o => match o with
                    | OCourse c => match course_title c with
                                   | JStr t => str_eqb t (lit "Python Mastery")
                                   | _ => false
                                   end
                    | _ => false
                    end) (store s ++ staged_objs s).

(** [seed_database()] *)
Definition seed_database (sa : sa_render) (s : db) : reply * db :=
  if python_mastery_exists s
  then (message_reply 200 "message" "Database already seeded. Python Mastery course exists.", s)
  else match _seed_python_course sa s with
       | (Ok _, s') => (message_reply 200 "message" "Database seeded successfully!", s')
       | (Err e, s') =>
           (JsonReply 500 (JObj [(lit "error", JStr (lit "Seeding failed: " ++ exn_str e))]),
            session_rollback s')
       end.

(** [reset_database()]: [drop_all] and [create_all] empty every table (the
    next [Module] key is 1 again); the session is left as it is. *)
Definition reset_database (sa : sa_render) (a : app_state) : reply * app_state :=
  let s0 := {| store := []; heap := heap (app_db a); staged := staged (app_db a); next_id := 1 |} in
  let wiped s := {| app_db := s; app_users := []; app_progress := []; app_login := app_login a |} in
  match _seed_python_course sa s0 with
  | (Ok _, s') =>
      (JsonReply 200 (JObj [(lit "message", JStr (lit "Database reset and seeded successfully. Please Log In again."));
                            (lit "warning", JStr (lit "All user data has been deleted."))]),
       wiped s')
  | (Err e, s') =>
      (JsonReply 500 (JObj [(lit "error", JStr (lit "Reset failed: " ++ exn_str e))]),
       wiped (session_rollback s'))
  end.

(** The end of a request: Flask-SQLAlchemy removes the scoped session,
    which drops what is pending and the request's instances. *)
Definition session_remove (s : db) : db :=
  {| store := store s; heap := []; staged := []; next_id := next_id s |}.

(** *** Reading the courses *)

Definition course_json (c : course_obj) : json :=
  JObj [(lit "id", JStr (course_id c)); (lit "title", course_title c);
        (lit "description", course_description c); (lit "thumbnail", JStr (course_thumbnail_url c));
        (lit "level", course_level c); (lit "is_generated", JBool (course_is_generated c))].

Definition store_courses (rows : list obj) : list course_obj :=
  flat_map (fun o => match o with OCourse c => [c] | _ => [] end) rows.

(** [get_courses()]: [Course.query.all()] in the order of the table. *)
Definition get_courses (s : db) : reply :=
  JsonReply 200 (JArr (map course_json (store_courses (store s)))).

(** The committed rows the read-only routes see, with the keys the
    database assigned to [Module] and [Lesson] rows; text columns read
    back as strings.  A query without [ORDER BY] lists rows in table
    order. *)
Record tables : Type := {
  t_courses : list course_obj;
  t_modules : list module_obj;
  t_lessons : list (N * lesson_obj) }.

(** Python's [sorted(xs, key=key)], a stable sort: [x] goes after every
    element whose key is not larger. *)
Fixpoint insert_by {A} (key : A -> nat) (x : A) (ys : list A) : list A :=
  match ys with
  | [] => [x]
  | y :: ys' => if Nat.ltb (key x) (key y) then x :: ys else y :: insert_by key x ys'
  end.

Definition sorted_by {A} (key : A -> nat) (xs : list A) : list A :=
  fold_left (fun acc x => insert_by key x acc) xs [].

(** [Course.query.get(course_id)] *)
Definition course_get (T : tables) (cid : str) : option course_obj :=
  find (fun c => str_eqb (course_id c) cid) (t_courses T).

(** [course.modules] *)
Definition course_modules (T : tables) (cid : str) : list module_obj :=
  filter (fun m => str_eqb (module_course_id m) cid) (t_modules T).

(** [module.lessons] *)
Definition module_lessons (T : tables) (m : module_obj) : list (N * lesson_obj) :=
  match module_id m with
  | Some i => filter (fun p => opt_N_eqb (lesson_module_id (snd p)) (Some i)) (t_lessons T)
  | None => []
  end.

Definition lesson_order (p : N * lesson_obj) : nat := lesson_order_index (snd p).

Definition topic_json (p : N * lesson_obj) : json :=
  JObj [(lit "id", JNum (Z.of_N (fst p))); (lit "name", lesson_title (snd p));
        (lit "video_id", lesson_video_url (snd p)); (lit "duration", lesson_duration (snd p))].

Definition module_json (T : tables) (m : module_obj) : json :=
  JObj [(lit "title", module_title m);
        (lit "topics", JArr (map topic_json (sorted_by lesson_order (module_lessons T m))))].

(** [get_course_detail(course_id)] *)
Definition get_course_detail (T : tables) (cid : str) : reply :=
  match course_get T cid with
  | None => message_reply 404 "error" "Course not found"
  | Some course =>
      JsonReply 200
        (JObj [(lit "title", course_title course); (lit "description", course_description course);
               (lit "modules", JArr (map (module_json T)
                                         (sorted_by module_order_index
                                                    (course_modules T (course_id course)))))])
  end.

(** [q.order_by(key.asc()).first()]: an element of least key, the first
    such in table order. *)
Fixpoint first_min {A} (key : A -> nat) (xs : list A) : option A :=
  match xs with
  | [] => None
  | x :: xs' =>
      match first_min key xs' with
      | Some y => if Nat.ltb (key y) (key x) then Some y else Some x
      | None => Some x
      end
  end.

(** [Lesson.query.get(lesson_id)] *)
Definition lesson_get (T : tables) (lid : N) : option lesson_obj :=
  option_map snd (find (fun p => N.eqb (fst p) lid) (t_lessons T)).

(** [Module.query.get(module_id)]; a [None] key loads nothing. *)
Definition module_get (T : tables) (k : option N) : option module_obj :=
  match k with
  | Some i => find (fun m => opt_N_eqb (module_id m) (Some i)) (t_modules T)
  | None => None
  end.

(** Lines 352-374.  [Lesson.module_id == v] is [opt_N_eqb]: SQLAlchemy
    turns a comparison with [None] into [IS NULL]. *)
Definition next_lesson_id (T : tables) (lesson : lesson_obj) (module : module_obj) : option N :=
  match first_min lesson_order
          (filter (fun p => opt_N_eqb (lesson_module_id (snd p)) (lesson_module_id lesson)
                            && Nat.ltb (lesson_order_index lesson) (lesson_order p))
                  (t_lessons T)) with
  | Some next_in_module => Some (fst next_in_module)
  | None =>
      match first_min module_order_index
              (filter (fun m => str_eqb (module_course_id m) (module_course_id module)
                                && Nat.ltb (module_order_index module) (module_order_index m))
                      (t_modules T)) with
      | Some next_module =>
          option_map fst
            (first_min lesson_order
               (filter (fun p => opt_N_eqb (lesson_module_id (snd p)) (module_id next_module))
                       (t_lessons T)))
      | None => None
      end
  end.

(** Lines 376-384: the body of the reply. *)
Definition lesson_detail_json (lid : N) (lesson : lesson_obj) (module : module_obj) (next : json) : json :=
  JObj [(lit "id", JNum (Z.of_N lid)); (lit "title", lesson_title lesson);
        (lit "video_url", lesson_video_url lesson); (lit "duration", lesson_duration lesson);
        (lit "module_title", module_title module); (lit "course_id", JStr (module_course_id module));
        (lit "next_lesson_id", next)].

(** [get_lesson_detail(lesson_id)] *)
Definition get_lesson_detail (T : tables) (lid : N) : reply :=
  match lesson_get T lid with
  | None => message_reply 404 "error" "Lesson not found"
  | Some lesson =>
      match module_get T (lesson_module_id lesson) with
      | None => message_reply 404 "error" "Module not found"
      | Some module =>
          JsonReply 200
            (lesson_detail_json lid lesson module
               (match next_lesson_id T lesson module with
                | Some i => JNum (Z.of_N i)
                | None => JNull
                end))
      end
  end.

(** *** [get_videos] *)

Definition json_is_str (v : json) (s : str) : bool :=
  match v with
  | JStr t => str_eqb t s
  | _ => false
  end.

Definition lesson_card (l : lesson_obj) : json :=
  JObj [(lit "id", lesson_video_url l); (lit "title", lesson_title l);
        (lit "thumbnail", JStr (thumbnail_for (lesson_video_url l))); (lit "score", JNum 10)].

(** [v[0]] *)
Definition py_first (v : json) : option json :=
  match v with
  | JArr (x :: _) => Some x
  | JStr (c :: _) => Some (JStr [c])
  | _ => None
  end.

(** One element of the list comprehension of lines 411-416; [None] when
    it raises. *)
Definition search_card (v : list (str * json)) : option json :=
  match dict_lookup (lit "id") v, dict_lookup (lit "title") v, dict_lookup (lit "thumbnails") v with
  | Some i, Some t, Some th =>
      match py_first th with
      | Some thumbnail =>
          Some (JObj [(lit "id", i); (lit "title", t); (lit "thumbnail", thumbnail); (lit "score", JNum 5)])
      | None => None
      end
  | _, _, _ => None
  end.

Fixpoint map_option {A B} (f : A -> option B) (xs : list A) : option (list B) :=
  match xs with
  | [] => Some []
  | x :: xs' =>
      match f x with
      | Some y => match map_option f xs' with Some ys => Some (y :: ys) | None => None end
      | None => None
      end
  end.

(** [get_videos()]: [topic] is [request.args.get('topic')]; [yts] is what
    [YoutubeSearch(q, max_results=3).to_dict()] does: raise, or return
    its list of video dicts. *)
Definition get_videos (yts : str -> search_outcome) (topic : option str) (T : tables) : reply :=
  match topic with
  | None | Some [] => message_reply 400 "error" "Topic required"
  | Some t =>
      match find (fun p => json_is_str (lesson_title (snd p)) t) (t_lessons T) with
      | Some p => JsonReply 200 (JArr [lesson_card (snd p)])
      | None =>
          match yts (t ++ lit " tutorial") with
          | SearchRaises e =>
              JsonReply 500 (JObj [(lit "error", JStr (lit "YouTube search failed: " ++ exn_str e))])
          | SearchReturns results =>
              match map_option search_card results with
              | Some scored_videos => JsonReply 200 (JArr scored_videos)
              | None => ErrorPage 500
              end
          end
      end
  end.

(** ** Store invariants of the session computations *)

(** Every run of [m] leaves the committed rows alone. *)
Definition keeps_store {A} (m : M A) : Prop :=
  forall s r s', m s = (r, s') -> store s' = store s.

(** Every successful run of [m] from a state satisfying [P] ends in one. *)
Definition preserves {A} (P : db -> Prop) (m : M A) : Prop :=
  forall s a s', P s -> m s = (Ok a, s') -> P s'.

(** The session holds, staged, a generated course with id [cid]. *)
Definition holds_course (cid : str) (s : db) : Prop :=
  exists r c, In r (staged s) /\ nth_error (heap s) r = Some (OCourse c)
              /\ course_id c = cid /\ course_is_generated c = true.

(** The rows [_seed_python_course] commits when the next [Module] key is
    [nid]. *)
Definition seed_lesson_rows (mid : N) (lessons : list (string * string * string)) : list obj :=
  map (fun p => let '(i, (title, video_id, duration)) := p in
                OLesson {| lesson_module_id := Some mid; lesson_title := JStr (lit title);
                           lesson_video_url := JStr (lit video_id);
                           lesson_duration := JStr (lit duration); lesson_order_index := S i |})
      (combine (seq 0 (List.length lessons)) lessons).

(** The lesson rows of [seed_lessons] started at order index [i]. *)
Fixpoint seed_lesson_rows_at (mid : N) (i : nat) (lessons : list (string * string * string)) : list obj :=
  match lessons with
  | [] => []
  | (title, video_id, duration) :: rest =>
      OLesson {| lesson_module_id := Some mid; lesson_title := JStr (lit title);
                 lesson_video_url := JStr (lit video_id);
                 lesson_duration := JStr (lit duration); lesson_order_index := S i |}
      :: seed_lesson_rows_at mid (S i) rest
  end.

Definition seed_module_row (mid : N) (title : string) (order_index : nat) : obj :=
  OModule {| module_id := Some mid; module_course_id := python_id; module_title := JStr (lit title);
             module_order_index := order_index |}.

Definition python_seed_rows (nid : N) : list obj :=
  OCourse python_course
  :: (seed_module_row nid "Basics" 1 :: seed_lesson_rows nid basics_lessons)
  ++ (seed_module_row (nid + 1) "Data Structures" 2 :: seed_lesson_rows (nid + 1) ds_lessons)
  ++ (seed_module_row (nid + 2) "OOP" 3 :: seed_lesson_rows (nid + 2) oop_lessons).

(** The keys and unique columns of the users table: [id], [google_id]
    and [email] are each distinct. *)
Definition users_ok (users : list user_row) : Prop :=
  NoDup (map u_id users) /\ NoDup (map u_google_id users) /\ NoDup (map u_email users).

(** ** Sample data *)

(** A course that takes the id of the seeded one. *)
Definition other_python : course_obj :=
  {| course_id := python_id; course_title := JStr (lit "Python Basics"); course_description := JNull;
     course_thumbnail_url := []; course_level := JNull; course_is_generated := false |}.

Definition sample_user : user_row :=
  {| u_id := 1; u_google_id := lit "1057"; u_email := lit "ada@example.com";
     u_name := Some (lit "Ada"); u_avatar := None |}.

(** A logged-in user with no progress yet. *)
Definition sample_app : app_state :=
  {| app_db := empty_db; app_users := [sample_user]; app_progress := []; app_login := Some 1 |}.

Definition sample_module_row (i : N) (order_index : nat) : module_obj :=
  {| module_id := Some i; module_course_id := python_id; module_title := JStr (lit "M");
     module_order_index := order_index |}.

Definition sample_lesson (mid : N) (order_index : nat) (title : string) : lesson_obj :=
  {| lesson_module_id := Some mid; lesson_title := JStr (lit title); lesson_video_url := JStr (lit "vid");
     lesson_duration := JNull; lesson_order_index := order_index |}.

(** Two modules of the Python course, listed out of order, and three
    lessons. *)
Definition sample_tables : tables :=
  {| t_courses := [python_course];
     t_modules := [sample_module_row 2 2; sample_module_row 1 1];
     t_lessons := [(10, sample_lesson 1 2 "b"); (11, sample_lesson 1 1 "a"); (12, sample_lesson 2 1 "c")] |}.

Definition no_tables : tables := {| t_courses := []; t_modules := []; t_lessons := [] |}.

(** A search that finds one video named after the query. *)
Definition sample_yts (q : str) : search_outcome :=
  SearchReturns [[(lit "id", JStr q); (lit "title", JStr q); (lit "thumbnails", JArr [JStr (lit "t.jpg")])]].

(** The number of backticks a string starts with. *)
Fixpoint lead_ticks (s : str) : nat :=
  match s with
  | c :: s' => if N.eqb c backtick then S (lead_ticks s') else O
  | [] => O
  end.

(** The failures of [m] leave the committed rows alone. *)
Definition keeps_store_on_err {A} (m : M A) : Prop :=
  forall s e s', m s = (Err e, s') -> store s' = store s.


Example clean_json_fenced :
  clean_json_string (lit "```json
[1, 2]
```") = lit "[1, 2]".
Proof. reflexivity. Qed.

(** ** Lemmas on the string helpers *)

Lemma drop_space_suffix (s : str) : exists w, s = w ++ drop_space s.
Proof.
  induction s as [|c s IH]; simpl.
  - exists []. reflexivity.
  - destruct (py_isspace c).
    + destruct IH as [w Hw]. exists (c :: w). simpl. rewrite <- Hw. reflexivity.
    + exists []. reflexivity.
Qed.

Lemma drop_space_idem (s : str) : drop_space (drop_space s) = drop_space s.
Proof.
  induction s as [|c s IH]; simpl; [reflexivity|].
  destruct (py_isspace c) eqn:E; [exact IH|]. simpl. rewrite E. reflexivity.
Qed.

Lemma drop_space_length (s : str) : (List.length (drop_space s) <= List.length s)%nat.
Proof.
  induction s as [|c s IH]; simpl; [lia|]. destruct (py_isspace c); simpl; lia.
Qed.

(** The head of [drop_space s], when there is one, is not whitespace. *)
Lemma drop_space_head (s : str) c t : drop_space s = c :: t -> py_isspace c = false.
Proof.
  induction s as [|d s IH]; simpl; [discriminate|].
  destruct (py_isspace d) eqn:E; [exact IH|]. intros H; inversion H; subst; exact E.
Qed.

Lemma drop_space_nohead (s : str) :
  (forall c t, s = c :: t -> py_isspace c = false) -> drop_space s = s.
Proof.
  destruct s as [|c t]; simpl; [reflexivity|].
  intros H. rewrite (H c t eq_refl). reflexivity.
Qed.

Lemma py_strip_lead (s : str) : drop_space (py_strip s) = py_strip s.
Proof.
  unfold py_strip. apply drop_space_nohead. intros c t Hct.
  destruct (drop_space_suffix (rev (drop_space s))) as [w Hw].
  assert (Hpre : drop_space s = c :: t ++ rev w).
  { rewrite <- (rev_involutive (drop_space s)), Hw, rev_app_distr, Hct. reflexivity. }
  exact (drop_space_head s c (t ++ rev w) Hpre).
Qed.

Lemma py_strip_trail (s : str) : drop_space (rev (py_strip s)) = rev (py_strip s).
Proof. unfold py_strip. rewrite rev_involutive. apply drop_space_idem. Qed.

(** What a successful attempt of [\s*```$] has consumed. *)
Lemma match_close_fence_some (z r : str) :
  match_close_fence z = Some r -> exists w, z = w ++ fence ++ r /\ (r = [] \/ r = [10]).
Proof.
  unfold match_close_fence. destruct (drop_space_suffix z) as [w Hw].
  destruct (drop_space z) as [|a [|b [|c rest]]] eqn:D; try discriminate.
  destruct ((a =? backtick) && (b =? backtick) && (c =? backtick)) eqn:B; [|discriminate].
  apply andb_prop in B as [B Hc]. apply andb_prop in B as [Ha Hb].
  apply N.eqb_eq in Ha, Hb, Hc. subst a b c.
  intros H. exists w.
  destruct rest as [|x [|y rest]]; try discriminate.
  - inversion H; subst. split; [reflexivity | auto].
  - destruct x as [|p]; try discriminate.
    repeat (destruct p as [p|p|]; try discriminate).
    inversion H; subst. split; [reflexivity | auto].
  - destruct x as [|p]; [discriminate|].
    repeat (destruct p as [p|p|]; try discriminate).
Qed.

Lemma sub_open_json_fence_id (y : str) :
  starts_with fence y = false -> sub_open_json_fence y = y.
Proof.
  destruct y as [|a [|b [|c [|j [|s [|o [|n rest]]]]]]]; intros H; cbn [sub_open_json_fence]; try reflexivity.
  assert (E : (a =? backtick) && (b =? backtick) && (c =? backtick) = false).
  { unfold fence, backtick in *. cbn [starts_with] in H.
    unfold backtick. rewrite (N.eqb_sym a), (N.eqb_sym b), (N.eqb_sym c).
    destruct (96 =? a), (96 =? b), (96 =? c); auto. }
  rewrite E. reflexivity.
Qed.

Lemma sub_open_fence_id (y : str) :
  starts_with fence y = false -> sub_open_fence y = y.
Proof.
  destruct y as [|a [|b [|c rest]]]; intros H; cbn [sub_open_fence]; try reflexivity.
  assert (E : (a =? backtick) && (b =? backtick) && (c =? backtick) = false).
  { unfold fence, backtick in *. cbn [starts_with] in H.
    unfold backtick. rewrite (N.eqb_sym a), (N.eqb_sym b), (N.eqb_sym c).
    destruct (96 =? a), (96 =? b), (96 =? c); auto. }
  rewrite E. reflexivity.
Qed.

Lemma sub_close_fence_id (z : str) :
  (forall w, z <> w ++ fence) ->
  (forall w c, z = w ++ [c] -> py_isspace c = false) ->
  sub_close_fence z = z.
Proof.
  induction z as [|c z IH]; intros Hf Hs; [reflexivity|].
  simpl. destruct (match_close_fence (c :: z)) as [r|] eqn:M.
  - exfalso. apply match_close_fence_some in M as [w [Hw [-> | ->]]].
    + apply (Hf w). rewrite Hw, app_nil_r. reflexivity.
    + specialize (Hs (w ++ fence) 10). rewrite <- app_assoc in Hs.
      specialize (Hs Hw). discriminate.
  - f_equal. apply IH.
    + intros w Hw. apply (Hf (c :: w)). rewrite Hw. reflexivity.
    + intros w d Hw. apply (Hs (c :: w)). rewrite Hw. reflexivity.
Qed.

Lemma ends_with_fence_app (w : str) : ends_with fence (w ++ fence) = true.
Proof. unfold ends_with. rewrite rev_app_distr. reflexivity. Qed.

Lemma no_trailing_space (y : str) :
  drop_space (rev y) = rev y -> forall w c, y = w ++ [c] -> py_isspace c = false.
Proof.
  intros H w c ->. rewrite rev_app_distr in H. simpl in H.
  destruct (py_isspace c); [|reflexivity].
  exfalso. pose proof (drop_space_length (rev w)) as L. rewrite H in L. simpl in L. lia.
Qed.

Lemma clean_json_string_lead (x : str) :
  drop_space (clean_json_string x) = clean_json_string x.
Proof. apply py_strip_lead. Qed.

Lemma clean_json_string_trail (x : str) :
  drop_space (rev (clean_json_string x)) = rev (clean_json_string x).
Proof. apply py_strip_trail. Qed.


(** ** Lemmas on the Python value helpers *)

Lemma str_eqb_refl (a : str) : str_eqb a a = true.
Proof. unfold str_eqb. destruct (list_eq_dec N.eq_dec a a); congruence. Qed.

Lemma str_eqb_eq (a b : str) : str_eqb a b = true <-> a = b.
Proof. unfold str_eqb. destruct (list_eq_dec N.eq_dec a b); split; congruence. Qed.

Lemma dict_lookup_some_in (k : str) fs v :
  dict_lookup k fs = Some v -> existsb (fun kv => str_eqb k (fst kv)) fs = true.
Proof.
  unfold dict_lookup.
  assert (G : forall acc, fold_left (fun acc kv => if str_eqb k (fst kv) then Some (snd kv) else acc)
                            fs acc = Some v ->
              existsb (fun kv => str_eqb k (fst kv)) fs = true \/ acc = Some v).
  { induction fs as [|[k' x] fs IH]; simpl; intros acc H; [auto|].
    destruct (str_eqb k k'); simpl; [auto|]. exact (IH acc H). }
  intros H. destruct (G None H) as [G'|G']; [exact G'|discriminate].
Qed.

Lemma dict_lookup_none (k : str) fs :
  existsb (fun kv => str_eqb k (fst kv)) fs = false -> dict_lookup k fs = None.
Proof.
  unfold dict_lookup. generalize (@None json) as acc.
  induction fs as [|[k' x] fs IH]; simpl; intros acc H; [reflexivity|].
  destruct (str_eqb k k'); simpl in H; [discriminate|]. exact (IH acc H).
Qed.

Lemma nth_error_snoc {A} (l : list A) (x : A) : nth_error (l ++ [x]) (List.length l) = Some x.
Proof. rewrite nth_error_app2 by lia. rewrite Nat.sub_diag. reflexivity. Qed.

(** A computation whose every success returns [x]. *)
Definition returns {A} (x : A) (m : M A) : Prop :=
  forall s c s', m s = (Ok c, s') -> c = x.

Lemma returns_ret {A} (x : A) : returns x (mret x).
Proof. intros s c s' H. inversion H. reflexivity. Qed.

Lemma returns_bind {A B} (x : B) (m : M A) (k : A -> M B) :
  (forall a, returns x (k a)) -> returns x (mbind m k).
Proof.
  intros Hk s c s'. unfold mbind. destruct (m s) as [[a|e] s1].
  - apply Hk.
  - discriminate.
Qed.

(** A parsed JSON object lacking ['title'] or ['modules'] is rejected
    with the missing-field error. *)
Lemma generate_syllabus_object_missing_field json_loads key t fs topic :
  api_key_set key = true ->
  json_loads (clean_json_string t) = Some (JObj fs) ->
  existsb (fun kv => str_eqb (lit "title") (fst kv)) fs = false \/
  existsb (fun kv => str_eqb (lit "modules") (fst kv)) fs = false ->
  generate_syllabus json_loads key (GenText t) topic =
  Err (ValueError (lit "Missing required fields in syllabus")).
Proof.
  intros Hk Hl Hm. unfold generate_syllabus. rewrite Hk. simpl. rewrite Hl. simpl.
  destruct Hm as [Hm|Hm]; rewrite Hm; [reflexivity|].
  destruct (existsb (fun kv => str_eqb (lit "title") (fst kv)) fs); reflexivity.
Qed.

Lemma forallb_firstn {A} (f : A -> bool) (n : nat) (l : list A) :
  forallb f l = true -> forallb f (firstn n l) = true.
Proof.
  revert l. induction n as [|n IH]; intros [|x l]; simpl; auto.
  intros H. apply andb_prop in H as [H1 H2]. rewrite H1. simpl. apply IH, H2.
Qed.

Lemma forallb_filter {A} (f : A -> bool) (l : list A) : forallb f (filter f l) = true.
Proof.
  induction l as [|x l IH]; simpl; auto.
  destruct (f x) eqn:E; simpl; [rewrite E|]; auto.
Qed.

(** ** Running the session computations *)

Lemma mbind_ok {A B} (m : M A) (k : A -> M B) s a s' :
  m s = (Ok a, s') -> mbind m k s = k a s'.
Proof. intros H. unfold mbind. rewrite H. reflexivity. Qed.

Lemma mbind_err {A B} (m : M A) (k : A -> M B) s e s' :
  m s = (Err e, s') -> mbind m k s = (Err e, s').
Proof. intros H. unfold mbind. rewrite H. reflexivity. Qed.

Lemma existsb_str_eqb_In (x : str) (l : list str) : existsb (str_eqb x) l = true <-> In x l.
Proof.
  rewrite existsb_exists. split.
  - intros [y [Hy E]]. apply str_eqb_eq in E. subst. exact Hy.
  - intros H. exists x. split; [exact H|apply str_eqb_refl].
Qed.

Lemma py_getitem_obj (v : json) (k : str) (x : json) :
  py_getitem v k = Ok x -> exists fs, v = JObj fs /\ dict_lookup k fs = Some x.
Proof.
  destruct v; simpl; try discriminate.
  destruct (dict_lookup k fields) eqn:E; intros H; inversion H; subst; eauto.
Qed.

Lemma derive_course_id_run str_lower syl rand s t :
  py_getitem syl (lit "title") = Ok (JStr t) ->
  derive_course_id str_lower syl rand s =
  (Ok (unique_course_id
         (existsb (str_eqb (course_slug (str_lower t)))
                  (course_ids (store s) ++ course_ids (staged_objs s)))
         (course_slug (str_lower t)) rand), s).
Proof. intros H. unfold derive_course_id, mbind, lift. rewrite H. reflexivity. Qed.

(** The three decimal digits of a value of [random.randint(100, 999)]. *)
Lemma n_dec_three_digits (r : N) :
  (100 <= r <= 999) -> List.length (n_dec r) = 3%nat.
Proof.
  intros Hr.
  assert (Hall : forallb (fun k => Nat.eqb (List.length (n_dec (N.of_nat k))) 3) (seq 100 900) = true)
    by (vm_compute; reflexivity).
  rewrite forallb_forall in Hall.
  specialize (Hall (N.to_nat r)). rewrite N2Nat.id in Hall.
  apply Nat.eqb_eq, Hall, in_seq. lia.
Qed.

(** ** The lesson loop *)

Lemma existsb_lt_false (st : list nat) (n : nat) :
  Forall (fun r => (r < n)%nat) st -> existsb (Nat.eqb n) st = false.
Proof.
  induction 1 as [|r st Hr _ IH]; simpl; [reflexivity|].
  rewrite IH. destruct (Nat.eqb_spec n r); [lia|reflexivity].
Qed.

Lemma Forall_lt_weaken (st : list nat) (n m : nat) :
  (n <= m)%nat -> Forall (fun r => (r < n)%nat) st -> Forall (fun r => (r < m)%nat) st.
Proof. intros Hnm. apply Forall_impl. lia. Qed.


(** ** Flushes *)

Lemma flat_map_ext_in {A B} (f g : A -> list B) (l : list A) :
  (forall x, In x l -> f x = g x) -> flat_map f l = flat_map g l.
Proof.
  induction l as [|x l IH]; simpl; intros H; [reflexivity|].
  rewrite (H x (or_introl eq_refl)), IH; auto.
Qed.

Lemma flat_map_nth_error_seq (H : list obj) :
  flat_map (fun r => match nth_error H r with Some o => [o] | None => [] end)
           (seq 0 (List.length H)) = H.
Proof.
  induction H as [|x H IH] using rev_ind; [reflexivity|].
  rewrite length_app, seq_app, flat_map_app. simpl.
  rewrite nth_error_snoc. f_equal.
  rewrite <- IH at 2. apply flat_map_ext_in. intros r Hr.
  apply in_seq in Hr. rewrite nth_error_app1 by lia. reflexivity.
Qed.

Lemma staged_objs_all (s : db) :
  staged s = seq 0 (List.length (heap s)) -> staged_objs s = heap s.
Proof. intros H. unfold staged_objs, deref. rewrite H. apply flat_map_nth_error_seq. Qed.

Lemma course_ids_app (a b : list obj) : course_ids (a ++ b) = course_ids a ++ course_ids b.
Proof. unfold course_ids. apply flat_map_app. Qed.



Lemma keyed_app (a b : list obj) : keyed a -> keyed b -> keyed (a ++ b).
Proof. unfold keyed. intros. apply Forall_app. auto. Qed.


Lemma assign_ids_app (rs1 rs2 : list nat) hp nid :
  assign_ids (rs1 ++ rs2) hp nid =
  let (hp1, nid1) := assign_ids rs1 hp nid in assign_ids rs2 hp1 nid1.
Proof.
  revert hp nid. induction rs1 as [|r rs1 IH]; intros hp nid; [reflexivity|].
  simpl. destruct (nth_error hp r) as [[c|m|l]|]; try apply IH.
  destruct (module_id m); apply IH.
Qed.

Lemma assign_ids_noop (rs : list nat) hp nid :
  (forall r m, In r rs -> nth_error hp r = Some (OModule m) -> module_id m <> None) ->
  assign_ids rs hp nid = (hp, nid).
Proof.
  revert nid. induction rs as [|r rs IH]; intros nid H; [reflexivity|].
  simpl. destruct (nth_error hp r) as [[c|m|l]|] eqn:E; try (apply IH; intros; eapply H; eauto; right; eauto).
  destruct (module_id m) eqn:Em.
  - apply IH. intros; eapply H; eauto. right; eauto.
  - exfalso. exact (H r m (or_introl eq_refl) E Em).
Qed.

Lemma keyed_nth (hp : list obj) r m :
  keyed hp -> nth_error hp r = Some (OModule m) -> module_id m <> None.
Proof.
  intros Hk Hr. apply nth_error_In in Hr. unfold keyed in Hk.
  rewrite Forall_forall in Hk. exact (Hk _ Hr).
Qed.

Lemma set_nth_snoc {A} (l : list A) (x y : A) : set_nth (List.length l) y (l ++ [x]) = l ++ [y].
Proof. induction l as [|z l IH]; simpl; [reflexivity|]. rewrite IH. reflexivity. Qed.

Lemma insert_check_ok sa o dup :
  row_ok o = true ->
  insert_check sa (insert_stmt o) dup
  = match dup with
    | Some column => Err (constraint_error sa (insert_stmt o) "UNIQUE" column)
    | None => Ok tt
    end.
Proof.
  unfold row_ok, insert_check, bind_check.
  destruct (first_unbindable 1 (st_args (insert_stmt o))); [discriminate|].
  destruct (null_column (insert_stmt o)); [discriminate|]. reflexivity.
Qed.

Lemma insert_check_dup_err sa st column : exists e, insert_check sa st (Some column) = Err e.
Proof.
  unfold insert_check, bind_check.
  destruct (first_unbindable 1 (st_args st)); [eexists; reflexivity|].
  destruct (null_column st); eexists; reflexivity.
Qed.

Lemma check_rows_ok sa rows :
  forall taken,
  forallb row_ok rows = true ->
  (forall c, In c (course_ids rows) -> ~ In c taken) -> NoDup (course_ids rows) ->
  check_rows sa taken rows = Ok tt.
Proof.
  induction rows as [|o rows IH]; intros taken Hok Hfr Hnd; [reflexivity|].
  cbn [forallb] in Hok. apply andb_prop in Hok as [Ho Hok].
  cbn [check_rows]. rewrite (insert_check_ok sa o _ Ho).
  change (o :: rows) with ([o] ++ rows) in Hfr, Hnd. rewrite course_ids_app in Hfr, Hnd.
  destruct o as [c|m|l]; cbn [course_dup course_ids flat_map app] in Hfr, Hnd |- *.
  - destruct (existsb (str_eqb (course_id c)) taken) eqn:E.
    + apply existsb_str_eqb_In in E. exfalso. exact (Hfr _ (or_introl eq_refl) E).
    + cbn [rbind]. apply IH; [exact Hok| |inversion Hnd; assumption].
      intros c' Hc' Hin. apply in_app_or in Hin as [Hin|[<-|[]]].
      * exact (Hfr c' (or_intror Hc') Hin).
      * inversion Hnd; contradiction.
  - cbn [rbind]. rewrite app_nil_r. apply IH; assumption.
  - cbn [rbind]. rewrite app_nil_r. apply IH; assumption.
Qed.

Lemma forallb_flush_order (f : obj -> bool) os :
  forallb f os = true -> forallb f (flush_order os) = true.
Proof.
  rewrite !forallb_forall. intros H x Hx. unfold flush_order in Hx.
  apply in_app_or in Hx as [Hx|Hx]; [|apply in_app_or in Hx as [Hx|Hx]];
    apply filter_In in Hx as [Hx _]; exact (H x Hx).
Qed.

Lemma course_ids_flush_order os : course_ids (flush_order os) = course_ids os.
Proof.
  unfold flush_order, course_ids. rewrite !flat_map_app.
  induction os as [|[c|m|l] os IH]; [reflexivity| | |]; simpl; [f_equal| |]; exact IH.
Qed.

(** ** Values and rows that pass SQLite's checks *)

Lemma existsb_surrogate_lit (x : string) : existsb is_surrogate (lit x) = false.
Proof.
  unfold lit. induction (list_ascii_of_string x) as [|a l IH]; [reflexivity|].
  cbn [map existsb]. rewrite IH, orb_false_r. unfold is_surrogate.
  pose proof (nat_ascii_bounded a).
  destruct (55296 <=? N.of_nat (nat_of_ascii a)) eqn:E; [|reflexivity].
  apply N.leb_le in E. lia.
Qed.




Lemma bindable_lit x : bindable (JStr (lit x)) = true.
Proof. cbn [bindable]. rewrite existsb_surrogate_lit. reflexivity. Qed.








Lemma row_ok_module m :
  row_ok (OModule m) = bindable (JStr (module_course_id m)) && present (module_title m).
Proof.
  unfold row_ok, present, null_column.
  cbn [insert_stmt st_args first_unbindable arg_value bindable_param find arg_not_null andb].
  destruct (bindable (JStr (module_course_id m))), (bindable (module_title m));
    cbn [andb negb]; try reflexivity.
  all: destruct (module_title m); reflexivity.
Qed.






(** The checks of a flush of the request's objects: one course whose id
    is new to the store, then rows of the other tables, all filling their
    columns. *)
Lemma check_rows_request sa store0 c R :
  course_ids R = [] -> row_ok (OCourse c) = true -> forallb row_ok R = true ->
  existsb (str_eqb (course_id c)) (course_ids store0) = false ->
  check_rows sa (course_ids store0) (flush_order (OCourse c :: R)) = Ok tt.
Proof.
  intros Hc Hoc HR Hf. apply check_rows_ok.
  - apply forallb_flush_order. cbn [forallb]. rewrite Hoc, HR. reflexivity.
  - rewrite course_ids_flush_order. change (OCourse c :: R) with ([OCourse c] ++ R).
    rewrite course_ids_app, Hc. intros c' [<-|[]] Hin. apply existsb_str_eqb_In in Hin. congruence.
  - rewrite course_ids_flush_order. change (OCourse c :: R) with ([OCourse c] ++ R).
    rewrite course_ids_app, Hc. repeat constructor. intros [].
Qed.

(** A flush of a session holding exactly the request's objects, all keyed,
    with one course whose id is new to the store. *)
Lemma session_flush_keyed sa store0 c R nid :
  keyed R -> course_ids R = [] -> row_ok (OCourse c) = true -> forallb row_ok R = true ->
  existsb (str_eqb (course_id c)) (course_ids store0) = false ->
  session_flush sa {| store := store0; heap := OCourse c :: R;
                      staged := seq 0 (S (List.length R)); next_id := nid |}
  = (Ok tt, {| store := store0; heap := OCourse c :: R;
               staged := seq 0 (S (List.length R)); next_id := nid |}).
Proof.
  intros Hk Hc Hoc HR Hf. unfold session_flush.
  rewrite staged_objs_all by reflexivity. cbn [store heap staged next_id].
  rewrite (check_rows_request sa store0 c R Hc Hoc HR Hf).
  rewrite assign_ids_noop; [reflexivity|].
  intros r m _ Hr. apply (keyed_nth (OCourse c :: R) r m); [constructor; auto|exact Hr].
Qed.

(** The flush right after a new [Module] is added: it receives the next key. *)
Lemma session_flush_new_module sa store0 c R m nid :
  keyed R -> course_ids R = [] -> row_ok (OCourse c) = true -> forallb row_ok R = true ->
  row_ok (OModule m) = true ->
  existsb (str_eqb (course_id c)) (course_ids store0) = false ->
  module_id m = None ->
  session_flush sa {| store := store0; heap := OCourse c :: R ++ [OModule m];
                      staged := seq 0 (S (S (List.length R))); next_id := nid |}
  = (Ok tt, {| store := store0;
               heap := OCourse c :: R ++ [OModule {| module_id := Some nid;
                                                     module_course_id := module_course_id m;
                                                     module_title := module_title m;
                                                     module_order_index := module_order_index m |}];
               staged := seq 0 (S (S (List.length R))); next_id := nid + 1 |}).
Proof.
  intros Hk Hc Hoc HR Hom Hf Hm. unfold session_flush.
  rewrite staged_objs_all by (cbn [heap staged List.length]; rewrite length_app; cbn [List.length]; f_equal; lia).
  cbn [store heap staged next_id].
  rewrite (check_rows_request sa store0 c (R ++ [OModule m]));
    [| rewrite course_ids_app, Hc; reflexivity | exact Hoc
     | rewrite forallb_app, HR; cbn [forallb]; rewrite Hom; reflexivity | exact Hf].
  replace (seq 0 (S (S (List.length R)))) with (seq 0 (S (List.length R)) ++ [S (List.length R)])
    by (rewrite <- seq_S; reflexivity).
  rewrite assign_ids_app.
  rewrite assign_ids_noop.
  - simpl. rewrite nth_error_app2 by lia. rewrite Nat.sub_diag. simpl. rewrite Hm.
    rewrite (set_nth_snoc R (OModule m)). reflexivity.
  - intros r m' Hr Hn. apply in_seq in Hr.
    change (OCourse c :: R ++ [OModule m]) with ((OCourse c :: R) ++ [OModule m]) in Hn.
    rewrite nth_error_app1 in Hn by (simpl; lia).
    apply (keyed_nth (OCourse c :: R) r m'); [constructor; auto|exact Hn].
Qed.

(** ** The module loop *)


Lemma thumb_after_S yt midx j ls c : thumb_after yt (S midx) j ls c = c.
Proof. reflexivity. Qed.


Lemma Forall_lt_seq (n : nat) : Forall (fun r => (r < n)%nat) (seq 0 n).
Proof. apply Forall_forall. intros r Hr. apply in_seq in Hr. lia. Qed.


Lemma seq_0_split (a b : nat) : seq 0 (a + b) = seq 0 a ++ seq a b.
Proof. rewrite seq_app. reflexivity. Qed.


(** ** A whole run of [generate_course] *)



Lemma py_get_obj fs k d : exists x, py_get (JObj fs) k d = Ok x.
Proof. simpl. destruct (dict_lookup k fs); eauto. Qed.




(** ** Lemmas about the other routes *)

(** *** The seeding run *)

Lemma seed_lesson_rows_from (mid : N) (ls : list (string * string * string)) :
  forall i, map (fun p => let '(i, (title, video_id, duration)) := p in
                          OLesson {| lesson_module_id := Some mid; lesson_title := JStr (lit title);
                                     lesson_video_url := JStr (lit video_id);
                                     lesson_duration := JStr (lit duration); lesson_order_index := S i |})
                (combine (seq i (List.length ls)) ls)
            = seed_lesson_rows_at mid i ls.
Proof.
  induction ls as [|[[title video_id] duration] ls IH]; intros i; [reflexivity|].
  cbn [List.length seq combine map seed_lesson_rows_at]. rewrite IH. reflexivity.
Qed.

Lemma seed_lesson_rows_at_0 (mid : N) ls : seed_lesson_rows mid ls = seed_lesson_rows_at mid 0 ls.
Proof. apply seed_lesson_rows_from. Qed.

Lemma length_seed_lesson_rows_at mid i ls : List.length (seed_lesson_rows_at mid i ls) = List.length ls.
Proof.
  revert i. induction ls as [|[[a b] c] ls IH]; intros i; [reflexivity|].
  cbn [seed_lesson_rows_at List.length]. rewrite IH. reflexivity.
Qed.

Lemma seed_lessons_run k p t oi ls :
  forall i store0 hp st nid,
  nth_error hp k = Some (seed_module_row p t oi) ->
  Forall (fun r => (r < List.length hp)%nat) st ->
  seed_lessons k i ls {| store := store0; heap := hp; staged := st; next_id := nid |}
  = (Ok tt, {| store := store0; heap := hp ++ seed_lesson_rows_at p i ls;
               staged := st ++ seq (List.length hp) (List.length ls); next_id := nid |}).
Proof.
  induction ls as [|[[title video_id] duration] ls IH]; intros i store0 hp st nid Hm Hst.
  - cbn [seed_lessons seed_lesson_rows_at List.length seq]. unfold mret. rewrite !app_nil_r. reflexivity.
  - assert (Hk : (k < List.length hp)%nat) by (apply nth_error_Some; congruence).
    cbn [seed_lessons].
    unfold mbind at 1. unfold read_module_id, deref. cbn [heap]. rewrite Hm.
    unfold mbind at 1. unfold new_obj. cbn [heap staged store next_id seed_module_row module_id].
    unfold mbind at 1. unfold session_add. cbn [heap staged store next_id].
    rewrite (existsb_lt_false st (List.length hp) Hst).
    rewrite IH.
    + cbn [seed_lesson_rows_at List.length seq]. rewrite <- !app_assoc, length_app.
      cbn [List.length app]. rewrite Nat.add_1_r. reflexivity.
    + rewrite nth_error_app1 by exact Hk. exact Hm.
    + rewrite length_app. cbn [List.length]. apply Forall_app. split.
      * apply (Forall_lt_weaken _ (List.length hp)); [lia|exact Hst].
      * constructor; [lia|constructor].
Qed.

Lemma row_ok_python_course : row_ok (OCourse python_course) = true.
Proof. vm_compute. reflexivity. Qed.

Lemma seed_module_run sa store0 R nid title oi :
  keyed R -> course_ids R = [] -> forallb row_ok R = true ->
  existsb (str_eqb python_id) (course_ids store0) = false ->
  seed_module sa title oi {| store := store0; heap := OCourse python_course :: R;
                             staged := seq 0 (S (List.length R)); next_id := nid |}
  = (Ok (S (List.length R)),
     {| store := store0; heap := OCourse python_course :: R ++ [seed_module_row nid title oi];
        staged := seq 0 (S (S (List.length R))); next_id := nid + 1 |}).
Proof.
  intros Hk Hc HR Hf. unfold seed_module.
  unfold mbind at 1. unfold new_obj. cbn [heap staged store next_id List.length app].
  unfold mbind at 1. unfold session_add. cbn [heap staged store next_id].
  rewrite (existsb_lt_false _ _ (Forall_lt_seq (S (List.length R)))).
  rewrite <- seq_S.
  unfold mbind at 1. rewrite session_flush_new_module; [| exact Hk | exact Hc | exact row_ok_python_course
    | exact HR | rewrite row_ok_module; unfold present; cbn [module_course_id module_title is_null negb];
                 rewrite !bindable_lit; reflexivity
    | exact Hf | reflexivity].
  unfold mbind, mret. reflexivity.
Qed.

Lemma seed_block_run {B} sa store0 R st nid title oi ls (k : M B) :
  keyed R -> course_ids R = [] -> forallb row_ok R = true ->
  existsb (str_eqb python_id) (course_ids store0) = false ->
  st = seq 0 (S (List.length R)) ->
  (module <- seed_module sa title oi ;; seed_lessons module 0 ls ;;; k)
    {| store := store0; heap := OCourse python_course :: R; staged := st; next_id := nid |}
  = k {| store := store0;
         heap := OCourse python_course :: R ++ seed_module_row nid title oi :: seed_lesson_rows_at nid 0 ls;
         staged := seq 0 (S (List.length (R ++ seed_module_row nid title oi :: seed_lesson_rows_at nid 0 ls)));
         next_id := nid + 1 |}.
Proof.
  intros Hk Hc HR Hf ->.
  unfold mbind at 1. rewrite (seed_module_run sa store0 R nid title oi Hk Hc HR Hf).
  unfold mbind at 1.
  rewrite (seed_lessons_run (S (List.length R)) nid title oi ls 0 store0 _ _ (nid + 1)).
  - f_equal. f_equal.
    + cbn [app]. rewrite <- app_assoc. reflexivity.
    + cbn [List.length]. rewrite !length_app. cbn [List.length].
      rewrite length_seed_lesson_rows_at.
      replace (S (List.length R + S (List.length ls))) with (S (S (List.length R)) + List.length ls)%nat by lia.
      rewrite seq_0_split. f_equal. f_equal. lia.
  - cbn [nth_error]. rewrite nth_error_app2, Nat.sub_diag by lia. reflexivity.
  - cbn [List.length]. rewrite length_app. cbn [List.length].
    apply Forall_lt_weaken with (n := S (S (List.length R))); [lia|apply Forall_lt_seq].
Qed.

Lemma seed_run sa (store0 : list obj) (nid : N) :
  existsb (str_eqb python_id) (course_ids store0) = false ->
  _seed_python_course sa {| store := store0; heap := []; staged := []; next_id := nid |}
  = (Ok tt, {| store := store0 ++ python_seed_rows nid;
               heap := python_seed_rows nid;
               staged := []; next_id := nid + 3 |}).
Proof.
  intros H. unfold _seed_python_course.
  unfold mbind at 1. unfold new_obj. cbn [heap staged store next_id List.length app].
  unfold mbind at 1. unfold session_add. cbn [heap staged store next_id existsb app].
  pose proof (session_flush_keyed sa store0 python_course [] nid (Forall_nil _) eq_refl
                row_ok_python_course eq_refl H) as Hfl.
  cbn [List.length seq] in Hfl.
  unfold mbind at 1. rewrite Hfl. cbv beta iota.
  assert (Hks : forall mid t oi ls, keyed (seed_module_row mid t oi :: seed_lesson_rows_at mid 0 ls)).
  { intros mid t oi ls. constructor; [discriminate|]. generalize 0%nat.
    induction ls as [|[[a b] c] ls IH]; intros i; constructor; [exact I|apply IH]. }
  assert (Hcs : forall mid t oi ls, course_ids (seed_module_row mid t oi :: seed_lesson_rows_at mid 0 ls) = []).
  { intros mid t oi ls. cbn. generalize 0%nat.
    induction ls as [|[[a b] c] ls IH]; intros i; [reflexivity|apply IH]. }
  assert (Hrs : forall mid t oi ls, forallb row_ok (seed_module_row mid t oi :: seed_lesson_rows_at mid 0 ls) = true).
  { intros mid t oi ls. cbn [forallb]. unfold seed_module_row.
    rewrite row_ok_module. unfold present. cbn [module_course_id module_title is_null negb].
    unfold python_id. rewrite !bindable_lit. cbn [andb]. generalize 0%nat.
    induction ls as [|[[a b] c] ls IH]; intros i; [reflexivity|].
    cbn [seed_lesson_rows_at forallb]. rewrite IH, andb_true_r.
    unfold row_ok. cbn [insert_stmt st_args first_unbindable arg_value bindable_param key_param
                        lesson_module_id lesson_title lesson_video_url lesson_duration].
    rewrite !bindable_lit. reflexivity. }
  rewrite (seed_block_run sa store0 [] _ nid "Basics" 1 basics_lessons _ (Forall_nil _) eq_refl eq_refl H eq_refl).
  cbn [app].
  rewrite (seed_block_run sa store0 _ _ (nid + 1) "Data Structures" 2 ds_lessons _
             (Hks _ _ _ _) (Hcs _ _ _ _) (Hrs _ _ _ _) H eq_refl).
  rewrite (seed_block_run sa store0 _ _ (nid + 1 + 1) "OOP" 3 oop_lessons _);
    [| apply keyed_app; apply Hks | rewrite course_ids_app, !Hcs; reflexivity
     | rewrite forallb_app, !Hrs; reflexivity | exact H | reflexivity].
  unfold session_commit.
  unfold mbind at 1.
  rewrite session_flush_keyed;
    [| repeat apply keyed_app; try apply Hks; constructor
     | rewrite !course_ids_app, !Hcs; reflexivity
     | exact row_ok_python_course
     | rewrite !forallb_app, !Hrs; reflexivity
     | exact H].
  rewrite staged_objs_all by reflexivity. cbn [heap store next_id].
  unfold python_seed_rows. rewrite !seed_lesson_rows_at_0.
  replace (nid + 3) with (nid + 1 + 1 + 1) by lia.
  replace (nid + 2) with (nid + 1 + 1) by lia.
  rewrite <- !app_assoc. reflexivity.
Qed.

Lemma seed_conflict_run sa (store0 : list obj) (nid : N) :
  existsb (str_eqb python_id) (course_ids store0) = true ->
  _seed_python_course sa {| store := store0; heap := []; staged := []; next_id := nid |}
  = (Err (constraint_error sa (insert_stmt (OCourse python_course)) "UNIQUE" "id"),
     {| store := store0; heap := [OCourse python_course]; staged := [O]; next_id := nid |}).
Proof.
  intros H.
  unfold _seed_python_course.
  unfold mbind at 1. unfold new_obj. cbn [heap staged store next_id List.length app].
  unfold mbind at 1. unfold session_add. cbn [heap staged store next_id existsb app].
  unfold mbind at 1. unfold session_flush at 1.
  rewrite staged_objs_all by reflexivity. cbn [heap staged store next_id].
  change (flush_order [OCourse python_course]) with [OCourse python_course].
  cbn [check_rows]. rewrite (insert_check_ok sa (OCourse python_course)) by reflexivity.
  cbn [course_dup]. change (course_id python_course) with python_id. rewrite H.
  reflexivity.
Qed.

Lemma python_seed_rows_found (store0 : list obj) (nid : N) :
  existsb (fun o => match o with
                    | OCourse c => match course_title c with
                                   | JStr t => str_eqb t (lit "Python Mastery")
                                   | _ => false
                                   end
                    | _ => false
                    end) (store0 ++ python_seed_rows nid) = true.
Proof. rewrite existsb_app. apply orb_true_iff. right. reflexivity. Qed.

(** *** Progress *)

Lemma find_index_some {A} (p : A -> bool) xs i :
  find_index p xs = Some i -> exists x, nth_error xs i = Some x /\ p x = true.
Proof.
  revert i; induction xs as [|y ys IH]; intros i H; cbn in H; [discriminate|].
  destruct (p y) eqn:E.
  - injection H as <-. exists y. auto.
  - destruct (find_index p ys) as [j|] eqn:F; cbn in H; [|discriminate].
    injection H as <-. exact (IH j eq_refl).
Qed.

Lemma find_index_none {A} (p : A -> bool) xs :
  find_index p xs = None -> forall x, In x xs -> p x = false.
Proof.
  induction xs as [|y ys IH]; intros H x Hx; [destruct Hx|]. cbn in H.
  destruct (p y) eqn:E; [discriminate|].
  destruct Hx as [<-|Hx]; [exact E|].
  destruct (find_index p ys); [discriminate|]. apply IH; auto.
Qed.

Lemma set_nth_map {A B} (f : A -> B) i y xs : map f (set_nth i y xs) = set_nth i (f y) (map f xs).
Proof. revert i; induction xs as [|z zs IH]; intros [|i]; cbn; try reflexivity; f_equal; auto. Qed.

Lemma set_nth_same {A} i (x : A) xs : nth_error xs i = Some x -> set_nth i x xs = xs.
Proof.
  revert i; induction xs as [|y ys IH]; intros [|i] H; cbn in *; try discriminate.
  - injection H as ->. reflexivity.
  - f_equal. auto.
Qed.

Lemma set_nth_In {A} i (x y : A) xs : nth_error xs i = Some x -> In y (set_nth i y xs).
Proof.
  revert i; induction xs as [|z zs IH]; intros [|i] H; cbn in *; try discriminate.
  - left. reflexivity.
  - right. eauto.
Qed.

Lemma set_nth_length {A} i (y : A) xs : List.length (set_nth i y xs) = List.length xs.
Proof. revert i; induction xs as [|z zs IH]; intros [|i]; cbn; auto. Qed.

Lemma filter_set_nth {A} (q : A -> bool) i x y xs :
  nth_error xs i = Some x -> q x = false -> q y = false -> filter q (set_nth i y xs) = filter q xs.
Proof.
  revert i; induction xs as [|z zs IH]; intros [|i] H Hx Hy; cbn in *; try discriminate.
  - injection H as ->. rewrite Hx, Hy. reflexivity.
  - destruct (q z); [f_equal|]; eauto.
Qed.

Lemma NoDup_map_inj {A B} (f : A -> B) l x y :
  NoDup (map f l) -> In x l -> In y l -> f x = f y -> x = y.
Proof.
  induction l as [|z zs IH]; intros Hn Hx Hy E; [destruct Hx|].
  cbn in Hn. inversion Hn as [|? ? Hz Hn']; subst.
  destruct Hx as [<-|Hx], Hy as [<-|Hy]; auto.
  - exfalso. apply Hz. rewrite E. apply in_map. exact Hy.
  - exfalso. apply Hz. rewrite <- E. apply in_map. exact Hx.
Qed.

Lemma progress_key_pair uid t r : progress_key uid t r = true <-> progress_pair r = (uid, t).
Proof.
  unfold progress_key, progress_pair. rewrite andb_true_iff, N.eqb_eq, str_eqb_eq.
  split; [intros [-> ->]; reflexivity | intros H; injection H as -> ->; auto].
Qed.

Lemma upsert_progress_nodup now uid topic done ts rows :
  NoDup (map progress_pair rows) ->
  NoDup (map progress_pair (upsert_progress now uid topic done ts rows)).
Proof.
  intros Hn. unfold upsert_progress.
  destruct (find_index (progress_key uid topic) rows) as [i|] eqn:F.
  - destruct (nth_error rows i) as [p|] eqn:Hp; [|exact Hn].
    rewrite set_nth_map.
    change (progress_pair {| pr_user_id := pr_user_id p; pr_topic_id := pr_topic_id p;
                             pr_is_completed := done; pr_timestamp := ts; pr_last_watched := now |})
      with (progress_pair p).
    rewrite set_nth_same; [exact Hn | apply map_nth_error; exact Hp].
  - rewrite map_app. cbn.
    apply Permutation_NoDup with (l := (uid, topic) :: map progress_pair rows).
    + apply Permutation_cons_append.
    + constructor; [|exact Hn].
      intros H. apply in_map_iff in H. destruct H as [r [E Hr]].
      pose proof (find_index_none _ _ F r Hr) as K.
      rewrite (proj2 (progress_key_pair _ _ _) E) in K. discriminate.
Qed.

Lemma upsert_progress_others now uid topic done ts rows (q : progress_row -> bool) :
  (forall r, pr_user_id r = uid -> q r = false) ->
  filter q (upsert_progress now uid topic done ts rows) = filter q rows.
Proof.
  intros Hq. unfold upsert_progress.
  destruct (find_index (progress_key uid topic) rows) as [i|] eqn:F.
  - destruct (find_index_some _ _ _ F) as [x [Hx Kx]]. rewrite Hx.
    apply progress_key_pair in Kx. unfold progress_pair in Kx. injection Kx as Ex Et.
    apply (filter_set_nth q i x); [exact Hx | apply Hq; exact Ex | apply Hq; cbn; exact Ex].
  - rewrite filter_app. cbn.
    match goal with |- context [q ?r] => rewrite (Hq r eq_refl) end.
    apply app_nil_r.
Qed.

Lemma upsert_progress_row now uid topic done ts rows :
  exists r, In r (upsert_progress now uid topic done ts rows)
            /\ progress_pair r = (uid, topic) /\ pr_is_completed r = done.
Proof.
  unfold upsert_progress.
  destruct (find_index (progress_key uid topic) rows) as [i|] eqn:F.
  - destruct (find_index_some _ _ _ F) as [x [Hx Kx]]. rewrite Hx.
    eexists. split; [eapply set_nth_In; exact Hx|]. split; [|reflexivity].
    apply progress_key_pair in Kx. exact Kx.
  - eexists. split; [apply in_or_app; right; left; reflexivity|]. split; reflexivity.
Qed.

Lemma upsert_progress_length now uid topic done ts rows :
  (List.length (upsert_progress now uid topic done ts rows) <= S (List.length rows))%nat.
Proof.
  unfold upsert_progress.
  destruct (find_index (progress_key uid topic) rows) as [i|].
  - destruct (nth_error rows i); [rewrite set_nth_length|]; lia.
  - rewrite length_app. cbn. lia.
Qed.

Lemma completed_topics_iff uid topic rows r :
  NoDup (map progress_pair rows) -> In r rows -> progress_pair r = (uid, topic) ->
  (In topic (completed_topics uid rows) <-> pr_is_completed r = Some true).
Proof.
  intros Hn Hr E. unfold completed_topics. rewrite in_map_iff. split.
  - intros [r' [Et Hr']]. apply filter_In in Hr'. destruct Hr' as [Hr' C].
    apply andb_true_iff in C. destruct C as [Cu Cc]. apply N.eqb_eq in Cu.
    assert (r' = r) as ->.
    { apply (NoDup_map_inj progress_pair rows); auto.
      rewrite E. unfold progress_pair. rewrite Cu, Et. reflexivity. }
    destruct (pr_is_completed r) as [[|]|]; try discriminate; reflexivity.
  - intros Hc. exists r. unfold progress_pair in E. injection E as Eu Et. split; [exact Et|].
    apply filter_In. split; [exact Hr|]. rewrite Eu, N.eqb_refl, Hc. reflexivity.
Qed.

Lemma update_progress_cases now data a rep a' :
  update_progress now data a = (rep, a') ->
  a' = a \/ exists u topic done ts,
    current_user a = Some u
    /\ a' = with_progress a (upsert_progress now (u_id u) topic done ts (app_progress a)).
Proof.
  unfold update_progress. intros H.
  repeat match type of H with
         | context [match ?x with _ => _ end] => destruct x eqn:?
         end;
  injection H as _ <-; auto.
  right. do 4 eexists. split; reflexivity.
Qed.

Lemma py_get_dict_get fs k d : py_get (JObj fs) k d = Ok (dict_get fs k d).
Proof. unfold py_get, dict_get. destruct (dict_lookup k fs); reflexivity. Qed.

(** *** Users *)

Lemma next_user_id_gt (users : list user_row) u :
  In u users -> u_id u < next_user_id users.
Proof.
  unfold next_user_id. induction users as [|v vs IH]; intros H; [destruct H|].
  cbn [fold_right].
  match goal with |- _ < 1 + N.max ?x ?y => pose proof (N.le_max_l x y); pose proof (N.le_max_r x y) end.
  destruct H as [->|H]; [lia|]. specialize (IH H). lia.
Qed.

Lemma NoDup_map_snoc {A B} (f : A -> B) l y :
  NoDup (map f l) -> (forall x, In x l -> f x <> f y) -> NoDup (map f (l ++ [y])).
Proof.
  intros Hn Hy. rewrite map_app. cbn.
  apply Permutation_NoDup with (l := f y :: map f l); [apply Permutation_cons_append|].
  constructor; [|exact Hn].
  intros H. apply in_map_iff in H. destruct H as [x [E Hx]]. exact (Hy x Hx E).
Qed.

Lemma find_user_in (users : list user_row) u :
  NoDup (map u_id users) -> In u users -> find_user users (u_id u) = Some u.
Proof.
  intros Hn Hu. unfold find_user.
  destruct (find (fun v => N.eqb (u_id v) (u_id u)) users) as [v|] eqn:F.
  - apply find_some in F. destruct F as [Hv E]. apply N.eqb_eq in E.
    f_equal. exact (NoDup_map_inj u_id users v u Hn Hv Hu E).
  - pose proof (find_none _ _ F u Hu) as K. cbv beta in K. rewrite N.eqb_refl in K. discriminate.
Qed.

Lemma find_by_google_id_in (users : list user_row) u :
  NoDup (map u_google_id users) -> In u users -> find_by_google_id (Some (u_google_id u)) users = Some u.
Proof.
  intros Hn Hu. unfold find_by_google_id.
  destruct (find (fun v => str_eqb (u_google_id v) (u_google_id u)) users) as [v|] eqn:F.
  - apply find_some in F. destruct F as [Hv E]. apply str_eqb_eq in E.
    f_equal. exact (NoDup_map_inj u_google_id users v u Hn Hv Hu E).
  - pose proof (find_none _ _ F u Hu) as K. cbv beta in K. rewrite str_eqb_refl in K. discriminate.
Qed.

Lemma authorize_user_ok sa (info : json) (users users' : list user_row) (u : user_row) :
  users_ok users -> authorize_user sa info users = Ok (u, users') ->
  users_ok users' /\ In u users'
  /\ (exists gv, py_getitem info (lit "id") = Ok gv /\ sql_text_value gv = Ok (Some (u_google_id u)))
  /\ (users' = users \/ users' = users ++ [u]).
Proof.
  intros [Hid [Hg He]] H. unfold authorize_user in H.
  destruct (py_getitem info (lit "id")) as [gv|e] eqn:Eg; cbn [rbind] in H; [|discriminate].
  destruct (bind_check sa (user_select gv)) as [[]|e] eqn:Eb; cbn [rbind] in H; [|discriminate].
  assert (Hs : sql_text_value gv = Ok (text_of gv)).
  { unfold bind_check, user_select in Eb. cbn [st_args first_unbindable arg_value bindable_param] in Eb.
    unfold sql_text_value. destruct (bindable gv); [reflexivity|discriminate]. }
  destruct (text_of gv) as [g|] eqn:Tg.
  2:{ cbn [find_by_google_id] in H.
      destruct (py_getitem info (lit "email")) as [ev|e]; cbn [rbind] in H; [|discriminate].
      destruct (py_get info (lit "name") JNull) as [nv|e]; cbn [rbind] in H; [|discriminate].
      destruct (py_get info (lit "picture") JNull) as [pv|e]; cbn [rbind] in H; [|discriminate].
      match type of H with context [bind_check sa ?x] => destruct (bind_check sa x) as [[]|e] end;
        cbn [rbind] in H; discriminate. }
  destruct (find_by_google_id (Some g) users) as [v|] eqn:F.
  - injection H as <- <-.
    apply find_some in F. destruct F as [Hv E]. apply str_eqb_eq in E. subst g.
    split; [split; auto|]. split; [exact Hv|]. split; [|left; reflexivity].
    exists gv. auto.
  - destruct (py_getitem info (lit "email")) as [ev|e]; cbn [rbind] in H; [|discriminate].
    destruct (py_get info (lit "name") JNull) as [nv|e]; cbn [rbind] in H; [|discriminate].
    destruct (py_get info (lit "picture") JNull) as [pv|e]; cbn [rbind] in H; [|discriminate].
    match type of H with context [bind_check sa ?x] => destruct (bind_check sa x) as [[]|e] end;
        cbn [rbind] in H; [|discriminate].
    destruct (text_of ev) as [em|]; [|discriminate].
    destruct (existsb (fun v => str_eqb (u_google_id v) g) users); [discriminate|].
    destruct (existsb (fun v => str_eqb (u_email v) em) users) eqn:Ex; [discriminate|].
    injection H as <- <-.
    split; [|split; [apply in_or_app; right; left; reflexivity|split; [exists gv; auto|right; reflexivity]]].
    split; [|split]; apply NoDup_map_snoc; auto; intros x Hx E; cbn [u_id u_google_id u_email] in E.
    + pose proof (next_user_id_gt users x Hx). lia.
    + pose proof (find_none _ _ F x Hx) as K. cbv beta in K. rewrite E, str_eqb_refl in K. discriminate.
    + assert (existsb (fun v => str_eqb (u_email v) em) users = true) as T; [|congruence].
      apply existsb_exists. exists x. split; [exact Hx|]. cbv beta. rewrite E. apply str_eqb_refl.
Qed.

Lemma users_ok_sample : users_ok [sample_user].
Proof. split; [|split]; apply NoDup_cons; (intros [] || apply NoDup_nil). Qed.

Lemma existsb_email_In (users : list user_row) e :
  In e (map u_email users) -> existsb (fun v => str_eqb (u_email v) e) users = true.
Proof.
  intros H. apply in_map_iff in H. destruct H as [v [E Hv]].
  apply existsb_exists. exists v. split; [exact Hv|]. cbv beta. rewrite E. apply str_eqb_refl.
Qed.

(** *** Sorting and least elements *)

Section Sorting.

Context {A : Type} (key : A -> nat).

Let R (x y : A) : Prop := (key x <= key y)%nat.

Lemma insert_by_perm x ys : Permutation (insert_by key x ys) (x :: ys).
Proof.
  induction ys as [|y ys IH]; cbn [insert_by]; [reflexivity|].
  destruct (Nat.ltb (key x) (key y)); [reflexivity|].
  eapply perm_trans; [apply perm_skip; exact IH|]. apply perm_swap.
Qed.

Lemma insert_by_sorted x ys : Sorted R ys -> Sorted R (insert_by key x ys).
Proof.
  unfold R. induction ys as [|y ys IH]; intros H; cbn [insert_by].
  - constructor; constructor.
  - destruct (Nat.ltb (key x) (key y)) eqn:E.
    + apply Nat.ltb_lt in E. constructor; [exact H|]. constructor. lia.
    + apply Nat.ltb_ge in E. inversion H as [|? ? Hs Hh]; subst.
      constructor; [apply IH; exact Hs|].
      destruct ys as [|z zs]; cbn [insert_by]; [constructor; lia|].
      destruct (Nat.ltb (key x) (key z)); constructor; [lia|]. inversion Hh; assumption.
Qed.

Lemma fold_insert_spec (xs acc : list A) :
  Sorted R acc ->
  Permutation (fold_left (fun acc x => insert_by key x acc) xs acc) (acc ++ xs)
  /\ Sorted R (fold_left (fun acc x => insert_by key x acc) xs acc).
Proof.
  revert acc; induction xs as [|x xs IH]; intros acc Hs; cbn [fold_left].
  - rewrite app_nil_r. split; [reflexivity|exact Hs].
  - destruct (IH (insert_by key x acc) (insert_by_sorted x acc Hs)) as [P S]. split; [|exact S].
    eapply perm_trans; [exact P|].
    eapply perm_trans; [apply Permutation_app_tail, insert_by_perm|].
    apply Permutation_middle.
Qed.

Lemma sorted_by_spec (xs : list A) :
  Permutation (sorted_by key xs) xs /\ Sorted (fun x y => key x <= key y)%nat (sorted_by key xs).
Proof. apply (fold_insert_spec xs []). constructor. Qed.

Lemma first_min_none (xs : list A) : first_min key xs = None -> xs = [].
Proof.
  destruct xs as [|x xs]; cbn [first_min]; [reflexivity|].
  destruct (first_min key xs) as [y|]; [destruct (Nat.ltb (key y) (key x))|]; discriminate.
Qed.

Lemma first_min_some (xs : list A) y :
  first_min key xs = Some y -> In y xs /\ forall z, In z xs -> (key y <= key z)%nat.
Proof.
  revert y; induction xs as [|x xs IH]; intros y H; cbn [first_min] in H; [discriminate|].
  destruct (first_min key xs) as [y'|] eqn:E.
  - destruct (IH y' eq_refl) as [Hin Hmin].
    destruct (Nat.ltb (key y') (key x)) eqn:L; injection H as <-.
    + apply Nat.ltb_lt in L. split; [right; exact Hin|].
      intros z [<-|Hz]; [lia|]. apply Hmin. exact Hz.
    + apply Nat.ltb_ge in L. split; [left; reflexivity|].
      intros z [<-|Hz]; [lia|]. specialize (Hmin z Hz). lia.
  - injection H as <-. apply first_min_none in E. subst xs.
    split; [left; reflexivity|]. intros z [<-|[]]. lia.
Qed.

End Sorting.

Lemma filter_all_false {A} (f : A -> bool) (l : list A) :
  (forall x, In x l -> f x = false) -> filter f l = [].
Proof.
  induction l as [|x xs IH]; intros H; cbn; [reflexivity|].
  rewrite (H x (or_introl eq_refl)). apply IH. intros y Hy. apply H. right. exact Hy.
Qed.

Lemma opt_N_eqb_eq (a b : option N) : opt_N_eqb a b = true <-> a = b.
Proof.
  destruct a as [x|], b as [y|]; cbn; split; intros H; try discriminate; try reflexivity.
  - apply N.eqb_eq in H. subst. reflexivity.
  - injection H as ->. apply N.eqb_refl.
Qed.

Lemma json_is_str_eq (v : json) (t : str) : json_is_str v t = true <-> v = JStr t.
Proof.
  destruct v; cbn; split; intros H; try discriminate.
  - apply str_eqb_eq in H. subst. reflexivity.
  - injection H as ->. apply str_eqb_refl.
Qed.

Lemma map_option_some {A B} (f : A -> option B) xs :
  (forall x, In x xs -> f x <> None) ->
  exists ys, map_option f xs = Some ys /\ Forall2 (fun x y => f x = Some y) xs ys.
Proof.
  induction xs as [|x xs IH]; intros H; cbn; [exists []; split; [reflexivity|constructor]|].
  destruct (f x) as [y|] eqn:E; [|exfalso; exact (H x (or_introl eq_refl) E)].
  destruct IH as [ys [Hys F]]; [intros z Hz; apply H; right; exact Hz|].
  rewrite Hys. exists (y :: ys). split; [reflexivity|]. constructor; assumption.
Qed.

Lemma map_option_none {A B} (f : A -> option B) xs x :
  In x xs -> f x = None -> map_option f xs = None.
Proof.
  induction xs as [|z zs IH]; intros Hx Hf; [destruct Hx|]. cbn.
  destruct Hx as [<-|Hx]; [rewrite Hf; reflexivity|].
  destruct (f z); [|reflexivity]. rewrite (IH Hx Hf). reflexivity.
Qed.

Lemma course_get_id (T : tables) cid course : course_get T cid = Some course -> course_id course = cid.
Proof. unfold course_get. intros H. apply find_some in H. apply str_eqb_eq. apply H. Qed.

(** *** Fences *)

Lemma starts_with_fence_lead (s : str) : starts_with fence s = true <-> (3 <= lead_ticks s)%nat.
Proof.
  unfold fence, backtick.
  destruct s as [|a [|b [|c s]]]; cbn [starts_with lead_ticks]; unfold backtick;
    rewrite ?(N.eqb_sym 96);
    repeat match goal with |- context [N.eqb ?x 96] => destruct (N.eqb x 96) end;
    cbn; split; intros; (lia || discriminate || reflexivity).
Qed.

Lemma lead_skipn3 (s : str) : starts_with fence s = true -> lead_ticks s = (3 + lead_ticks (skipn 3 s))%nat.
Proof.
  intros H. apply starts_with_fence_lead in H.
  destruct s as [|a [|b [|c s]]]; cbn [lead_ticks skipn] in *; unfold backtick in *;
    repeat match goal with |- context [N.eqb ?x 96] => destruct (N.eqb x 96) end; lia.
Qed.

Lemma replace_fence_spec (f : nat) (s : str) :
  (List.length s < f)%nat ->
  lead_ticks (replace_fuel f fence [] s) = (lead_ticks s mod 3)%nat
  /\ str_contains fence (replace_fuel f fence [] s) = false.
Proof.
  revert s; induction f as [|f IH]; intros s Hl; [lia|].
  destruct s as [|c s']; [split; reflexivity|].
  cbn [replace_fuel].
  destruct (starts_with fence (c :: s')) eqn:Hf.
  - cbn [app]. assert (Hk : (List.length (skipn (List.length fence) (c :: s')) < f)%nat).
    { rewrite length_skipn. cbn [List.length] in *. cbn. lia. }
    destruct (IH _ Hk) as [IH1 IH2]. split; [|exact IH2].
    rewrite IH1, (lead_skipn3 _ Hf).
    change (List.length fence) with 3%nat.
    replace (3 + lead_ticks (skipn 3 (c :: s')))%nat with (lead_ticks (skipn 3 (c :: s')) + 1 * 3)%nat by lia.
    rewrite Nat.Div0.mod_add. reflexivity.
  - assert (Hk : (List.length s' < f)%nat) by (cbn in Hl; lia).
    destruct (IH _ Hk) as [IH1 IH2].
    assert (Hlt : (lead_ticks (c :: s') < 3)%nat).
    { destruct (Nat.lt_ge_cases (lead_ticks (c :: s')) 3) as [L|L]; [exact L|].
      apply starts_with_fence_lead in L. congruence. }
    assert (Hl' : lead_ticks (c :: replace_fuel f fence [] s') = lead_ticks (c :: s')).
    { cbn [lead_ticks] in *. destruct (c =? backtick); [|reflexivity].
      rewrite IH1. rewrite Nat.mod_small by lia. reflexivity. }
    split.
    + rewrite Hl'. rewrite Nat.mod_small by exact Hlt. reflexivity.
    + change (str_contains fence (c :: replace_fuel f fence [] s'))
        with (starts_with fence (c :: replace_fuel f fence [] s') || str_contains fence (replace_fuel f fence [] s')).
      rewrite IH2, orb_false_r.
      destruct (starts_with fence (c :: replace_fuel f fence [] s')) eqn:E; [|reflexivity].
      apply starts_with_fence_lead in E. lia.
Qed.

Lemma py_replace_fence_free (s : str) : str_contains fence (py_replace fence [] s) = false.
Proof. apply replace_fence_spec. lia. Qed.

Lemma starts_with_app (p m r : str) : starts_with p m = true -> starts_with p (m ++ r) = true.
Proof.
  revert m; induction p as [|a p IH]; intros m H; [reflexivity|].
  destruct m as [|b m]; [discriminate|]. cbn in *.
  apply andb_true_iff in H as [H1 H2]. rewrite H1. apply IH. exact H2.
Qed.

Lemma str_contains_app_l (p l m : str) : str_contains p m = true -> str_contains p (l ++ m) = true.
Proof.
  induction l as [|a l IH]; intros H; [exact H|].
  cbn [app str_contains]. rewrite (IH H). apply orb_true_r.
Qed.

Lemma str_contains_app_r (p m r : str) : str_contains p m = true -> str_contains p (m ++ r) = true.
Proof.
  induction m as [|a m IH]; intros H.
  - cbn in H. destruct p as [|x p]; [|discriminate]. destruct r; reflexivity.
  - cbn [app str_contains] in *. apply orb_true_iff in H as [H|H].
    + pose proof (starts_with_app p (a :: m) r H) as H'. cbn [app] in H'. rewrite H'. reflexivity.
    + rewrite (IH H). apply orb_true_r.
Qed.

Lemma py_strip_infix (s : str) : exists l r, s = l ++ py_strip s ++ r.
Proof.
  destruct (drop_space_suffix s) as [l Hl].
  destruct (drop_space_suffix (rev (drop_space s))) as [w Hw].
  exists l, (rev w). unfold py_strip.
  rewrite Hl at 1. f_equal.
  apply (f_equal (@rev N)) in Hw. rewrite rev_app_distr, rev_involutive in Hw. exact Hw.
Qed.

Lemma py_strip_fence_free (s : str) :
  str_contains fence s = false -> str_contains fence (py_strip s) = false.
Proof.
  intros H. destruct (str_contains fence (py_strip s)) eqn:E; [|reflexivity].
  destruct (py_strip_infix s) as [l [r Hs]].
  rewrite Hs, (str_contains_app_l _ l _ (str_contains_app_r _ _ r E)) in H. exact H.
Qed.

Lemma syllabus_clean_text_fence_free (text : str) : str_contains fence (syllabus_clean_text text) = false.
Proof. unfold syllabus_clean_text. apply py_strip_fence_free, py_replace_fence_free. Qed.

(** *** What the session steps keep *)

Lemma nth_error_set_nth_eq {A} i (y : A) xs :
  (i < List.length xs)%nat -> nth_error (set_nth i y xs) i = Some y.
Proof.
  revert i; induction xs as [|x xs IH]; intros [|i] Hi; cbn in *; try lia; [reflexivity|].
  apply IH. lia.
Qed.

Lemma nth_error_set_nth_neq {A} i j (y : A) xs :
  i <> j -> nth_error (set_nth i y xs) j = nth_error xs j.
Proof.
  revert i j; induction xs as [|x xs IH]; intros [|i] [|j] Hij; cbn; try reflexivity; [lia|].
  apply IH. lia.
Qed.

Lemma assign_ids_course rs hp nid r c :
  nth_error hp r = Some (OCourse c) -> nth_error (fst (assign_ids rs hp nid)) r = Some (OCourse c).
Proof.
  revert hp nid; induction rs as [|a rs IH]; intros hp nid H; [exact H|].
  cbn [assign_ids].
  destruct (nth_error hp a) as [[c'|m|l]|] eqn:E; try (apply IH; exact H).
  destruct (module_id m); [apply IH; exact H|].
  apply IH. destruct (Nat.eq_dec a r) as [<-|Hne]; [congruence|].
  rewrite nth_error_set_nth_neq by exact Hne. exact H.
Qed.

Lemma mbind_inv {A B} (m : M A) (k : A -> M B) s b s' :
  mbind m k s = (Ok b, s') -> exists a s1, m s = (Ok a, s1) /\ k a s1 = (Ok b, s').
Proof.
  unfold mbind. destruct (m s) as [[a|e] s1]; intros H; [|discriminate].
  exists a, s1. split; [reflexivity|exact H].
Qed.

Lemma keeps_bind {A B} (m : M A) (k : A -> M B) :
  keeps_store m -> (forall a, keeps_store (k a)) -> keeps_store (mbind m k).
Proof.
  intros Hm Hk s r s'. unfold mbind. destruct (m s) as [[a|e] s1] eqn:E; intros H.
  - rewrite (Hk a s1 r s' H). exact (Hm s _ s1 E).
  - injection H as _ <-. exact (Hm s _ s1 E).
Qed.

Lemma keeps_err_bind {A B} (m : M A) (k : A -> M B) :
  keeps_store m -> (forall a, keeps_store_on_err (k a)) -> keeps_store_on_err (mbind m k).
Proof.
  intros Hm Hk s e s'. unfold mbind. destruct (m s) as [[a|e0] s1] eqn:E; intros H.
  - rewrite (Hk a s1 e s' H). exact (Hm s _ s1 E).
  - injection H as _ <-. exact (Hm s _ s1 E).
Qed.

Lemma keeps_mret {A} (a : A) : keeps_store (mret a).
Proof. intros s r s' H. injection H as _ <-. reflexivity. Qed.

Lemma keeps_lift {A} (r0 : result A) : keeps_store (lift r0).
Proof. intros s r s' H. injection H as _ <-. reflexivity. Qed.

Lemma keeps_new_obj o : keeps_store (new_obj o).
Proof. intros s r s' H. injection H as _ <-. reflexivity. Qed.

Lemma keeps_session_add r0 : keeps_store (session_add r0).
Proof. intros s r s' H. injection H as _ <-. reflexivity. Qed.

Lemma keeps_session_flush sa : keeps_store (session_flush sa).
Proof.
  intros s r s'. unfold session_flush.
  destruct (check_rows _ _ _); [|intros H; injection H as _ <-; reflexivity].
  destruct (assign_ids (staged s) (heap s) (next_id s)) as [hp nid].
  intros H. injection H as _ <-. reflexivity.
Qed.

Lemma keeps_read_module_id r0 : keeps_store (read_module_id r0).
Proof. intros s r s' H. injection H as _ <-. reflexivity. Qed.

Lemma keeps_course_exists cid : keeps_store (course_exists cid).
Proof. intros s r s' H. injection H as _ <-. reflexivity. Qed.

Lemma keeps_set_thumbnail r0 url : keeps_store (set_thumbnail r0 url).
Proof.
  intros s r s'. unfold set_thumbnail.
  destruct (deref s r0) as [[c|m|l]|]; intros H; injection H as _ <-; reflexivity.
Qed.

Ltac keeps_tac :=
  repeat match goal with
  | |- keeps_store (mbind _ _) => apply keeps_bind; [|intros ?]
  | |- keeps_store (if ?b then _ else _) => destruct b
  | |- keeps_store _ =>
      first [ apply keeps_mret | apply keeps_lift | apply keeps_new_obj | apply keeps_session_add
            | apply keeps_session_flush | apply keeps_read_module_id | apply keeps_course_exists
            | apply keeps_set_thumbnail | solve [eauto] ]
  end.

Lemma keeps_create_lessons yt course_ref midx module_ref lidx lessons :
  keeps_store (create_lessons yt course_ref midx module_ref lidx lessons).
Proof.
  revert lidx; induction lessons as [|t rest IH]; intros lidx; cbn [create_lessons]; keeps_tac.
Qed.

Lemma keeps_create_modules yt sa course_ref cid midx modules :
  keeps_store (create_modules yt sa course_ref cid midx modules).
Proof.
  revert midx; induction modules as [|m rest IH]; intros midx; cbn [create_modules]; keeps_tac.
  apply keeps_create_lessons.
Qed.

Lemma keeps_derive_course_id str_lower syl rand : keeps_store (derive_course_id str_lower syl rand).
Proof. unfold derive_course_id. keeps_tac. Qed.

Lemma keeps_create_course sa syl topic cid : keeps_store (create_course sa syl topic cid).
Proof. unfold create_course. keeps_tac. Qed.

Lemma commit_ret_err {A} sa (x : A) : keeps_store_on_err (session_commit sa ;;; mret x).
Proof.
  intros s e s'. unfold session_commit, mbind.
  destruct (session_flush sa s) as [[[]|e0] s1] eqn:E; [discriminate|].
  intros H. injection H as _ <-. exact (keeps_session_flush sa s _ s1 E).
Qed.

Lemma staged_objs_single a h o n : staged_objs {| store := a; heap := h ++ [o]; staged := [List.length h]; next_id := n |} = [o].
Proof. unfold staged_objs, deref. cbn [staged heap flat_map]. rewrite nth_error_app2, Nat.sub_diag by lia. reflexivity. Qed.

(** The flush of a course whose id the table holds raises: whatever
    check fails first, the INSERT of the course does. *)
Lemma create_course_dup_err sa syl topic cid s0 t :
  py_getitem syl (lit "title") = Ok (JStr t) -> staged s0 = [] -> In cid (course_ids (store s0)) ->
  exists e s1, create_course sa syl topic cid s0 = (Err e, s1).
Proof.
  intros Ht Hst Hin. destruct (py_getitem_obj _ _ _ Ht) as [fs [Hsyl _]]. subst syl.
  destruct (py_get_obj fs (lit "description") (JStr (lit "Master " ++ topic ++ lit " from scratch"))) as [d Hd].
  destruct (py_get_obj fs (lit "level") (JStr (lit "Beginner"))) as [lv Hlv].
  destruct s0 as [st0 h0 sg0 nid]. cbn [staged store] in Hst, Hin. subst sg0.
  unfold create_course.
  unfold mbind at 1. unfold lift at 1. rewrite Ht.
  unfold mbind at 1. unfold lift at 1. rewrite Hd.
  unfold mbind at 1. unfold lift at 1. rewrite Hlv.
  unfold mbind at 1. unfold new_obj. cbn [heap staged store next_id].
  unfold mbind at 1. unfold session_add. cbn [heap staged store next_id existsb app].
  unfold mbind at 1. unfold session_flush at 1. rewrite staged_objs_single. cbn [store].
  cbn [flush_order filter is_course is_module is_lesson app check_rows course_dup course_id].
  apply existsb_str_eqb_In in Hin. rewrite Hin.
  destruct (insert_check_dup_err sa (insert_stmt (OCourse {| course_id := cid; course_title := JStr t;
              course_description := d; course_thumbnail_url := placeholder_thumbnail;
              course_level := lv; course_is_generated := true |})) "id") as [e He].
  rewrite He. cbn [rbind]. eexists. eexists. reflexivity.
Qed.

(** A failed [generate_course] commits nothing. *)
Lemma generate_course_err_store str_lower json_loads yt sa key gen rand topic :
  keeps_store_on_err (generate_course str_lower json_loads yt sa key gen rand topic).
Proof.
  unfold generate_course.
  repeat (apply keeps_err_bind;
          [first [apply keeps_lift | apply keeps_derive_course_id | apply keeps_create_course
                 | apply keeps_create_modules] | intros ?]).
  apply commit_ret_err.
Qed.

Lemma pres_bind {A B} (P : db -> Prop) (m : M A) (k : A -> M B) :
  preserves P m -> (forall a, preserves P (k a)) -> preserves P (mbind m k).
Proof.
  intros Hm Hk s b s' Hs. unfold mbind. destruct (m s) as [[a|e] s1] eqn:E; intros H; [|discriminate].
  exact (Hk a s1 b s' (Hm s a s1 Hs E) H).
Qed.

Section HoldsCourse.

Variable cid : str.

Lemma pres_mret {A} (a : A) : preserves (holds_course cid) (mret a).
Proof. intros s x s' Hs H. injection H as _ <-. exact Hs. Qed.

Lemma pres_lift {A} (r0 : result A) : preserves (holds_course cid) (lift r0).
Proof. intros s x s' Hs H. injection H as _ <-. exact Hs. Qed.

Lemma pres_read_module_id r0 : preserves (holds_course cid) (read_module_id r0).
Proof. intros s x s' Hs H. injection H as _ <-. exact Hs. Qed.

Lemma pres_new_obj o : preserves (holds_course cid) (new_obj o).
Proof.
  intros s x s' [r [c [Hr [Hn Hc]]]] H. injection H as _ <-.
  exists r, c. cbn [staged heap]. split; [exact Hr|]. split; [|exact Hc].
  rewrite nth_error_app1; [exact Hn|]. apply nth_error_Some. congruence.
Qed.

Lemma pres_session_add r0 : preserves (holds_course cid) (session_add r0).
Proof.
  intros s x s' [r [c [Hr [Hn Hc]]]] H. injection H as _ <-.
  exists r, c. cbn [staged heap]. split; [|split; [exact Hn|exact Hc]].
  destruct (existsb (Nat.eqb r0) (staged s)); [exact Hr|]. apply in_or_app. left. exact Hr.
Qed.

Lemma pres_session_flush sa : preserves (holds_course cid) (session_flush sa).
Proof.
  intros s x s' [r [c [Hr [Hn Hc]]]]. unfold session_flush.
  destruct (check_rows _ _ _); [|discriminate].
  pose proof (assign_ids_course (staged s) (heap s) (next_id s) r c Hn) as Ha.
  destruct (assign_ids (staged s) (heap s) (next_id s)) as [hp nid].
  intros H. injection H as _ <-. exists r, c. cbn [staged heap]. cbn [fst] in Ha. auto.
Qed.

Lemma pres_set_thumbnail r0 url : preserves (holds_course cid) (set_thumbnail r0 url).
Proof.
  intros s x s' [r [c [Hr [Hn Hc]]]]. unfold set_thumbnail, deref.
  destruct (nth_error (heap s) r0) as [[c'|m|l]|] eqn:E; intros H; injection H as _ <-;
    try (exists r, c; auto; fail).
  destruct (Nat.eq_dec r0 r) as [<-|Hne].
  - rewrite Hn in E. injection E as <-.
    exists r0, (with_thumbnail c url). cbn [staged heap]. split; [exact Hr|].
    split; [apply nth_error_set_nth_eq, nth_error_Some; congruence|exact Hc].
  - exists r, c. cbn [staged heap]. rewrite nth_error_set_nth_neq by exact Hne. auto.
Qed.

Ltac pres_tac :=
  repeat match goal with
  | |- preserves _ (mbind _ _) => apply pres_bind; [|intros ?]
  | |- preserves _ (if ?b then _ else _) => destruct b
  | |- preserves _ _ =>
      first [ apply pres_mret | apply pres_lift | apply pres_new_obj | apply pres_session_add
            | apply pres_session_flush | apply pres_read_module_id | apply pres_set_thumbnail
            | solve [eauto] ]
  end.

Lemma pres_create_lessons yt course_ref midx module_ref lidx lessons :
  preserves (holds_course cid) (create_lessons yt course_ref midx module_ref lidx lessons).
Proof.
  revert lidx; induction lessons as [|t rest IH]; intros lidx; cbn [create_lessons]; pres_tac.
Qed.

Lemma pres_create_modules yt sa course_ref cid' midx modules :
  preserves (holds_course cid) (create_modules yt sa course_ref cid' midx modules).
Proof.
  revert midx; induction modules as [|m rest IH]; intros midx; cbn [create_modules]; pres_tac.
  apply pres_create_lessons.
Qed.

End HoldsCourse.

Lemma create_course_holds sa syl topic cid s r s' :
  create_course sa syl topic cid s = (Ok r, s') -> holds_course cid s'.
Proof.
  unfold create_course. intros H.
  apply mbind_inv in H as [t [s1 [H1 H]]]. injection H1 as _ <-.
  apply mbind_inv in H as [d [s2 [H2 H]]]. injection H2 as _ <-.
  apply mbind_inv in H as [lv [s3 [H3 H]]]. injection H3 as _ <-.
  apply mbind_inv in H as [r1 [s4 [H4 H]]]. injection H4 as <- <-.
  apply mbind_inv in H as [[] [s5 [H5 H]]]. injection H5 as <-.
  apply mbind_inv in H as [[] [s6 [H6 H]]].
  injection H as _ <-.
  refine (pres_session_flush cid sa _ tt _ _ H6).
  cbn [staged heap store next_id].
  eexists (List.length (heap s)), _. split.
  - destruct (existsb _ _) eqn:E; [|apply in_or_app; right; left; reflexivity].
    apply existsb_exists in E as [x [Hx Ex]]. apply Nat.eqb_eq in Ex. subst x. exact Hx.
  - split; [apply nth_error_snoc|]. split; reflexivity.
Qed.

(** A successful [generate_course] commits the store it started from
    followed by the staged rows, among which the generated course whose
    id it returns. *)
Lemma generate_course_commits str_lower json_loads yt sa key gen rand topic s cid s' :
  generate_course str_lower json_loads yt sa key gen rand topic s = (Ok cid, s') ->
  exists c added, store s' = store s ++ added /\ In (OCourse c) added
                  /\ course_id c = cid /\ course_is_generated c = true /\ staged s' = [].
Proof.
  unfold generate_course. intros H.
  apply mbind_inv in H as [syl [s1 [H1 H]]]. injection H1 as _ <-.
  apply mbind_inv in H as [t [s2 [H2 H]]]. injection H2 as _ <-.
  apply mbind_inv in H as [cid0 [s3 [H3 H]]].
  pose proof (keeps_derive_course_id str_lower syl rand s _ s3 H3) as K3.
  apply mbind_inv in H as [course [s4 [H4 H]]].
  pose proof (keeps_create_course sa syl topic cid0 s3 _ s4 H4) as K4.
  pose proof (create_course_holds sa syl topic cid0 s3 course s4 H4) as P4.
  apply mbind_inv in H as [mods [s5 [H5 H]]]. injection H5 as _ <-.
  apply mbind_inv in H as [items [s6 [H6 H]]]. injection H6 as _ <-.
  apply mbind_inv in H as [[] [s7 [H7 H]]].
  pose proof (keeps_create_modules yt sa course cid0 0 items s4 _ s7 H7) as K7.
  pose proof (pres_create_modules cid0 yt sa course cid0 0 items s4 tt s7 P4 H7) as P7.
  apply mbind_inv in H as [[] [s8 [H8 H]]].
  injection H as <- <-.
  unfold session_commit in H8. apply mbind_inv in H8 as [[] [s9 [H9 H8]]].
  pose proof (keeps_session_flush sa s7 _ s9 H9) as K9.
  destruct (pres_session_flush cid0 sa s7 tt s9 P7 H9) as [r [c [Hr [Hn [Hc Hg]]]]].
  injection H8 as <-.
  exists c, (staged_objs s9). cbn [store staged].
  split; [congruence|]. split; [|auto].
  unfold staged_objs. apply in_flat_map. exists r. split; [exact Hr|].
  unfold deref. rewrite Hn. left. reflexivity.
Qed.

(** The [try] block of [generate_course_api] either answers before any
    session work (with a status other than 200, or by raising) or ends
    with [generate_course], whose id it returns with status 200. *)
Lemma api_try_cases str_lower json_loads yt sa key gen rand req s r s' :
  api_try str_lower json_loads yt sa key gen rand req s = (r, s') ->
  (s' = s /\ forall resp, r = Ok resp -> status resp <> 200)
  \/ exists topic res, generate_course str_lower json_loads yt sa key gen rand topic s = (res, s')
     /\ match res with
        | Ok cid => r = Ok {| status := 200;
                              body := [(lit "course_id", JStr cid);
                                       (lit "message", JStr (lit "Course generated successfully!"))] |}
        | Err e => r = Err e
        end.
Proof.
  assert (N400 : forall m resp, Ok (error_response 400 m) = Ok resp -> status resp <> 200)
    by (intros m resp H; injection H as <-; discriminate).
  unfold api_try, mbind, lift, mret. destruct req as [|data].
  { intros H. injection H as <- <-. left. split; [reflexivity|apply N400]. }
  destruct (py_truthy data); cbv beta iota;
    [destruct (py_in (lit "topic") data) as [[|]|e] | ]; cbn [negb]; cbv beta iota;
    try (intros H; injection H as <- <-; left; split; [reflexivity|first [apply N400 | discriminate]]).
  destruct (py_getitem data (lit "topic")) as [raw|e]; cbv beta iota;
    [|intros H; injection H as <- <-; left; split; [reflexivity|discriminate]].
  destruct (py_strip_method raw) as [topic|e]; cbv beta iota;
    [|intros H; injection H as <- <-; left; split; [reflexivity|discriminate]].
  destruct topic as [|ch rest]; [intros H; injection H as <- <-; left; split; [reflexivity|apply N400]|].
  destruct (Nat.ltb 100 (List.length (ch :: rest)));
    [intros H; injection H as <- <-; left; split; [reflexivity|apply N400]|].
  intros H. right. exists (ch :: rest).
  destruct (generate_course str_lower json_loads yt sa key gen rand (ch :: rest) s) as [[cid|e] s1].
  - injection H as <- <-. eexists; split; reflexivity.
  - injection H as <- <-. eexists; split; reflexivity.
Qed.

(** *** Fenced answers *)

Lemma drop_space_ws (s : str) : exists w, s = w ++ drop_space s /\ forallb py_isspace w = true.
Proof.
  induction s as [|a s IH]; cbn [drop_space]; [exists []; split; reflexivity|].
  destruct (py_isspace a) eqn:E; [|exists []; split; reflexivity].
  destruct IH as [w [Hw Hf]]. exists (a :: w). split.
  - cbn [app]. rewrite <- Hw. reflexivity.
  - cbn [forallb]. rewrite E, Hf. reflexivity.
Qed.

Lemma match_close_fence_ws (z r : str) :
  match_close_fence z = Some r -> exists w, z = w ++ fence ++ r /\ forallb py_isspace w = true.
Proof.
  unfold match_close_fence. destruct (drop_space_ws z) as [w [Hw Hf]].
  destruct (drop_space z) as [|a [|b [|c rest]]] eqn:D; try discriminate.
  destruct ((a =? backtick) && (b =? backtick) && (c =? backtick)) eqn:B; [|discriminate].
  apply andb_prop in B as [B Hc]. apply andb_prop in B as [Ha Hb].
  apply N.eqb_eq in Ha, Hb, Hc. subst a b c.
  intros H. exists w. split; [|exact Hf].
  destruct rest as [|x [|y rest]]; try discriminate.
  - injection H as <-. exact Hw.
  - destruct x as [|p]; try discriminate.
    repeat (destruct p as [p|p|]; try discriminate).
    injection H as <-. exact Hw.
  - destruct x as [|p]; [discriminate|].
    repeat (destruct p as [p|p|]; try discriminate).
Qed.

(** [\s*```$] does not match inside a text that ends in a non-space
    character followed by a newline and a closing fence. *)
Lemma match_close_fence_body (c : N) (b : str) :
  (forall w d, c :: b = w ++ [d] -> py_isspace d = false) ->
  match_close_fence (c :: b ++ [10] ++ fence) = None.
Proof.
  intros H. destruct (match_close_fence (c :: b ++ [10] ++ fence)) as [r|] eqn:M; [|reflexivity].
  exfalso. destruct (match_close_fence_some _ _ M) as [w' [Hw' [-> | ->]]].
  - apply match_close_fence_ws in M as [w [Hw Hf]].
    rewrite app_nil_r, app_comm_cons, app_assoc in Hw. apply app_inv_tail in Hw.
    destruct (exists_last (l := c :: b) ltac:(discriminate)) as [l' [d Hd]].
    rewrite Hd in Hw. rewrite <- Hw in Hf.
    rewrite forallb_app in Hf. apply andb_prop in Hf as [Hf _].
    rewrite forallb_app in Hf. apply andb_prop in Hf as [_ Hf].
    cbn [forallb] in Hf. rewrite (H l' d Hd) in Hf. discriminate.
  - rewrite app_comm_cons in Hw'. apply (f_equal (@rev N)) in Hw'. rewrite !rev_app_distr in Hw'.
    unfold fence, backtick in Hw'. cbn in Hw'. discriminate Hw'.
Qed.

Lemma sub_close_fence_body (b : str) :
  (forall w d, b = w ++ [d] -> py_isspace d = false) -> sub_close_fence (b ++ [10] ++ fence) = b.
Proof.
  induction b as [|c b IH]; intros H; [reflexivity|].
  change (sub_close_fence ((c :: b) ++ [10] ++ fence))
    with (match match_close_fence (c :: b ++ [10] ++ fence) with
          | Some rest => rest
          | None => c :: sub_close_fence (b ++ [10] ++ fence)
          end).
  rewrite (match_close_fence_body c b H). f_equal. apply IH.
  intros w d Hw. apply (H (c :: w)). rewrite Hw. reflexivity.
Qed.

Lemma starts_with_fence_nl (b x : str) :
  starts_with fence b = false -> starts_with fence (b ++ 10 :: x) = false.
Proof.
  unfold fence, backtick.
  destruct b as [|a [|b [|c r]]]; cbn [app starts_with]; intros H; try exact H;
    rewrite ?(N.eqb_sym 96) in *;
    repeat match goal with |- context [N.eqb ?x 96] => destruct (N.eqb x 96) end;
    first [reflexivity | discriminate].
Qed.

Lemma drop_space_body (b x : str) : b <> [] -> drop_space b = b -> drop_space (b ++ x) = b ++ x.
Proof.
  destruct b as [|c b]; intros Hne H; [contradiction|].
  cbn [drop_space app] in *. destruct (py_isspace c) eqn:E; [|reflexivity].
  exfalso. pose proof (drop_space_length b) as L. rewrite H in L. cbn in L. lia.
Qed.

Lemma sub_open_json_fence_plain (r : str) :
  sub_open_json_fence (backtick :: backtick :: backtick :: 10 :: r) = backtick :: backtick :: backtick :: 10 :: r.
Proof. destruct r as [|x [|y [|z r]]]; reflexivity. Qed.



(** C4 (code_bug).  [clean_json_string] is documented to remove markdown
    code blocks and first removes the fence at the start of the text, but
    its anchored patterns run before [strip]: a fence preceded by
    whitespace survives the pass (so a second pass changes the result),
    and so does the opening fence of a block that starts with a newline. *)
Lemma C4_clean_json_string_not_idempotent :
  clean_json_string (lit " ```a") = lit "```a" /\
  clean_json_string (clean_json_string (lit " ```a")) = lit "a" /\
  clean_json_string ([10] ++ lit "```json" ++ [10] ++ lit "{}" ++ [10] ++ lit "```")
    = lit "```json" ++ [10] ++ lit "{}".
Proof. split; [|split]; vm_compute; reflexivity. Qed.

(** C3 (confirmed).  When the video search for [query + " tutorial"]
    returns no result or raises, [search_youtube_video] returns the fixed
    fallback record: the placeholder id [dQw4w9WgXcQ], the query as title
    and the duration [10:00].  The function is total: no exception leaves
    it. *)
Theorem C3_search_youtube_video_fallback (yt : str -> search_outcome) (q : str) :
  (yt (q ++ lit " tutorial") = SearchReturns [] \/
   exists e, yt (q ++ lit " tutorial") = SearchRaises e) ->
  search_youtube_video yt (JStr q) =
  {| vi_id := JStr (lit "dQw4w9WgXcQ"); vi_title := JStr q; vi_duration := JStr (lit "10:00") |}.
Proof.
  intros [H | [e H]]; simpl; rewrite H; reflexivity.
Qed.

Lemma C3_search_youtube_video_fallback_witness :
  search_youtube_video (fun _ => SearchReturns []) (JStr (lit "rust traits")) =
  {| vi_id := JStr (lit "dQw4w9WgXcQ"); vi_title := JStr (lit "rust traits");
     vi_duration := JStr (lit "10:00") |}.
Proof. apply C3_search_youtube_video_fallback. left. reflexivity. Defined.

(** C10 (confirmed).  When the search returns at least one video, the
    first one is used field by field, with the defaults [""] for the id,
    the query for the title and [10:00] for the duration; a video without
    an id yields the empty id, not the fallback id. *)
Theorem C10_search_youtube_video_field_defaults (yt : str -> search_outcome) (q : str)
    (video : list (str * json)) (rest : list (list (str * json))) :
  yt (q ++ lit " tutorial") = SearchReturns (video :: rest) ->
  search_youtube_video yt (JStr q) =
  {| vi_id := dict_get video (lit "id") (JStr []);
     vi_title := dict_get video (lit "title") (JStr q);
     vi_duration := dict_get video (lit "duration") (JStr (lit "10:00")) |}
  /\ (dict_lookup (lit "id") video = None -> vi_id (search_youtube_video yt (JStr q)) = JStr []).
Proof.
  intros H. simpl. rewrite H. split; [reflexivity|].
  simpl. unfold dict_get. intros ->. reflexivity.
Qed.

Lemma C10_search_youtube_video_field_defaults_witness :
  search_youtube_video (fun _ => SearchReturns [[(lit "title", JStr (lit "Ownership"))]])
    (JStr (lit "rust ownership")) =
  {| vi_id := JStr []; vi_title := JStr (lit "Ownership"); vi_duration := JStr (lit "10:00") |}
  /\ (dict_lookup (lit "id") [(lit "title", JStr (lit "Ownership"))] = None ->
      vi_id (search_youtube_video (fun _ => SearchReturns [[(lit "title", JStr (lit "Ownership"))]])
               (JStr (lit "rust ownership"))) = JStr []).
Proof.
  exact (C10_search_youtube_video_field_defaults
           (fun _ => SearchReturns [[(lit "title", JStr (lit "Ownership"))]])
           (lit "rust ownership") [(lit "title", JStr (lit "Ownership"))] [] eq_refl).
Defined.

(** C9 (confirmed).  The module count is a soft check: a parsed syllabus
    object that has a ['title'] and a ['modules'] list of any length other
    than 4 is returned unchanged by [generate_syllabus]; no error is
    raised for the count. *)
Theorem C9_module_count_is_soft json_loads key t fs title mods topic :
  api_key_set key = true ->
  json_loads (clean_json_string t) = Some (JObj fs) ->
  dict_lookup (lit "title") fs = Some title ->
  dict_lookup (lit "modules") fs = Some (JArr mods) ->
  List.length mods <> 4%nat ->
  generate_syllabus json_loads key (GenText t) topic = Ok (JObj fs).
Proof.
  intros Hk Hl Ht Hm _. unfold generate_syllabus. rewrite Hk. simpl. rewrite Hl. simpl.
  rewrite (dict_lookup_some_in _ _ _ Ht), (dict_lookup_some_in _ _ _ Hm). simpl.
  rewrite Hm. reflexivity.
Qed.

Lemma C9_module_count_is_soft_witness :
  generate_syllabus
    (loads_as (JObj [(lit "title", JStr (lit "T")); (lit "modules", JArr [sample_module "m1"])]))
    (Some (lit "key")) (GenText (lit "{}")) (lit "Rust")
  = Ok (JObj [(lit "title", JStr (lit "T")); (lit "modules", JArr [sample_module "m1"])]).
Proof.
  apply (C9_module_count_is_soft _ _ _ _ (JStr (lit "T")) [sample_module "m1"]);
    try reflexivity. simpl. discriminate.
Defined.

(** C5 (code_bug).  A model answer that parses to a JSON number has no
    ['title'] key, yet [generate_syllabus] does not raise the
    missing-field error: the [TypeError] of ['title' in 42] is caught by
    the generic handler and re-raised as an ["AI service error"], the
    error reserved for failures of the Gemini call. *)
Theorem C5_number_answer_reported_as_service_error json_loads topic :
  json_loads (lit "42") = Some (JNum 42) ->
  generate_syllabus json_loads (Some (lit "key")) (GenText (lit "42")) topic =
  Err (ValueError (lit "AI service error: argument of type 'int' is not iterable")).
Proof.
  intros Hl. unfold generate_syllabus. simpl.
  replace (clean_json_string (lit "42")) with (lit "42") by reflexivity.
  rewrite Hl. reflexivity.
Qed.

Lemma C5_number_answer_reported_as_service_error_witness :
  generate_syllabus (loads_as (JNum 42)) (Some (lit "key")) (GenText (lit "42")) (lit "Rust") =
  Err (ValueError (lit "AI service error: argument of type 'int' is not iterable")).
Proof. apply C5_number_answer_reported_as_service_error. reflexivity. Defined.

(** C8 (code_bug).  A rate-limit failure of the Gemini call ([429]) is
    answered with status 400, not 503: [generate_syllabus] wraps it into
    a [ValueError], which the endpoint maps to 400 before its
    rate-limit patterns are ever consulted. *)
Theorem C8_rate_limit_answered_400 str_lower json_loads yt sa trace rand s0 :
  generate_course_api str_lower json_loads yt sa trace (Some (lit "key"))
    (GenRaises (ServiceError (lit "429 RESOURCE_EXHAUSTED"))) rand
    (JsonBody (JObj [(lit "topic", JStr (lit "Rust Programming"))])) s0
  = (error_response 400 (lit "AI service error: 429 RESOURCE_EXHAUSTED"), s0).
Proof. reflexivity. Qed.

(** C6 (corrected).  The title ['!!!'] gives the empty course identifier:
    every character is stripped, and [generate_course] stores and returns
    [""]. *)
Lemma C6_empty_course_id :
  fst (generate_course ascii_lower
         (loads_as (JObj [(lit "title", JStr (lit "!!!")); (lit "modules", JArr [])]))
         echo_search sample_sa (Some (lit "key")) (GenText (lit "{}")) 123 (lit "Punctuation") empty_db)
  = Ok [].
Proof. vm_compute. reflexivity. Qed.

(** C6 (corrected, amended claim).  The identifier derived from a title
    (lowercase, spaces and hyphens to underscores, characters outside
    [[a-z0-9_]] stripped, first 50 kept) consists only of characters of
    [[a-z0-9_]] and has at most 50 of them; it can be empty. *)
Theorem C6_course_slug_charset (str_lower : str -> str) (title : str) :
  forallb slug_char (course_slug (str_lower title)) = true /\
  (List.length (course_slug (str_lower title)) <= 50)%nat.
Proof.
  unfold course_slug. split.
  - apply forallb_firstn, forallb_filter.
  - rewrite length_firstn. lia.
Qed.

(** C2 (confirmed).  When step 1 ([generate_syllabus]) raises, or step 3
    raises on the title ([syllabus['title']] or its [.lower()]),
    [generate_course] raises that exception and leaves the store and the
    session exactly as they were: no row is added or staged. *)
Theorem C2_early_failure_no_mutation str_lower json_loads yt sa key gen rand topic s0 e :
  (generate_syllabus json_loads key gen topic = Err e \/
   exists syl, generate_syllabus json_loads key gen topic = Ok syl /\
     rbind (py_getitem syl (lit "title")) (py_lower str_lower) = Err e) ->
  generate_course str_lower json_loads yt sa key gen rand topic s0 = (Err e, s0).
Proof.
  intros [H | [syl [Hs Ht]]]; unfold generate_course, derive_course_id, mbind, lift.
  - rewrite H. reflexivity.
  - rewrite Hs. destruct (py_getitem syl (lit "title")) as [title|e'] eqn:Eg; simpl in Ht.
    + rewrite Ht. reflexivity.
    + inversion Ht; subst. reflexivity.
Qed.

Lemma C2_early_failure_no_mutation_witness :
  generate_course ascii_lower (loads_as rust_syllabus) echo_search sample_sa (Some (lit "key"))
    (GenRaises (ServiceError (lit "429 RESOURCE_EXHAUSTED"))) 123 (lit "Rust Programming") empty_db
  = (Err (ValueError (lit "AI service error: 429 RESOURCE_EXHAUSTED")), empty_db).
Proof. apply C2_early_failure_no_mutation. left. reflexivity. Defined.

(** C7 (confirmed).  When the slug of the title is already the id of a
    stored course, [generate_course] checks the store once and appends
    [_<rand>], three digits for [random.randint(100, 999)]; the result
    differs from the colliding id; a successful run returns exactly that
    id; and there is no second attempt: if the suffixed id collides too,
    the run raises (the INSERT of the new course fails) and commits
    nothing. *)
Theorem C7_collision_single_suffix str_lower json_loads yt sa key gen rand topic s0 syl t :
  generate_syllabus json_loads key gen topic = Ok syl ->
  py_getitem syl (lit "title") = Ok (JStr t) ->
  staged s0 = [] ->
  In (course_slug (str_lower t)) (course_ids (store s0)) ->
  (100 <= rand <= 999) ->
  let cid := course_slug (str_lower t) in
  let cid' := cid ++ lit "_" ++ n_dec rand in
  cid' <> cid /\ List.length (n_dec rand) = 3%nat /\
  (forall c s1, generate_course str_lower json_loads yt sa key gen rand topic s0 = (Ok c, s1) ->
                c = cid') /\
  (In cid' (course_ids (store s0)) ->
   exists e s1, generate_course str_lower json_loads yt sa key gen rand topic s0 = (Err e, s1)
                /\ store s1 = store s0).
Proof.
  intros Hs Ht Hst Hin Hr cid cid'.
  assert (Hd : derive_course_id str_lower syl rand s0 = (Ok cid', s0)).
  { rewrite (derive_course_id_run _ _ _ _ t Ht).
    unfold staged_objs. rewrite Hst. simpl. rewrite app_nil_r.
    apply existsb_str_eqb_In in Hin. fold cid in Hin |- *. rewrite Hin. reflexivity. }
  assert (Hrun : generate_course str_lower json_loads yt sa key gen rand topic s0 =
    (course <- create_course sa syl topic cid' ;;
     modules <- lift (py_getitem syl (lit "modules")) ;;
     items <- lift (py_iter modules) ;;
     create_modules yt sa course cid' 0 items ;;;
     session_commit sa ;;;
     mret cid') s0).
  { unfold generate_course. unfold mbind at 1. unfold lift at 1. rewrite Hs.
    unfold mbind at 1. unfold lift at 1. rewrite Ht.
    unfold mbind at 1. rewrite Hd. reflexivity. }
  split; [|split; [|split]].
  - intros E. assert (L := f_equal (@List.length N) E). unfold cid' in L.
    rewrite !length_app in L. simpl in L. lia.
  - apply n_dec_three_digits. exact Hr.
  - intros c s1 Hc. rewrite Hrun in Hc. revert Hc. apply (returns_bind cid').
    intros a. apply returns_bind. intros m. apply returns_bind. intros items.
    apply returns_bind. intros u. apply returns_bind. intros u'. apply returns_ret.
  - intros Hin'. rewrite Hrun.
    destruct (create_course_dup_err sa syl topic cid' s0 t Ht Hst Hin') as [e [s1 Hc]].
    exists e, s1. split.
    + rewrite (mbind_err _ _ _ _ _ Hc). reflexivity.
    + exact (keeps_create_course sa syl topic cid' s0 _ s1 Hc).
Qed.

Lemma C7_collision_single_suffix_witness :
  let s0 := {| store := [OCourse {| course_id := lit "rust_programming_systems";
                                    course_title := JStr (lit "Rust Programming: Systems");
                                    course_description := JNull;
                                    course_thumbnail_url := placeholder_thumbnail;
                                    course_level := JNull; course_is_generated := true |}];
               heap := []; staged := []; next_id := 1 |} in
  let cid := course_slug (ascii_lower (lit "Rust Programming: Systems")) in
  let cid' := cid ++ lit "_" ++ n_dec 123 in
  cid' <> cid /\ List.length (n_dec 123) = 3%nat /\
  (forall c s1, generate_course ascii_lower (loads_as rust_syllabus) echo_search sample_sa (Some (lit "key"))
                  (GenText (lit "{}")) 123 (lit "Rust") s0 = (Ok c, s1) -> c = cid') /\
  (In cid' (course_ids (store s0)) ->
   exists e s1, generate_course ascii_lower (loads_as rust_syllabus) echo_search sample_sa (Some (lit "key"))
                  (GenText (lit "{}")) 123 (lit "Rust") s0 = (Err e, s1) /\ store s1 = store s0).
Proof.
  intros s0 cid cid'.
  apply (C7_collision_single_suffix ascii_lower (loads_as rust_syllabus) echo_search sample_sa (Some (lit "key"))
           (GenText (lit "{}")) 123 (lit "Rust") s0 rust_syllabus (lit "Rust Programming: Systems"));
    try reflexivity.
  - vm_compute. left. reflexivity.
  - lia.
Defined.

(** * Further properties of the code *)

(** X1: [seed_database] on a fresh request session over a database with
    neither a "Python Mastery" course nor a course with id "python" seeds
    the Python course and commits exactly its rows after the existing
    ones; a second request then answers that the database is already
    seeded and changes nothing. *)
Theorem seed_database_idempotent sa (s : db) :
  heap s = [] -> staged s = [] ->
  python_mastery_exists s = false ->
  existsb (str_eqb python_id) (course_ids (store s)) = false ->
  exists s',
    seed_database sa s = (message_reply 200 "message" "Database seeded successfully!", s')
    /\ store s' = store s ++ python_seed_rows (next_id s)
    /\ seed_database sa (session_remove s')
       = (message_reply 200 "message" "Database already seeded. Python Mastery course exists.",
          session_remove s').
Proof.
  destruct s as [store0 hp st nid]; cbn [heap staged store next_id].
  intros -> -> Hm Hid.
  unfold seed_database. rewrite Hm, (seed_run sa store0 nid Hid).
  eexists. split; [reflexivity|]. split; [reflexivity|].
  unfold python_mastery_exists, session_remove, staged_objs. cbn [store heap staged].
  rewrite app_nil_r, python_seed_rows_found. reflexivity.
Qed.

Lemma seed_database_idempotent_witness :
  exists s', seed_database sample_sa empty_db = (message_reply 200 "message" "Database seeded successfully!", s')
    /\ store s' = store empty_db ++ python_seed_rows (next_id empty_db)
    /\ seed_database sample_sa (session_remove s')
       = (message_reply 200 "message" "Database already seeded. Python Mastery course exists.",
          session_remove s').
Proof. apply seed_database_idempotent; reflexivity. Defined.

(** X2: when the store holds a course with id "python" under another
    title, [seed_database] fails on the primary key: it answers 500 with
    "Seeding failed: " followed by the text of the [IntegrityError],
    "(sqlite3.IntegrityError) UNIQUE constraint failed: course.id" and
    the lines SQLAlchemy adds about the statement; the store is unchanged
    and nothing is left staged. *)
Theorem seed_database_id_conflict sa (s : db) :
  heap s = [] -> staged s = [] ->
  python_mastery_exists s = false ->
  In python_id (course_ids (store s)) ->
  exists s',
    seed_database sa s
    = (JsonReply 500 (JObj [(lit "error",
         JStr (lit "Seeding failed: (sqlite3.IntegrityError) UNIQUE constraint failed: course.id"
               ++ sa_detail sa (insert_stmt (OCourse python_course))))]), s')
    /\ store s' = store s /\ staged s' = [].
Proof.
  destruct s as [store0 hp st nid]; cbn [heap staged store next_id].
  intros -> -> Hm Hid.
  apply existsb_str_eqb_In in Hid.
  unfold seed_database. rewrite Hm, (seed_conflict_run sa store0 nid Hid).
  eexists. split; [reflexivity|]. split; reflexivity.
Qed.

Lemma seed_database_id_conflict_witness :
  exists s',
    seed_database sample_sa {| store := [OCourse other_python]; heap := []; staged := []; next_id := 1 |}
    = (JsonReply 500 (JObj [(lit "error",
         JStr (lit "Seeding failed: (sqlite3.IntegrityError) UNIQUE constraint failed: course.id"
               ++ sa_detail sample_sa (insert_stmt (OCourse python_course))))]), s')
    /\ store s' = [OCourse other_python] /\ staged s' = [].
Proof. apply seed_database_id_conflict; [reflexivity | reflexivity | vm_compute; reflexivity | left; reflexivity]. Defined.

(** X3: on a fresh request session, [reset_database] answers 200 with the
    reset message and its warning whatever the prior data: the course
    tables hold exactly the seeded Python course (module keys from 1),
    the users and progress tables are empty, and the session cookie no
    longer resolves to a user. *)
Theorem reset_database_wipes sa (a : app_state) :
  heap (app_db a) = [] -> staged (app_db a) = [] ->
  reset_database sa a
  = (JsonReply 200 (JObj [(lit "message", JStr (lit "Database reset and seeded successfully. Please Log In again."));
                          (lit "warning", JStr (lit "All user data has been deleted."))]),
     {| app_db := {| store := python_seed_rows 1; heap := python_seed_rows 1; staged := [];
                     next_id := 4 |};
        app_users := []; app_progress := []; app_login := app_login a |})
  /\ current_user (snd (reset_database sa a)) = None.
Proof.
  destruct a as [[store0 hp st nid] users rows login]; cbn [app_db heap staged].
  intros -> ->.
  unfold reset_database. cbn [app_db heap staged app_login].
  rewrite (seed_run sa [] 1 eq_refl).
  split; [reflexivity|].
  unfold current_user. cbn. destruct login; reflexivity.
Qed.

Lemma reset_database_wipes_witness :
  reset_database sample_sa sample_app
  = (JsonReply 200 (JObj [(lit "message", JStr (lit "Database reset and seeded successfully. Please Log In again."));
                          (lit "warning", JStr (lit "All user data has been deleted."))]),
     {| app_db := {| store := python_seed_rows 1; heap := python_seed_rows 1; staged := [];
                     next_id := 4 |};
        app_users := []; app_progress := []; app_login := app_login sample_app |})
  /\ current_user (snd (reset_database sample_sa sample_app)) = None.
Proof. apply reset_database_wipes; reflexivity. Defined.

(** X4: when a logged-in user posts a truthy [topic_id] and values the
    columns accept, [update_progress] answers "Progress updated", and the
    list [get_progress] then returns contains that topic exactly when the
    posted [is_completed] was stored as true (given at most one row per
    user and topic before). *)
Theorem update_progress_get_progress (now : N) (data : json) (a : app_state) (u : user_row)
    (tv iv tsv : json) (topic : str) (done : option bool) (ts : option str) :
  current_user a = Some u ->
  NoDup (map progress_pair (app_progress a)) ->
  py_get data (lit "topic_id") JNull = Ok tv -> py_truthy tv = true ->
  sql_text_value tv = Ok (Some topic) ->
  py_get data (lit "is_completed") (JBool false) = Ok iv -> sql_bool iv = Ok done ->
  py_get data (lit "timestamp") JNull = Ok tsv -> sql_text_value tsv = Ok ts ->
  exists a' completed,
    update_progress now data a = (message_reply 200 "message" "Progress updated", a')
    /\ get_progress a' = JsonReply 200 (JArr (map JStr completed))
    /\ (In topic completed <-> done = Some true).
Proof.
  intros Hu Hn Ht Htr Htv Hi Hiv Hts Htsv.
  unfold update_progress. rewrite Hu, Ht, Hi, Hts, Htr. cbn [negb]. rewrite Htv, Hiv, Htsv.
  set (rows' := upsert_progress now (u_id u) topic done ts (app_progress a)).
  exists (with_progress a rows'), (completed_topics (u_id u) rows').
  split; [reflexivity|]. split.
  - assert (current_user (with_progress a rows') = Some u) as Hu' by exact Hu.
    unfold get_progress. rewrite Hu'. reflexivity.
  - subst rows'.
    destruct (upsert_progress_row now (u_id u) topic done ts (app_progress a)) as [r [Hr [Er Cr]]].
    rewrite (completed_topics_iff _ _ _ r (upsert_progress_nodup now (u_id u) topic done ts _ Hn) Hr Er).
    rewrite Cr. tauto.
Qed.

Lemma update_progress_get_progress_witness :
  exists a' completed,
    update_progress 0 (JObj [(lit "topic_id", JStr (lit "py_vars")); (lit "is_completed", JNum 1)]) sample_app
    = (message_reply 200 "message" "Progress updated", a')
    /\ get_progress a' = JsonReply 200 (JArr (map JStr completed))
    /\ (In (lit "py_vars") completed <-> Some true = Some true).
Proof.
  exact (update_progress_get_progress 0 (JObj [(lit "topic_id", JStr (lit "py_vars")); (lit "is_completed", JNum 1)])
           sample_app sample_user (JStr (lit "py_vars")) (JNum 1) JNull (lit "py_vars") (Some true) None
           eq_refl (NoDup_nil _) eq_refl eq_refl eq_refl eq_refl eq_refl eq_refl eq_refl).
Defined.

(** X5: [update_progress] keeps at most one progress row per user and
    topic, adds at most one row, never changes the rows of another user
    than the logged-in one, and touches neither the users, the login nor
    the course tables. *)
Theorem update_progress_keeps_rows (now : N) (data : json) (a : app_state) (rep : reply) (a' : app_state) :
  update_progress now data a = (rep, a') ->
  NoDup (map progress_pair (app_progress a)) ->
  NoDup (map progress_pair (app_progress a'))
  /\ (List.length (app_progress a') <= S (List.length (app_progress a)))%nat
  /\ (forall k, (forall u, current_user a = Some u -> u_id u <> k) ->
      filter (fun r => N.eqb (pr_user_id r) k) (app_progress a')
      = filter (fun r => N.eqb (pr_user_id r) k) (app_progress a))
  /\ app_users a' = app_users a /\ app_login a' = app_login a /\ app_db a' = app_db a.
Proof.
  intros H Hn.
  destruct (update_progress_cases _ _ _ _ _ H) as [->|[u [topic [done [ts [Hu ->]]]]]].
  - repeat split; auto.
  - cbn [with_progress app_progress app_users app_login app_db].
    split; [apply upsert_progress_nodup; exact Hn|].
    split; [apply upsert_progress_length|].
    split; [|auto].
    intros k Hk. apply upsert_progress_others.
    intros r Er. apply N.eqb_neq. rewrite Er. apply (Hk u Hu).
Qed.

Lemma update_progress_keeps_rows_witness :
  let data := JObj [(lit "topic_id", JStr (lit "py_vars")); (lit "is_completed", JBool true)] in
  let r := update_progress 0 data sample_app in
  NoDup (map progress_pair (app_progress (snd r)))
  /\ (List.length (app_progress (snd r)) <= S (List.length (app_progress sample_app)))%nat
  /\ (forall k, (forall u, current_user sample_app = Some u -> u_id u <> k) ->
      filter (fun r => N.eqb (pr_user_id r) k) (app_progress (snd r))
      = filter (fun r => N.eqb (pr_user_id r) k) (app_progress sample_app))
  /\ app_users (snd r) = app_users sample_app /\ app_login (snd r) = app_login sample_app
  /\ app_db (snd r) = app_db sample_app.
Proof.
  intros data r.
  exact (update_progress_keeps_rows 0 data sample_app (fst r) (snd r) eq_refl (NoDup_nil _)).
Defined.

(** X6: for a logged-in user, a JSON object whose [topic_id] is missing
    or falsy is answered 400 "Topic ID required" whatever its other
    fields, and a truthy [topic_id] with an [is_completed] that the
    Boolean column refuses (such as a string) ends in a 500; neither
    changes anything. *)
Theorem update_progress_rejects (now : N) (fs : list (str * json)) (a : app_state) (u : user_row) :
  current_user a = Some u ->
  (py_truthy (dict_get fs (lit "topic_id") JNull) = false ->
   update_progress now (JObj fs) a = (message_reply 400 "error" "Topic ID required", a))
  /\ (py_truthy (dict_get fs (lit "topic_id") JNull) = true ->
      (forall done, sql_bool (dict_get fs (lit "is_completed") (JBool false)) <> Ok done) ->
      update_progress now (JObj fs) a = (ErrorPage 500, a)).
Proof.
  intros Hu. unfold update_progress. rewrite Hu, !py_get_dict_get. split.
  - intros Ht. rewrite Ht. reflexivity.
  - intros Ht Hb. rewrite Ht. cbn [negb].
    destruct (sql_text_value (dict_get fs (lit "topic_id") JNull)) as [[topic|]|e]; try reflexivity.
    destruct (sql_bool (dict_get fs (lit "is_completed") (JBool false))) as [done|e] eqn:E.
    + exfalso. exact (Hb done eq_refl).
    + reflexivity.
Qed.

Lemma update_progress_rejects_witness :
  (py_truthy (dict_get [(lit "is_completed", JStr (lit "yes"))] (lit "topic_id") JNull) = false ->
   update_progress 0 (JObj [(lit "is_completed", JStr (lit "yes"))]) sample_app
   = (message_reply 400 "error" "Topic ID required", sample_app))
  /\ (py_truthy (dict_get [(lit "is_completed", JStr (lit "yes"))] (lit "topic_id") JNull) = true ->
      (forall done, sql_bool (dict_get [(lit "is_completed", JStr (lit "yes"))] (lit "is_completed") (JBool false)) <> Ok done) ->
      update_progress 0 (JObj [(lit "is_completed", JStr (lit "yes"))]) sample_app = (ErrorPage 500, sample_app)).
Proof. exact (update_progress_rejects 0 _ sample_app sample_user eq_refl). Defined.

(** X7: when the OAuth callback redirects, it redirects to FRONTEND_URL
    (or "/dashboard"), the users table keeps distinct ids, Google ids and
    emails, at most the logged-in user was added, and the session now
    resolves to a user whose Google id is the bound value of the
    userinfo's [id]; progress and courses are untouched. *)
Theorem authorize_logs_in sa (fe : option str) (info : json) (a : app_state) (loc : str) (a' : app_state) :
  users_ok (app_users a) ->
  authorize sa fe (OAuthUserInfo info) a = (Redirect loc, a') ->
  users_ok (app_users a') /\ loc = default_redirect fe
  /\ app_progress a' = app_progress a /\ app_db a' = app_db a
  /\ exists u gv, current_user a' = Some u
       /\ py_getitem info (lit "id") = Ok gv /\ sql_text_value gv = Ok (Some (u_google_id u))
       /\ (app_users a' = app_users a \/ app_users a' = app_users a ++ [u]).
Proof.
  intros Hok H. unfold authorize in H.
  destruct (authorize_user sa info (app_users a)) as [[u users']|e] eqn:E; [|discriminate].
  injection H as <- <-. cbn [app_users app_progress app_db].
  destruct (authorize_user_ok sa info (app_users a) users' u Hok E) as [Hok' [Hin [[gv [G1 G2]] Hu]]].
  split; [exact Hok'|]. split; [reflexivity|]. split; [reflexivity|]. split; [reflexivity|].
  exists u, gv. split; [|auto].
  unfold current_user. cbn [app_login app_users].
  apply find_user_in; [apply Hok' | exact Hin].
Qed.

Lemma authorize_logs_in_witness :
  let info := JObj [(lit "id", JStr (lit "2001")); (lit "email", JStr (lit "bob@example.com"))] in
  let r := authorize sample_sa None (OAuthUserInfo info) sample_app in
  let loc := match fst r with Redirect l => l | _ => [] end in
  users_ok (app_users (snd r)) /\ loc = default_redirect None
  /\ app_progress (snd r) = app_progress sample_app /\ app_db (snd r) = app_db sample_app
  /\ exists u gv, current_user (snd r) = Some u
       /\ py_getitem info (lit "id") = Ok gv /\ sql_text_value gv = Ok (Some (u_google_id u))
       /\ (app_users (snd r) = app_users sample_app \/ app_users (snd r) = app_users sample_app ++ [u]).
Proof.
  intros info r loc.
  exact (authorize_logs_in sample_sa None info sample_app loc (snd r) users_ok_sample eq_refl).
Defined.

(** X8: a returning user (one whose Google id is stored) is logged in
    and redirected without any change to the users table, whatever else
    the userinfo holds: a changed or missing email, name or picture is
    neither stored nor checked. *)
Theorem authorize_returning_user sa (fe : option str) (info : json) (a : app_state) (u : user_row) (gv : json) :
  users_ok (app_users a) -> In u (app_users a) ->
  py_getitem info (lit "id") = Ok gv -> sql_text_value gv = Ok (Some (u_google_id u)) ->
  authorize sa fe (OAuthUserInfo info) a
  = (Redirect (default_redirect fe),
     {| app_db := app_db a; app_users := app_users a; app_progress := app_progress a;
        app_login := Some (u_id u) |}).
Proof.
  intros [_ [Hg _]] Hin G1 G2.
  unfold sql_text_value in G2. destruct (bindable gv) eqn:B; [|discriminate]. injection G2 as G2.
  unfold authorize, authorize_user. rewrite G1. cbn [rbind].
  unfold bind_check, user_select. cbn [st_args first_unbindable arg_value bindable_param].
  rewrite B. cbn [rbind]. rewrite G2.
  rewrite (find_by_google_id_in _ u Hg Hin). reflexivity.
Qed.

Lemma authorize_returning_user_witness :
  authorize sample_sa None (OAuthUserInfo (JObj [(lit "id", JStr (lit "1057"))])) sample_app
  = (Redirect (default_redirect None),
     {| app_db := app_db sample_app; app_users := app_users sample_app;
        app_progress := app_progress sample_app; app_login := Some (u_id sample_user) |}).
Proof.
  exact (authorize_returning_user sample_sa None (JObj [(lit "id", JStr (lit "1057"))]) sample_app sample_user (JStr (lit "1057"))
           users_ok_sample (or_introl eq_refl) eq_refl eq_refl).
Defined.

(** X9: a new Google account is refused with 400 and nothing changes
    (no user added, the login kept) when the userinfo has no [email]
    (the error text is 'email') or has the email of a stored user: the
    INSERT binds its values and fails the UNIQUE constraint of
    [user.email], and the error text is the [IntegrityError]'s,
    "(sqlite3.IntegrityError) UNIQUE constraint failed: user.email"
    followed by the lines SQLAlchemy adds about the statement. *)
Theorem authorize_new_user_refused sa (fe : option str) (fs : list (str * json)) (a : app_state) (g : str) (gv : json) :
  find_by_google_id (Some g) (app_users a) = None ->
  dict_lookup (lit "id") fs = Some gv -> sql_text_value gv = Ok (Some g) ->
  (dict_lookup (lit "email") fs = None ->
   authorize sa fe (OAuthUserInfo (JObj fs)) a = (JsonReply 400 (JObj [(lit "error", JStr (lit "'email'"))]), a))
  /\ (forall ev e n p, dict_lookup (lit "email") fs = Some ev -> sql_text_value ev = Ok (Some e) ->
      In e (map u_email (app_users a)) ->
      sql_text_value (dict_get fs (lit "name") JNull) = Ok n ->
      sql_text_value (dict_get fs (lit "picture") JNull) = Ok p ->
      authorize sa fe (OAuthUserInfo (JObj fs)) a
      = (JsonReply 400 (JObj [(lit "error",
           JStr (lit "(sqlite3.IntegrityError) UNIQUE constraint failed: user.email"
                 ++ sa_detail sa (user_insert gv ev (dict_get fs (lit "name") JNull)
                                             (dict_get fs (lit "picture") JNull))))]), a)).
Proof.
  intros F Hid G.
  unfold sql_text_value in G. destruct (bindable gv) eqn:B; [|discriminate]. injection G as G.
  unfold authorize, authorize_user. rewrite !py_get_dict_get.
  unfold py_getitem. rewrite Hid. cbn [rbind].
  unfold bind_check at 1, user_select. cbn [st_args first_unbindable arg_value bindable_param].
  rewrite B. cbn [rbind]. rewrite G, F.
  split.
  - intros He. rewrite He. reflexivity.
  - intros ev e n p He Ge Hin Gn Gp. rewrite He. cbn [rbind].
    unfold sql_text_value in Ge, Gn, Gp.
    destruct (bindable ev) eqn:Be; [|discriminate]. injection Ge as Ge.
    destruct (bindable (dict_get fs (lit "name") JNull)) eqn:Bn; [|discriminate].
    destruct (bindable (dict_get fs (lit "picture") JNull)) eqn:Bp; [|discriminate].
    unfold bind_check, user_insert. cbn [st_args first_unbindable arg_value bindable_param].
    rewrite B, Be, Bn, Bp. cbn [rbind]. rewrite Ge.
    destruct (existsb (fun u => str_eqb (u_google_id u) g) (app_users a)) eqn:X.
    + apply existsb_exists in X. destruct X as [v [Hv Ev]].
      unfold find_by_google_id in F. pose proof (find_none _ _ F v Hv) as K. cbv beta in K. congruence.
    + rewrite (existsb_email_In _ _ Hin). reflexivity.
Qed.

Lemma authorize_new_user_refused_witness :
  authorize sample_sa None (OAuthUserInfo (JObj [(lit "id", JStr (lit "2001")); (lit "name", JStr (lit "Bob"))]))
    sample_app
  = (JsonReply 400 (JObj [(lit "error", JStr (lit "'email'"))]), sample_app)
  /\ authorize sample_sa None
       (OAuthUserInfo (JObj [(lit "id", JStr (lit "2001")); (lit "email", JStr (lit "ada@example.com"))]))
       sample_app
     = (JsonReply 400 (JObj [(lit "error",
          JStr (lit "(sqlite3.IntegrityError) UNIQUE constraint failed: user.email"
                ++ sa_detail sample_sa (user_insert (JStr (lit "2001")) (JStr (lit "ada@example.com"))
                                                    JNull JNull)))]), sample_app).
Proof.
  split.
  - apply (proj1 (authorize_new_user_refused sample_sa None
                    [(lit "id", JStr (lit "2001")); (lit "name", JStr (lit "Bob"))] sample_app
                    (lit "2001") (JStr (lit "2001")) eq_refl eq_refl eq_refl)).
    reflexivity.
  - apply (proj2 (authorize_new_user_refused sample_sa None
                    [(lit "id", JStr (lit "2001")); (lit "email", JStr (lit "ada@example.com"))] sample_app
                    (lit "2001") (JStr (lit "2001")) eq_refl eq_refl eq_refl)
             (JStr (lit "ada@example.com")) (lit "ada@example.com") None None);
      [reflexivity | reflexivity | left; reflexivity | reflexivity | reflexivity].
Defined.

(** X10: for a stored course, [get_course_detail] lists exactly the
    course's modules, sorted by [order_index], and each module's topics
    are exactly its lessons, sorted by [order_index]. *)
Theorem get_course_detail_sorted (T : tables) (cid : str) (course : course_obj) :
  course_get T cid = Some course ->
  exists ms,
    get_course_detail T cid
    = JsonReply 200 (JObj [(lit "title", course_title course); (lit "description", course_description course);
                           (lit "modules", JArr (map (module_json T) ms))])
    /\ Permutation ms (course_modules T cid)
    /\ Sorted (fun x y => module_order_index x <= module_order_index y)%nat ms
    /\ forall m, exists ls,
         module_json T m = JObj [(lit "title", module_title m); (lit "topics", JArr (map topic_json ls))]
         /\ Permutation ls (module_lessons T m)
         /\ Sorted (fun x y => lesson_order x <= lesson_order y)%nat ls.
Proof.
  intros Hc. unfold get_course_detail. rewrite Hc, (course_get_id _ _ _ Hc).
  eexists. split; [reflexivity|].
  destruct (sorted_by_spec module_order_index (course_modules T cid)) as [P S].
  split; [exact P|]. split; [exact S|].
  intros m. exists (sorted_by lesson_order (module_lessons T m)). split; [reflexivity|].
  apply sorted_by_spec.
Qed.

Lemma get_course_detail_sorted_witness :
  exists ms,
    get_course_detail sample_tables python_id
    = JsonReply 200 (JObj [(lit "title", course_title python_course);
                           (lit "description", course_description python_course);
                           (lit "modules", JArr (map (module_json sample_tables) ms))])
    /\ Permutation ms (course_modules sample_tables python_id)
    /\ Sorted (fun x y => module_order_index x <= module_order_index y)%nat ms
    /\ forall m, exists ls,
         module_json sample_tables m = JObj [(lit "title", module_title m); (lit "topics", JArr (map topic_json ls))]
         /\ Permutation ls (module_lessons sample_tables m)
         /\ Sorted (fun x y => lesson_order x <= lesson_order y)%nat ls.
Proof. exact (get_course_detail_sorted sample_tables python_id python_course eq_refl). Defined.

(** X11: when a later lesson exists in the lesson's own module,
    [get_lesson_detail] answers 200 and its [next_lesson_id] is a lesson
    of that module with the least [order_index] greater than the
    lesson's own. *)
Theorem get_lesson_detail_next_in_module (T : tables) (lid : N) (l : lesson_obj) (m : module_obj) :
  lesson_get T lid = Some l -> module_get T (lesson_module_id l) = Some m ->
  (exists q, In q (t_lessons T) /\ lesson_module_id (snd q) = lesson_module_id l
             /\ (lesson_order_index l < lesson_order q)%nat) ->
  exists p, In p (t_lessons T) /\ lesson_module_id (snd p) = lesson_module_id l
    /\ (lesson_order_index l < lesson_order p)%nat
    /\ (forall q, In q (t_lessons T) -> lesson_module_id (snd q) = lesson_module_id l ->
        (lesson_order_index l < lesson_order q)%nat -> (lesson_order p <= lesson_order q)%nat)
    /\ get_lesson_detail T lid = JsonReply 200 (lesson_detail_json lid l m (JNum (Z.of_N (fst p)))).
Proof.
  intros Hl Hm [q [Hq [Eq Lq]]].
  unfold get_lesson_detail. rewrite Hl, Hm. unfold next_lesson_id.
  destruct (first_min lesson_order
              (filter (fun p => opt_N_eqb (lesson_module_id (snd p)) (lesson_module_id l)
                                && Nat.ltb (lesson_order_index l) (lesson_order p)) (t_lessons T)))
    as [p|] eqn:E.
  - destruct (first_min_some _ _ _ E) as [Hp Hmin].
    apply filter_In in Hp. destruct Hp as [Hp C]. apply andb_true_iff in C. destruct C as [C1 C2].
    apply opt_N_eqb_eq in C1. apply Nat.ltb_lt in C2.
    exists p. split; [exact Hp|]. split; [exact C1|]. split; [exact C2|]. split; [|reflexivity].
    intros q' Hq' E' L'. apply Hmin. apply filter_In. split; [exact Hq'|].
    apply andb_true_iff. split; [apply opt_N_eqb_eq; exact E' | apply Nat.ltb_lt; exact L'].
  - apply first_min_none in E. exfalso.
    assert (In q []) as [].
    { rewrite <- E. apply filter_In. split; [exact Hq|].
      apply andb_true_iff. split; [apply opt_N_eqb_eq; exact Eq | apply Nat.ltb_lt; exact Lq]. }
Qed.

Lemma get_lesson_detail_next_in_module_witness :
  exists p, In p (t_lessons sample_tables) /\ lesson_module_id (snd p) = lesson_module_id (sample_lesson 1 1 "a")
    /\ (lesson_order_index (sample_lesson 1 1 "a") < lesson_order p)%nat
    /\ (forall q, In q (t_lessons sample_tables) -> lesson_module_id (snd q) = lesson_module_id (sample_lesson 1 1 "a") ->
        (lesson_order_index (sample_lesson 1 1 "a") < lesson_order q)%nat -> (lesson_order p <= lesson_order q)%nat)
    /\ get_lesson_detail sample_tables 11
       = JsonReply 200 (lesson_detail_json 11 (sample_lesson 1 1 "a") (sample_module_row 1 1) (JNum (Z.of_N (fst p)))).
Proof.
  apply (get_lesson_detail_next_in_module sample_tables 11 (sample_lesson 1 1 "a") (sample_module_row 1 1));
    [reflexivity | reflexivity |].
  exists (10, sample_lesson 1 2 "b"). split; [left; reflexivity|]. split; [reflexivity|]. cbn. lia.
Defined.

(** X12: for the last lesson of its module, [next_lesson_id] comes only
    from the next module of the same course (least greater
    [order_index]): it is that module's first lesson, and it is null when
    that module has no lesson, even if a module after it has lessons. *)
Theorem get_lesson_detail_next_module (T : tables) (lid : N) (l : lesson_obj) (m m' : module_obj) :
  lesson_get T lid = Some l -> module_get T (lesson_module_id l) = Some m ->
  (forall q, In q (t_lessons T) -> lesson_module_id (snd q) = lesson_module_id l ->
   (lesson_order q <= lesson_order_index l)%nat) ->
  In m' (t_modules T) -> module_course_id m' = module_course_id m ->
  (module_order_index m < module_order_index m')%nat ->
  (forall m'', In m'' (t_modules T) -> module_course_id m'' = module_course_id m ->
   (module_order_index m < module_order_index m'')%nat ->
   m'' = m' \/ (module_order_index m' < module_order_index m'')%nat) ->
  exists v, get_lesson_detail T lid = JsonReply 200 (lesson_detail_json lid l m v)
    /\ ((forall q, In q (t_lessons T) -> lesson_module_id (snd q) <> module_id m') -> v = JNull)
    /\ (forall q, In q (t_lessons T) -> lesson_module_id (snd q) = module_id m' ->
        exists p, In p (t_lessons T) /\ lesson_module_id (snd p) = module_id m'
          /\ (forall q', In q' (t_lessons T) -> lesson_module_id (snd q') = module_id m' ->
              (lesson_order p <= lesson_order q')%nat)
          /\ v = JNum (Z.of_N (fst p))).
Proof.
  intros Hl Hm Hlast Hm' Ec Lo Huniq.
  unfold get_lesson_detail. rewrite Hl, Hm. unfold next_lesson_id.
  rewrite (filter_all_false _ (t_lessons T)).
  2:{ intros x Hx. destruct (opt_N_eqb (lesson_module_id (snd x)) (lesson_module_id l)) eqn:E; [|reflexivity].
      apply opt_N_eqb_eq in E. specialize (Hlast x Hx E). cbn. apply Nat.ltb_ge. exact Hlast. }
  cbn [first_min].
  assert (Hin' : In m' (filter (fun m0 => str_eqb (module_course_id m0) (module_course_id m)
                                          && Nat.ltb (module_order_index m) (module_order_index m0))
                               (t_modules T))).
  { apply filter_In. split; [exact Hm'|]. apply andb_true_iff.
    split; [apply str_eqb_eq; exact Ec | apply Nat.ltb_lt; exact Lo]. }
  destruct (first_min module_order_index
              (filter (fun m0 => str_eqb (module_course_id m0) (module_course_id m)
                                 && Nat.ltb (module_order_index m) (module_order_index m0)) (t_modules T)))
    as [m0|] eqn:E.
  - destruct (first_min_some _ _ _ E) as [H0 Hmin].
    specialize (Hmin m' Hin').
    apply filter_In in H0. destruct H0 as [H0 C]. apply andb_true_iff in C. destruct C as [C1 C2].
    apply str_eqb_eq in C1. apply Nat.ltb_lt in C2.
    destruct (Huniq m0 H0 C1 C2) as [->|L]; [|lia].
    eexists. split; [reflexivity|]. split.
    + intros Hno. rewrite (filter_all_false _ (t_lessons T)); [reflexivity|].
      intros x Hx. destruct (opt_N_eqb (lesson_module_id (snd x)) (module_id m')) eqn:Ex; [|reflexivity].
      apply opt_N_eqb_eq in Ex. exfalso. exact (Hno x Hx Ex).
    + intros q Hq Eq.
      destruct (first_min lesson_order
                  (filter (fun p => opt_N_eqb (lesson_module_id (snd p)) (module_id m')) (t_lessons T)))
        as [p|] eqn:F.
      * destruct (first_min_some _ _ _ F) as [Hp Hpmin].
        apply filter_In in Hp. destruct Hp as [Hp Cp]. apply opt_N_eqb_eq in Cp.
        exists p. split; [exact Hp|]. split; [exact Cp|]. split; [|reflexivity].
        intros q' Hq' E'. apply Hpmin. apply filter_In. split; [exact Hq'|]. apply opt_N_eqb_eq. exact E'.
      * apply first_min_none in F. exfalso.
        assert (In q []) as [].
        { rewrite <- F. apply filter_In. split; [exact Hq|]. apply opt_N_eqb_eq. exact Eq. }
  - apply first_min_none in E. exfalso. rewrite E in Hin'. exact Hin'.
Qed.

Lemma get_lesson_detail_next_module_witness :
  exists v, get_lesson_detail sample_tables 10
            = JsonReply 200 (lesson_detail_json 10 (sample_lesson 1 2 "b") (sample_module_row 1 1) v)
    /\ ((forall q, In q (t_lessons sample_tables) -> lesson_module_id (snd q) <> module_id (sample_module_row 2 2)) -> v = JNull)
    /\ (forall q, In q (t_lessons sample_tables) -> lesson_module_id (snd q) = module_id (sample_module_row 2 2) ->
        exists p, In p (t_lessons sample_tables) /\ lesson_module_id (snd p) = module_id (sample_module_row 2 2)
          /\ (forall q', In q' (t_lessons sample_tables) -> lesson_module_id (snd q') = module_id (sample_module_row 2 2) ->
              (lesson_order p <= lesson_order q')%nat)
          /\ v = JNum (Z.of_N (fst p))).
Proof.
  apply (get_lesson_detail_next_module sample_tables 10 (sample_lesson 1 2 "b")
           (sample_module_row 1 1) (sample_module_row 2 2));
    [reflexivity | reflexivity | | left; reflexivity | reflexivity | cbn; lia |].
  - intros q Hq E. destruct Hq as [<-|[<-|[<-|[]]]]; cbn in *; [lia | lia | discriminate].
  - intros m'' H _ L. destruct H as [<-|[<-|[]]]; [left; reflexivity | cbn in L; lia].
Defined.

(** X13: a non-empty topic that is the title of a stored lesson is
    answered from the database: [get_videos] returns that lesson's card
    (score 10), the same for every behaviour of the YouTube search. *)
Theorem get_videos_stored_lesson (T : tables) (t : str) (p : N * lesson_obj) :
  t <> [] -> In p (t_lessons T) -> lesson_title (snd p) = JStr t ->
  exists p', In p' (t_lessons T) /\ lesson_title (snd p') = JStr t
    /\ forall yts, get_videos yts (Some t) T = JsonReply 200 (JArr [lesson_card (snd p')]).
Proof.
  intros Hne Hp Ht.
  destruct (find (fun p => json_is_str (lesson_title (snd p)) t) (t_lessons T)) as [p'|] eqn:F.
  - apply find_some in F as G. destruct G as [Hp' E]. apply json_is_str_eq in E.
    exists p'. split; [exact Hp'|]. split; [exact E|].
    intros yts. unfold get_videos. destruct t as [|c t']; [contradiction|]. rewrite F. reflexivity.
  - pose proof (find_none _ _ F p Hp) as K. cbv beta in K.
    rewrite Ht in K. cbn [json_is_str] in K. rewrite str_eqb_refl in K. discriminate.
Qed.

Lemma get_videos_stored_lesson_witness :
  exists p', In p' (t_lessons sample_tables) /\ lesson_title (snd p') = JStr (lit "c")
    /\ forall yts, get_videos yts (Some (lit "c")) sample_tables = JsonReply 200 (JArr [lesson_card (snd p')]).
Proof.
  apply (get_videos_stored_lesson sample_tables (lit "c") (12, sample_lesson 2 1 "c"));
    [discriminate | right; right; left; reflexivity | reflexivity].
Defined.

(** X14: for a non-empty topic that no stored lesson has as title,
    [get_videos] searches "<topic> tutorial": a failing search answers
    500 "YouTube search failed: <error>"; otherwise every result becomes
    one card (id, title, first thumbnail, score 5) in search order, and
    a result without [id], [title] or a first thumbnail makes the route
    fail with 500. *)
Theorem get_videos_search (yts : str -> search_outcome) (t : str) (T : tables) :
  t <> [] -> (forall p, In p (t_lessons T) -> lesson_title (snd p) <> JStr t) ->
  (forall e, yts (t ++ lit " tutorial") = SearchRaises e ->
   get_videos yts (Some t) T
   = JsonReply 500 (JObj [(lit "error", JStr (lit "YouTube search failed: " ++ exn_str e))]))
  /\ (forall results, yts (t ++ lit " tutorial") = SearchReturns results ->
      (forall v, In v results -> search_card v <> None) ->
      exists cards, get_videos yts (Some t) T = JsonReply 200 (JArr cards)
                    /\ Forall2 (fun v c => search_card v = Some c) results cards)
  /\ (forall results v, yts (t ++ lit " tutorial") = SearchReturns results ->
      In v results -> search_card v = None -> get_videos yts (Some t) T = ErrorPage 500).
Proof.
  intros Hne Hno.
  assert (F : find (fun p => json_is_str (lesson_title (snd p)) t) (t_lessons T) = None).
  { destruct (find (fun p => json_is_str (lesson_title (snd p)) t) (t_lessons T)) as [p|] eqn:F; [|reflexivity].
    apply find_some in F. destruct F as [Hp E]. apply json_is_str_eq in E. exfalso. exact (Hno p Hp E). }
  unfold get_videos. destruct t as [|c t']; [contradiction|]. rewrite F.
  split; [|split].
  - intros e Hy. rewrite Hy. reflexivity.
  - intros results Hy Hall. rewrite Hy.
    destruct (map_option_some search_card results Hall) as [cards [Hc Hf]].
    rewrite Hc. exists cards. split; [reflexivity|exact Hf].
  - intros results v Hy Hv Hn. rewrite Hy, (map_option_none search_card results v Hv Hn). reflexivity.
Qed.

Lemma get_videos_search_witness :
  (forall e, sample_yts (lit "zzz" ++ lit " tutorial") = SearchRaises e ->
   get_videos sample_yts (Some (lit "zzz")) no_tables
   = JsonReply 500 (JObj [(lit "error", JStr (lit "YouTube search failed: " ++ exn_str e))]))
  /\ (forall results, sample_yts (lit "zzz" ++ lit " tutorial") = SearchReturns results ->
      (forall v, In v results -> search_card v <> None) ->
      exists cards, get_videos sample_yts (Some (lit "zzz")) no_tables = JsonReply 200 (JArr cards)
                    /\ Forall2 (fun v c => search_card v = Some c) results cards)
  /\ (forall results v, sample_yts (lit "zzz" ++ lit " tutorial") = SearchReturns results ->
      In v results -> search_card v = None -> get_videos sample_yts (Some (lit "zzz")) no_tables = ErrorPage 500).
Proof. apply get_videos_search; [discriminate | intros p []]. Defined.

(** X15: [get_syllabus] always answers 200.  The body is the mock
    syllabus, or, when the client is ready and the model returned text,
    the parse of that text after the fences are removed and the text is
    stripped; that parsed text never contains a triple backtick. *)
Theorem get_syllabus_fence_free (json_loads : str -> option json) (ready : bool) (gen : gen_outcome) :
  exists v, get_syllabus json_loads ready gen = JsonReply 200 v
    /\ (v = MOCK_SYLLABUS
        \/ exists text, ready = true /\ gen = GenText text
                        /\ str_contains fence (syllabus_clean_text text) = false
                        /\ json_loads (syllabus_clean_text text) = Some v).
Proof.
  unfold get_syllabus. destruct ready; cbn [negb].
  - destruct gen as [e|text]; [eexists; split; [reflexivity|left; reflexivity]|].
    destruct (json_loads (syllabus_clean_text text)) as [v|] eqn:E.
    + exists v. split; [reflexivity|]. right. exists text.
      split; [reflexivity|]. split; [reflexivity|]. split; [apply syllabus_clean_text_fence_free|exact E].
    + eexists; split; [reflexivity|left; reflexivity].
  - eexists; split; [reflexivity|left; reflexivity].
Qed.





(** X18: a request to [POST /api/generate] that is not answered with
    status 200 leaves the committed rows as they were: the early 400
    answers touch nothing, and a failing generation never reaches its
    commit. *)
Theorem generate_course_api_failure_keeps_store str_lower json_loads yt sa trace
    (key : option str) (gen : gen_outcome) (rand : N) (req : request_body) (s : db) resp s' :
  generate_course_api str_lower json_loads yt sa trace key gen rand req s = (resp, s') ->
  status resp <> 200 -> store s' = store s.
Proof.
  unfold generate_course_api.
  destruct (api_try str_lower json_loads yt sa key gen rand req s) as [r s1] eqn:E.
  apply api_try_cases in E as [[-> _] | [topic [res [Hg Hr]]]].
  - intros H _. destruct r as [r0|e]; [injection H as _ <-; reflexivity|].
    destruct e; cbv zeta in H;
      repeat match type of H with context [if ?b then _ else _] => destruct b end;
      injection H as _ <-; reflexivity.
  - destruct res as [cid|e0]; subst r.
    + intros H Hs. injection H as <- _. exfalso. apply Hs. reflexivity.
    + pose proof (generate_course_err_store str_lower json_loads yt sa key gen rand topic s e0 s1 Hg) as K.
      intros H _. destruct e0; cbv zeta in H;
        repeat match type of H with context [if ?b then _ else _] => destruct b end;
        injection H as _ <-; exact K.
Qed.

Lemma generate_course_api_failure_keeps_store_witness :
  generate_course_api ascii_lower (loads_as rust_syllabus) echo_search sample_sa [] (Some (lit "key"))
    (GenText (lit "{}")) 123 BadJsonBody empty_db
  = (error_response 400 (lit "Invalid JSON in request body"), empty_db)
  /\ status (error_response 400 (lit "Invalid JSON in request body")) <> 200
  /\ store empty_db = store empty_db.
Proof.
  split; [reflexivity|]. split; [discriminate|].
  apply (generate_course_api_failure_keeps_store ascii_lower (loads_as rust_syllabus) echo_search sample_sa []
           (Some (lit "key")) (GenText (lit "{}")) 123 BadJsonBody empty_db
           (error_response 400 (lit "Invalid JSON in request body")) empty_db);
    [reflexivity | discriminate].
Defined.

(** X19: when [POST /api/generate] answers 200, its body carries the new
    course id and the success message, the store is the old store
    followed by the committed rows, which include a generated course
    with that id, the session has nothing left staged, and [GET
    /api/courses] then lists that course. *)
Theorem generate_course_api_success_commits str_lower json_loads yt sa trace
    (key : option str) (gen : gen_outcome) (rand : N) (req : request_body) (s : db) resp s' :
  generate_course_api str_lower json_loads yt sa trace key gen rand req s = (resp, s') ->
  status resp = 200 ->
  exists cid c added,
    body resp = [(lit "course_id", JStr cid); (lit "message", JStr (lit "Course generated successfully!"))]
    /\ store s' = store s ++ added /\ In (OCourse c) added
    /\ course_id c = cid /\ course_is_generated c = true /\ staged s' = []
    /\ exists listed, get_courses s' = JsonReply 200 (JArr listed) /\ In (course_json c) listed.
Proof.
  unfold generate_course_api.
  destruct (api_try str_lower json_loads yt sa key gen rand req s) as [r s1] eqn:E.
  apply api_try_cases in E as [[-> Hne] | [topic [res [Hg Hr]]]].
  - intros H Hs. destruct r as [r0|e]; [injection H as -> _; exfalso; exact (Hne resp eq_refl Hs)|].
    exfalso. destruct e; cbv zeta in H;
      repeat match type of H with context [if ?b then _ else _] => destruct b end;
      injection H as <- _; discriminate Hs.
  - destruct res as [cid|e0]; subst r.
    + intros H _. injection H as <- <-.
      destruct (generate_course_commits str_lower json_loads yt sa key gen rand topic s cid s1 Hg)
        as [c [added [Hst [Hin [Hc [Hgen Hstg]]]]]].
      exists cid, c, added. split; [reflexivity|]. split; [exact Hst|]. split; [exact Hin|].
      split; [exact Hc|]. split; [exact Hgen|]. split; [exact Hstg|].
      eexists. split; [reflexivity|]. apply in_map.
      unfold store_courses. apply in_flat_map. exists (OCourse c). split; [|left; reflexivity].
      rewrite Hst. apply in_or_app. right. exact Hin.
    + intros H Hs. exfalso. destruct e0; cbv zeta in H;
        repeat match type of H with context [if ?b then _ else _] => destruct b end;
        injection H as <- _; discriminate Hs.
Qed.

Lemma generate_course_api_success_commits_witness :
  exists resp s',
    generate_course_api ascii_lower (loads_as rust_syllabus) echo_search sample_sa [] (Some (lit "key"))
      (GenText (lit "{}")) 123 (JsonBody (JObj [(lit "topic", JStr (lit "Rust"))])) empty_db = (resp, s')
    /\ status resp = 200
    /\ exists cid c added,
         body resp = [(lit "course_id", JStr cid); (lit "message", JStr (lit "Course generated successfully!"))]
         /\ store s' = store empty_db ++ added /\ In (OCourse c) added
         /\ course_id c = cid /\ course_is_generated c = true /\ staged s' = []
         /\ exists listed, get_courses s' = JsonReply 200 (JArr listed) /\ In (course_json c) listed.
Proof.
  destruct (generate_course_api ascii_lower (loads_as rust_syllabus) echo_search sample_sa [] (Some (lit "key"))
              (GenText (lit "{}")) 123 (JsonBody (JObj [(lit "topic", JStr (lit "Rust"))])) empty_db)
    as [resp s'] eqn:E.
  assert (Hs : status resp = 200) by (vm_compute in E; injection E as <- _; reflexivity).
  exists resp, s'. split; [reflexivity|]. split; [exact Hs|].
  exact (generate_course_api_success_commits ascii_lower (loads_as rust_syllabus) echo_search sample_sa []
           (Some (lit "key")) (GenText (lit "{}")) 123 (JsonBody (JObj [(lit "topic", JStr (lit "Rust"))]))
           empty_db resp s' E Hs).
Defined.

(** X20: [clean_json_string] gives back a text that a model wrapped in a
    Markdown code block, opened by a ```json or ``` line and closed by a
    ``` line, provided the text has no whitespace at either end and does
    not itself start with three backticks. *)
Theorem clean_json_string_unfences (body : str) :
  drop_space body = body -> drop_space (rev body) = rev body -> starts_with fence body = false ->
  clean_json_string (fence ++ lit "json" ++ [10] ++ body ++ [10] ++ fence) = body
  /\ clean_json_string (fence ++ [10] ++ body ++ [10] ++ fence) = body.
Proof.
  intros H1 H2 H3.
  assert (Hcl : sub_close_fence (body ++ [10] ++ fence) = body)
    by (apply sub_close_fence_body, no_trailing_space, H2).
  assert (Hst : py_strip body = body) by (unfold py_strip; rewrite H1, H2, rev_involutive; reflexivity).
  destruct body as [|c b]; [split; reflexivity|].
  assert (Hd : drop_space (10 :: (c :: b) ++ [10] ++ fence) = (c :: b) ++ [10] ++ fence).
  { transitivity (drop_space ((c :: b) ++ [10] ++ fence)); [reflexivity|].
    apply drop_space_body; [discriminate|exact H1]. }
  assert (Hs : sub_open_fence ((c :: b) ++ [10] ++ fence) = (c :: b) ++ [10] ++ fence)
    by (apply sub_open_fence_id, starts_with_fence_nl, H3).
  unfold clean_json_string. cbv zeta. split.
  - change (sub_open_json_fence (fence ++ lit "json" ++ [10] ++ (c :: b) ++ [10] ++ fence))
      with (drop_space (10 :: (c :: b) ++ [10] ++ fence)).
    rewrite Hd, Hs, Hcl. exact Hst.
  - change (fence ++ [10] ++ (c :: b) ++ [10] ++ fence)
      with (backtick :: backtick :: backtick :: 10 :: (c :: b) ++ [10] ++ fence).
    rewrite (sub_open_json_fence_plain ((c :: b) ++ [10] ++ fence)).
    change (sub_open_fence (backtick :: backtick :: backtick :: 10 :: (c :: b) ++ [10] ++ fence))
      with (drop_space (10 :: (c :: b) ++ [10] ++ fence)).
    rewrite Hd, Hcl. exact Hst.
Qed.

Lemma clean_json_string_unfences_witness :
  drop_space (lit "{}") = lit "{}" /\ drop_space (rev (lit "{}")) = rev (lit "{}")
  /\ starts_with fence (lit "{}") = false
  /\ (clean_json_string (fence ++ lit "json" ++ [10] ++ lit "{}" ++ [10] ++ fence) = lit "{}"
      /\ clean_json_string (fence ++ [10] ++ lit "{}" ++ [10] ++ fence) = lit "{}").
Proof.
  split; [reflexivity|]. split; [reflexivity|]. split; [reflexivity|].
  apply clean_json_string_unfences; reflexivity.
Defined.

(** X21: [logout] answers 401 and changes nothing for an anonymous
    request; for a logged-in user it answers "Logged out successfully"
    and keeps the tables, after which [/api/auth/me] answers 401 with
    null, the progress routes answer 401 and a second logout answers
    401. *)
Theorem logout_ends_session (a : app_state) :
  (current_user a = None -> logout a = (ErrorPage 401, a))
  /\ forall u, current_user a = Some u ->
     let a' := snd (logout a) in
     fst (logout a) = message_reply 200 "message" "Logged out successfully"
     /\ app_users a' = app_users a /\ app_progress a' = app_progress a /\ app_db a' = app_db a
     /\ current_user_info a' = JsonReply 401 JNull
     /\ get_progress a' = ErrorPage 401
     /\ (forall now data, update_progress now data a' = (ErrorPage 401, a'))
     /\ fst (logout a') = ErrorPage 401.
Proof.
  unfold logout. split; [intros H; rewrite H; reflexivity|].
  intros u H. rewrite H. cbn [fst snd app_users app_progress app_db].
  assert (Hn : current_user {| app_db := app_db a; app_users := app_users a;
                               app_progress := app_progress a; app_login := None |} = None)
    by reflexivity.
  split; [reflexivity|]. split; [reflexivity|]. split; [reflexivity|]. split; [reflexivity|].
  unfold current_user_info, get_progress, update_progress. rewrite Hn.
  split; [reflexivity|]. split; [reflexivity|]. split; [reflexivity|reflexivity].
Qed.

Lemma logout_ends_session_witness :
  current_user sample_app = Some sample_user
  /\ (let a' := snd (logout sample_app) in
      fst (logout sample_app) = message_reply 200 "message" "Logged out successfully"
      /\ app_users a' = app_users sample_app /\ app_progress a' = app_progress sample_app
      /\ app_db a' = app_db sample_app
      /\ current_user_info a' = JsonReply 401 JNull
      /\ get_progress a' = ErrorPage 401
      /\ (forall now data, update_progress now data a' = (ErrorPage 401, a'))
      /\ fst (logout a') = ErrorPage 401).
Proof.
  split; [reflexivity|].
  apply (proj2 (logout_ends_session sample_app) sample_user). reflexivity.
Defined.
